(** * misconfig-configschemavalidator: a model of [main.py]

    The program validates a configuration file (JSON or YAML) against a
    JSON-Schema file.  It is glue code around the Python standard library
    ([os.path], [json], [logging]), [ruamel.yaml] and [jsonschema].

    The development follows the layout of [main.py]:
    - [PyStr], [OsPath]: the string primitives and [os.path.splitext]
      used by [determine_file_type];
    - [Py]: exceptions with their class hierarchy, [try]/[except],
      logging and [sys.exit] as a small state-and-error monad;
    - [Json], [Yaml]: the entry points of the two parsers, down to the
      point where the text of a non-empty document is analysed, which is
      left to the environment, and the safe constructor of
      [ruamel.yaml], which makes Python values of the composed nodes;
    - [load_json], [load_yaml], [validate_config], [determine_file_type],
      [main]: the functions of [main.py], in the order of the file.

    Python [str] values are modelled as [string] (a sequence of 8-bit
    characters); indices are [Z], as [str.rfind] returns [-1]. *)

From Stdlib Require Import String Ascii ZArith List Bool Lia DecimalString.
Import ListNotations.
Open Scope string_scope.
Open Scope Z_scope.

(* ===================================================================== *)
(** ** Python string primitives *)
(* ===================================================================== *)

Module PyStr.

(** [len(s)] *)
Definition len (s : string) : Z := Z.of_nat (String.length s).

(** [s[:n]] and [s[n:]] for a natural number [n]. *)
Fixpoint take (n : nat) (s : string) : string :=
  match n, s with
  | O, _ => ""
  | S _, EmptyString => ""
  | S n', String a s' => String a (take n' s')
  end.

Fixpoint drop (n : nat) (s : string) : string :=
  match n, s with
  | O, _ => s
  | S _, EmptyString => ""
  | S n', String _ s' => drop n' s'
  end.

(** [s[lo:hi]] for indices that are not negative (the only slices the
    program takes); an index past the end is clamped, as in Python. *)
Definition slice (s : string) (lo hi : Z) : string :=
  take (Z.to_nat (hi - lo)) (drop (Z.to_nat lo) s).

Definition slice_to (s : string) (hi : Z) : string := take (Z.to_nat hi) s.
Definition slice_from (s : string) (lo : Z) : string := drop (Z.to_nat lo) s.

(** [s.rfind(c)] for a one-character needle: the highest index at which
    [c] occurs, [-1] when it does not occur.  [rfind_from] scans the
    suffix that starts at index [i]. *)
Fixpoint rfind_from (c : ascii) (s : string) (i : Z) : Z :=
  match s with
  | EmptyString => -1
  | String a s' =>
      let r := rfind_from c s' (i + 1) in
      if 0 <=? r then r else if Ascii.eqb a c then i else -1
  end.

Definition rfind (s : string) (c : ascii) : Z := rfind_from c s 0.

(** [c.lower()] on one character: [A]..[Z] are mapped to [a]..[z], every
    other 8-bit character is left as it is. *)
Definition lower_char (c : ascii) : ascii :=
  let n := nat_of_ascii c in
  if ((65 <=? n) && (n <=? 90))%nat then ascii_of_nat (n + 32) else c.

(** [s.lower()] *)
Fixpoint lower (s : string) : string :=
  match s with
  | EmptyString => EmptyString
  | String a s' => String (lower_char a) (lower s')
  end.

(** [c in s] for a character. *)
Fixpoint contains (c : ascii) (s : string) : bool :=
  match s with
  | EmptyString => false
  | String a s' => Ascii.eqb a c || contains c s'
  end.

(** [x in xs] for a list of strings, as in [ext in ['.yaml', '.yml']]. *)
Fixpoint str_in (x : string) (xs : list string) : bool :=
  match xs with
  | [] => false
  | y :: ys => String.eqb x y || str_in x ys
  end.

(** Truthiness of a string: only the empty string is false. *)
Definition truthy (s : string) : bool :=
  match s with EmptyString => false | _ => true end.

End PyStr.

(* ===================================================================== *)
(** ** [os.path.splitext] *)
(* ===================================================================== *)

Module OsPath.
Import PyStr.

(** The [while] loop of [genericpath._splitext]:
<<
    while filenameIndex < dotIndex:
        if p[filenameIndex:filenameIndex+1] != extsep:
            return p[:dotIndex], p[dotIndex:]
        filenameIndex += 1
>>
    [fuel] is [dotIndex - filenameIndex]; the result is [true] when the
    loop returns from inside, that is when a character other than
    [extsep] stands before the last dot of the file name. *)
Fixpoint found_non_dot (p : string) (extsep : ascii)
         (filenameIndex : Z) (fuel : nat) : bool :=
  match fuel with
  | O => false
  | S fuel' =>
      if negb (String.eqb (slice p filenameIndex (filenameIndex + 1))
                          (String extsep ""))
      then true
      else found_non_dot p extsep (filenameIndex + 1) fuel'
  end.

(** [genericpath._splitext(p, sep, altsep, extsep)] *)
Definition _splitext (p : string) (sep : ascii) (altsep : option ascii)
           (extsep : ascii) : string * string :=
  let sepIndex := rfind p sep in
  let sepIndex :=
    match altsep with
    | Some alt => Z.max sepIndex (rfind p alt)
    | None => sepIndex
    end in
  let dotIndex := rfind p extsep in
  if sepIndex <? dotIndex then
    let filenameIndex := sepIndex + 1 in
    if found_non_dot p extsep filenameIndex
                     (Z.to_nat (dotIndex - filenameIndex))
    then (slice_to p dotIndex, slice_from p dotIndex)
    else (p, slice_to p 0)
  else (p, slice_to p 0).

(** [os.path.splitext] where [os.path] is [posixpath]: [sep = '/'],
    [altsep = None], [extsep = '.']. *)
Definition splitext (p : string) : string * string :=
  _splitext p "/"%char None "."%char.

End OsPath.

(* ===================================================================== *)
(** ** Python values, exceptions and effects *)
(* ===================================================================== *)

Module Py.

(** The values a loader can hand to the validator.  [PyObject] stands
    for an instance of any class that is not a built-in data type, made
    by calling the class or callable named [cls]. *)
#[warnings="-register-all"]
Inductive pyvalue : Type :=
| PyNone
| PyBool (b : bool)
| PyInt (n : Z)
| PyFloat (repr : string)
| PyStr (s : string)
| PyBytes (s : string)
| PyDatetime (iso : string)
| PyList (items : list pyvalue)
| PyTuple (items : list pyvalue)
| PySet (items : list pyvalue)
| PyDict (items : list (pyvalue * pyvalue))
| PyObject (cls : string) (args : list pyvalue).

(** Exception classes that the program names or that its libraries
    raise, with the base class of each ([Exception] is the root of the
    model: [open], the parsers and the validator raise nothing
    else). *)
Inductive exc_class : Type :=
| Exception
| OSError | FileNotFoundError | PermissionError | IsADirectoryError
| LookupError | KeyError
| ValueError | UnicodeError | UnicodeDecodeError | JSONDecodeError
| TypeError | AssertionError
| RuntimeError | RecursionError
| YAMLError | MarkedYAMLError
| ScannerError | ParserError | ComposerError | ConstructorError
| DuplicateKeyError
| JsonschemaError | ValidationError | SchemaError.

Definition base (c : exc_class) : option exc_class :=
  match c with
  | Exception => None
  | OSError | LookupError | ValueError | TypeError | AssertionError
  | RuntimeError | YAMLError | JsonschemaError => Some Exception
  | FileNotFoundError | PermissionError | IsADirectoryError => Some OSError
  | KeyError => Some LookupError
  | UnicodeError | JSONDecodeError => Some ValueError
  | UnicodeDecodeError => Some UnicodeError
  | RecursionError => Some RuntimeError
  | MarkedYAMLError => Some YAMLError
  | ScannerError | ParserError | ComposerError | ConstructorError
  | DuplicateKeyError => Some MarkedYAMLError
  | ValidationError | SchemaError => Some JsonschemaError
  end.

Definition exc_class_eqb (c d : exc_class) : bool :=
  match c, d with
  | Exception, Exception | OSError, OSError
  | FileNotFoundError, FileNotFoundError
  | PermissionError, PermissionError
  | IsADirectoryError, IsADirectoryError
  | LookupError, LookupError | KeyError, KeyError
  | ValueError, ValueError | UnicodeError, UnicodeError
  | UnicodeDecodeError, UnicodeDecodeError
  | JSONDecodeError, JSONDecodeError
  | TypeError, TypeError | AssertionError, AssertionError
  | RuntimeError, RuntimeError | RecursionError, RecursionError
  | DuplicateKeyError, DuplicateKeyError
  | YAMLError, YAMLError | MarkedYAMLError, MarkedYAMLError
  | ScannerError, ScannerError | ParserError, ParserError
  | ComposerError, ComposerError | ConstructorError, ConstructorError
  | JsonschemaError, JsonschemaError
  | ValidationError, ValidationError | SchemaError, SchemaError => true
  | _, _ => false
  end.

(** [issubclass(c, d)]: [d] is [c] or one of its ancestors.  The deepest
    class of the model is four steps below [Exception]. *)
Fixpoint issubclass_fuel (fuel : nat) (c d : exc_class) : bool :=
  exc_class_eqb c d ||
  match fuel, base c with
  | S fuel', Some b => issubclass_fuel fuel' b d
  | _, _ => false
  end.

Definition issubclass : exc_class -> exc_class -> bool := issubclass_fuel 4.

(** An exception object: its class and [str(e)]. *)
Record exn : Type := mk_exn { exc_type : exc_class; exc_str : string }.

Definition isinstance (e : exn) (c : exc_class) : bool :=
  issubclass (exc_type e) c.

(** [isinstance(e, (c1, ..., cn))], the test of an [except] clause. *)
Definition matches (e : exn) (cs : list exc_class) : bool :=
  existsb (isinstance e) cs.

(** Result of a call that returns or raises. *)
Inductive result (A : Type) : Type :=
| Ok (a : A)
| Err (e : exn).
Arguments Ok {A} a.
Arguments Err {A} e.

Definition rbind {A B} (r : result A) (k : A -> result B) : result B :=
  match r with Ok a => k a | Err e => Err e end.

(** Outcome of a piece of the driver: it returns, raises an exception
    derived from [Exception], or raises [SystemExit(code)], which derives
    from [BaseException] only and is caught by no clause of the
    program. *)
Inductive outcome (A : Type) : Type :=
| Return (a : A)
| Raise (e : exn)
| SystemExit (code : Z).
Arguments Return {A} a.
Arguments Raise {A} e.
Arguments SystemExit {A} code.

(** A text file object: [read()] returns the text or raises (a
    [UnicodeDecodeError], an [OSError]). *)
Record TextIO : Type := mk_file { read : result string }.

(** Logging levels of the [logging] module. *)
Inductive level : Type := DEBUG | INFO | WARNING | ERROR | CRITICAL.

Definition levelno (l : level) : Z :=
  match l with
  | DEBUG => 10 | INFO => 20 | WARNING => 30 | ERROR => 40 | CRITICAL => 50
  end.

(** The functions of [main.py] that [main] calls, as recorded in the
    call history. *)
Inductive call : Type :=
| Call_determine_file_type (file_path : string) (arg_type : option string)
| Call_load_json (file_path : string)
| Call_load_yaml (file_path : string)
| Call_validate_config (config_data schema_data : pyvalue).

(** The state the driver acts on: the level of the root logger, the
    records it has emitted (oldest first), and the history of calls made
    by [main] (oldest first; not a Python object, kept to state the
    order of the steps). *)
Record world : Type := mk_world {
  root_level : level;
  records : list (level * string);
  history : list call
}.

Definition M (A : Type) : Type := world -> outcome A * world.

Definition ret {A} (a : A) : M A := fun w => (Return a, w).

Definition bind {A B} (m : M A) (k : A -> M B) : M B :=
  fun w =>
    match m w with
    | (Return a, w') => k a w'
    | (Raise e, w') => (Raise e, w')
    | (SystemExit c, w') => (SystemExit c, w')
    end.

Definition raise {A} (e : exn) : M A := fun w => (Raise e, w).

(** [sys.exit(code)] *)
Definition sys_exit {A} (code : Z) : M A := fun w => (SystemExit code, w).

Definition lift {A} (r : result A) : M A :=
  fun w => match r with Ok a => (Return a, w) | Err e => (Raise e, w) end.

(** [try: body  except cs1: h1 ... except csn: hn].  The first clause
    whose classes match handles the exception; what the handler raises
    is not offered to the other clauses. *)
Fixpoint dispatch {A} (handlers : list (list exc_class * (exn -> M A)))
         (e : exn) : M A :=
  match handlers with
  | [] => raise e
  | (cs, h) :: rest => if matches e cs then h e else dispatch rest e
  end.

Definition try_except {A} (body : M A)
           (handlers : list (list exc_class * (exn -> M A))) : M A :=
  fun w =>
    match body w with
    | (Raise e, w') => dispatch handlers e w'
    | r => r
    end.

(** [logging.getLogger().setLevel(l)] *)
Definition setLevel (l : level) : M unit :=
  fun w => (Return tt, mk_world l (records w) (history w)).

(** The state after [logging.log(l, msg)] on the root logger: the record
    is emitted when [l] is at least the logger's level. *)
Definition emit (l : level) (msg : string) (w : world) : world :=
  if levelno (root_level w) <=? levelno l
  then mk_world (root_level w) (records w ++ [(l, msg)]) (history w)
  else w.

Definition logging_log (l : level) (msg : string) : M unit :=
  fun w => (Return tt, emit l msg w).

Definition logging_error : string -> M unit := logging_log ERROR.
Definition logging_info : string -> M unit := logging_log INFO.

(** Entering one of the functions of [main.py] from [main]. *)
Definition record_call (c : call) (w : world) : world :=
  mk_world (root_level w) (records w) (history w ++ [c]).

Definition invoke {A} (c : call) (body : M A) : M A :=
  fun w => body (record_call c w).

(** The state at start-up: [logging.basicConfig(level=logging.INFO)]. *)
Definition initial_world : world := mk_world INFO [] [].

(** Exit status of the process for the outcome of [main()]: the code of
    [SystemExit], [0] when [main] returns, [1] for an exception that
    nothing caught. *)
Definition exit_status {A} (o : outcome A) : Z :=
  match o with
  | SystemExit code => code
  | Return _ => 0
  | Raise _ => 1
  end.

End Py.

Declare Scope py_scope.
Delimit Scope py_scope with py.
Notation "x <- m ;; k" := (Py.bind m (fun x => k))
  (at level 61, m at next level, right associativity) : py_scope.
Notation "m ;; k" := (Py.bind m (fun _ => k))
  (at level 61, right associativity) : py_scope.

(* ===================================================================== *)
(** ** [json.load] *)
(* ===================================================================== *)

Module Json.
Import PyStr Py.

Definition LF : ascii := "010"%char.

(** The characters of [json.decoder.WHITESPACE]: space, tab, LF, CR. *)
Definition is_whitespace (c : ascii) : bool :=
  Ascii.eqb c " "%char || Ascii.eqb c "009"%char ||
  Ascii.eqb c LF || Ascii.eqb c "013"%char.

Fixpoint leading_whitespace (s : string) : nat :=
  match s with
  | String a s' => if is_whitespace a then S (leading_whitespace s') else O
  | EmptyString => O
  end.

(** [WHITESPACE.match(s, idx).end()] *)
Definition whitespace_end (s : string) (idx : Z) : Z :=
  idx + Z.of_nat (leading_whitespace (slice_from s idx)).

Fixpoint count (c : ascii) (s : string) : Z :=
  match s with
  | String a s' => (if Ascii.eqb a c then 1 else 0) + count c s'
  | EmptyString => 0
  end.

Definition str_of_int (n : Z) : string :=
  DecimalString.NilZero.string_of_int (Z.to_int n).

(** [JSONDecodeError(msg, doc, pos)]; [str(e)] is
    ["%s: line %d column %d (char %d)"]. *)
Definition JSONDecodeError_ (msg doc : string) (pos : Z) : exn :=
  let lineno := count LF (slice_to doc pos) + 1 in
  let colno := pos - rfind (slice_to doc pos) LF in
  mk_exn JSONDecodeError
    (msg ++ ": line " ++ str_of_int lineno ++ " column " ++
     str_of_int colno ++ " (char " ++ str_of_int pos ++ ")").

(** What [scan_once(s, idx)] does: it returns a value and the index
    after it, raises [StopIteration(idx)] when no value starts at
    [idx], or raises an exception of its own (a [JSONDecodeError] for
    a value that is cut short, a [RecursionError]). *)
Inductive scan : Type :=
| Scanned (obj : pyvalue) (end_ : Z)
| StopIteration (idx : Z)
| ScanRaise (e : exn).

(** The UTF-8 encoding of U+FEFF. *)
Definition BOM : string :=
  String "239"%char (String "187"%char (String "191"%char "")).

Section Decoder.
(** The scanner on an index inside the string: the analysis of JSON
    text is the library's and is a parameter here. *)
Variable scan_value : string -> Z -> scan.

(** [scan_once]: [string[idx]] raises [IndexError] at the end of the
    string, which the scanner turns into [StopIteration(idx)]. *)
Definition scan_once (s : string) (idx : Z) : scan :=
  if idx <? len s then scan_value s idx else StopIteration idx.

(** [JSONDecoder.raw_decode] *)
Definition raw_decode (s : string) (idx : Z) : result (pyvalue * Z) :=
  match scan_once s idx with
  | Scanned obj end_ => Ok (obj, end_)
  | StopIteration pos => Err (JSONDecodeError_ "Expecting value" s pos)
  | ScanRaise e => Err e
  end.

(** [JSONDecoder.decode] *)
Definition decode (s : string) : result pyvalue :=
  rbind (raw_decode s (whitespace_end s 0)) (fun '(obj, end_) =>
    let end_ := whitespace_end s end_ in
    if negb (end_ =? len s)
    then Err (JSONDecodeError_ "Extra data" s end_)
    else Ok obj).

(** [json.loads] on a [str] *)
Definition loads (s : string) : result pyvalue :=
  if String.prefix BOM s
  then Err (JSONDecodeError_
              "Unexpected UTF-8 BOM (decode using utf-8-sig)" s 0)
  else decode s.

(** [json.load(fp)]: [loads(fp.read())] *)
Definition load (fp : TextIO) : result pyvalue :=
  rbind (read fp) loads.
End Decoder.

End Json.

(* ===================================================================== *)
(** ** [ruamel.yaml]: [YAML(typ='safe').load] *)
(* ===================================================================== *)

Module Yaml.
Import PyStr Py.

(** The representation graph the composer builds, as a tree (anchors
    and aliases resolved): every node carries its resolved tag. *)
#[warnings="-register-all"]
Inductive node : Type :=
| ScalarNode (tag value : string)
| SequenceNode (tag : string) (value : list node)
| MappingNode (tag : string) (value : list (node * node)).

Definition node_tag (n : node) : string :=
  match n with
  | ScalarNode t _ | SequenceNode t _ | MappingNode t _ => t
  end.

Definition node_id (n : node) : string :=
  match n with
  | ScalarNode _ _ => "scalar"
  | SequenceNode _ _ => "sequence"
  | MappingNode _ _ => "mapping"
  end.

(** The constructor methods that a constructor class can register for
    a tag.  The first twelve build the standard YAML types;
    [construct_undefined] refuses the node; the next three are the
    fall-backs of [BaseConstructor] by kind of node. *)
Inductive method : Type :=
| construct_yaml_null | construct_yaml_bool | construct_yaml_int
| construct_yaml_float | construct_yaml_binary | construct_yaml_timestamp
| construct_yaml_omap | construct_yaml_pairs | construct_yaml_set
| construct_yaml_str | construct_yaml_seq | construct_yaml_map
| construct_undefined
| construct_scalar | construct_sequence | construct_mapping.

(** Methods registered for a prefix of tags; they receive the rest of
    the tag.  [construct_python_object] makes an instance of the class
    that the tag names. *)
Inductive multi_method : Type :=
| construct_python_object.

(** A constructor class: its two registries, [yaml_constructors] and
    [yaml_multi_constructors].  They are Python dictionaries; the key
    [None] is the registration for every other tag.  The second is
    searched in order for a prefix of the tag. *)
Record ConstructorClass : Type := {
  yaml_constructors : list (option string * method);
  yaml_multi_constructors : list (option string * multi_method)
}.

Definition key_eqb (k1 k2 : option string) : bool :=
  match k1, k2 with
  | Some a, Some b => String.eqb a b
  | None, None => true
  | _, _ => false
  end.

Fixpoint dict_get {V} (d : list (option string * V)) (k : option string)
  : option V :=
  match d with
  | [] => None
  | (k', v) :: rest => if key_eqb k' k then Some v else dict_get rest k
  end.

(** The first registered prefix that the tag starts with, with the rest
    of the tag. *)
Fixpoint find_prefix {V} (d : list (option string * V)) (tag : string)
  : option (V * string) :=
  match d with
  | [] => None
  | (Some tag_prefix, v) :: rest =>
      if String.prefix tag_prefix tag
      then Some (v, drop (String.length tag_prefix) tag)
      else find_prefix rest tag
  | (None, _) :: rest => find_prefix rest tag
  end.

Inductive selected : Type :=
| Single (m : method)
| Multi (m : multi_method) (tag_suffix : string).

(** The choice of a constructor in
    [BaseConstructor.construct_non_recursive_object]. *)
Definition select (cls : ConstructorClass) (n : node) : selected :=
  match dict_get (yaml_constructors cls) (Some (node_tag n)) with
  | Some m => Single m
  | None =>
      match find_prefix (yaml_multi_constructors cls) (node_tag n) with
      | Some (m, tag_suffix) => Multi m tag_suffix
      | None =>
          match dict_get (yaml_multi_constructors cls) None with
          | Some m => Multi m (node_tag n)
          | None =>
              match dict_get (yaml_constructors cls) None with
              | Some m => Single m
              | None =>
                  match n with
                  | ScalarNode _ _ => Single construct_scalar
                  | SequenceNode _ _ => Single construct_sequence
                  | MappingNode _ _ => Single construct_mapping
                  end
              end
          end
      end
  end.

(** [SafeConstructor]: the twelve standard tags, and
    [construct_undefined] for every other tag; no multi-constructor. *)
Definition SafeConstructor : ConstructorClass := {|
  yaml_constructors :=
    [ (Some "tag:yaml.org,2002:null", construct_yaml_null);
      (Some "tag:yaml.org,2002:bool", construct_yaml_bool);
      (Some "tag:yaml.org,2002:int", construct_yaml_int);
      (Some "tag:yaml.org,2002:float", construct_yaml_float);
      (Some "tag:yaml.org,2002:binary", construct_yaml_binary);
      (Some "tag:yaml.org,2002:timestamp", construct_yaml_timestamp);
      (Some "tag:yaml.org,2002:omap", construct_yaml_omap);
      (Some "tag:yaml.org,2002:pairs", construct_yaml_pairs);
      (Some "tag:yaml.org,2002:set", construct_yaml_set);
      (Some "tag:yaml.org,2002:str", construct_yaml_str);
      (Some "tag:yaml.org,2002:seq", construct_yaml_seq);
      (Some "tag:yaml.org,2002:map", construct_yaml_map);
      (None, construct_undefined) ];
  yaml_multi_constructors := []
|}.

(** What the model takes from the library and from the interpreter as
    it finds them: the conversions of scalar text to Python values (a
    conversion returns a value of its built-in type or raises), the
    front end (reader, scanner, parser, composer) on a stream that is
    not empty, and [same_key]: two hashable values are one key of a
    dictionary (equal hashes and [==], or one object; [1], [1.0] and
    [True] are one key). *)
Record Library : Type := {
  to_bool : string -> result bool;
  to_int : string -> result Z;
  to_float : string -> result string;
  to_binary : string -> result string;
  to_timestamp : string -> result string;
  compose : string -> result (option node);
  same_key : pyvalue -> pyvalue -> bool
}.

(** [ConstructorError] and [DuplicateKeyError]; [str(e)] is reduced to
    the problem, without the context, the marks (line and column) and,
    for a duplicate key, the values of the library's message. *)
Definition ConstructorError_ (msg : string) : exn :=
  mk_exn ConstructorError msg.

Definition DuplicateKeyError_ (msg : string) : exn :=
  mk_exn DuplicateKeyError msg.

Definition expected {A} (kind : string) (n : node) : result A :=
  Err (ConstructorError_
         ("expected a " ++ kind ++ " node, but found " ++ node_id n)).

(** The double quote of the library's messages. *)
Definition dquote : string := String "034"%char "".

Definition merge_tag : string := "tag:yaml.org,2002:merge".
Definition value_tag : string := "tag:yaml.org,2002:value".
Definition str_tag : string := "tag:yaml.org,2002:str".

(** [node.tag = tag] *)
Definition set_tag (tag : string) (n : node) : node :=
  match n with
  | ScalarNode _ value => ScalarNode tag value
  | SequenceNode _ value => SequenceNode tag value
  | MappingNode _ value => MappingNode tag value
  end.

(** [SafeConstructor.construct_scalar]: the text of a scalar node; for
    a mapping node, the scalar of its first entry whose key is [=]. *)
Fixpoint SafeConstructor_construct_scalar (n : node) : result string :=
  match n with
  | ScalarNode _ value => Ok value
  | MappingNode _ value =>
      (fix entries (l : list (node * node)) : result string :=
         match l with
         | [] => expected "scalar" n
         | (key_node, value_node) :: rest =>
             if String.eqb (node_tag key_node) value_tag
             then SafeConstructor_construct_scalar value_node
             else entries rest
         end) value
  | SequenceNode _ _ => expected "scalar" n
  end.

(** [SafeConstructor.flatten_mapping] on the value of a [<<] key that
    is a sequence, with [flatten] for its mappings: the entries of
    each mapping, flattened, the last mapping first ([submerge] after
    [submerge.reverse()]). *)
Definition flatten_subnodes
    (flatten : node -> result (list (node * node) * list (node * node)))
  : list node -> result (list (list (node * node))) :=
  fix loop (subnodes : list node) :=
    match subnodes with
    | [] => Ok []
    | subnode :: rest =>
        match subnode with
        | MappingNode _ _ =>
            rbind (flatten subnode) (fun '(m, v) =>
            rbind (loop rest) (fun submerge =>
            Ok (submerge ++ [(m ++ v)%list])%list))
        | _ =>
            Err (ConstructorError_
                   ("expected a mapping for merging, but found " ++
                    node_id subnode))
        end
    end.

(** The loop of [SafeConstructor.flatten_mapping] over the entries of a
    mapping node, with [flatten] for the mappings that are merged in.
    [merge] holds the entries merged in so far.  An entry with the key
    [<<] is taken out: the entries of its value (a mapping, flattened
    first) or values (a sequence of mappings) are added to [merge]; a
    second [<<] after one that brought entries is a
    [DuplicateKeyError].  A key [=] becomes a string.  The result is
    [merge] and what is left of the entries. *)
Definition flatten_entries
    (flatten : node -> result (list (node * node) * list (node * node)))
  : list (node * node) -> list (node * node) ->
    result (list (node * node) * list (node * node)) :=
  fix loop (value merge : list (node * node)) :=
    match value with
    | [] => Ok (merge, [])
    | (key_node, value_node) :: rest =>
        if String.eqb (node_tag key_node) merge_tag then
          match merge with
          | _ :: _ =>
              Err (DuplicateKeyError_
                     ("found duplicate key " ++ dquote ++ "<<" ++ dquote))
          | [] =>
              match value_node with
              | MappingNode _ _ =>
                  rbind (flatten value_node) (fun '(m, v) =>
                  loop rest (merge ++ (m ++ v))%list)
              | SequenceNode _ subnodes =>
                  rbind (flatten_subnodes flatten subnodes)
                        (fun submerge =>
                           loop rest (merge ++ concat submerge)%list)
              | ScalarNode _ _ =>
                  Err (ConstructorError_
                         ("expected a mapping or list of mappings for merging, but found "
                          ++ node_id value_node))
              end
          end
        else
          let key_node :=
            if String.eqb (node_tag key_node) value_tag
            then set_tag str_tag key_node else key_node in
          rbind (loop rest merge) (fun '(m, v) =>
          Ok (m, (key_node, value_node) :: v))
    end.

(** [SafeConstructor.flatten_mapping] on a mapping node: [node.merge]
    (empty when it is not set) and [node.value] before [merge] is put in
    front of it. *)
Fixpoint flatten_mapping (n : node)
  : result (list (node * node) * list (node * node)) :=
  match n with
  | MappingNode _ value => flatten_entries flatten_mapping value []
  | _ => Ok ([], [])
  end.

(** [isinstance(v, Hashable)]: lists, sets and dictionaries are not. *)
Definition is_hashable (v : pyvalue) : bool :=
  match v with
  | PyList _ | PySet _ | PyDict _ => false
  | _ => true
  end.

(** The type for which [hash(v)] raises its [TypeError], if it does: a
    tuple is hashed through its items. *)
Fixpoint unhashable (v : pyvalue) : option string :=
  match v with
  | PyList _ => Some "list"
  | PySet _ => Some "set"
  | PyDict _ => Some "dict"
  | PyTuple items =>
      (fix first (l : list pyvalue) : option string :=
         match l with
         | [] => None
         | x :: r =>
             match unhashable x with Some t => Some t | None => first r end
         end) items
  | _ => None
  end.

(** [hash(v)] as a dictionary takes it before it looks for a key. *)
Definition hash (v : pyvalue) : result unit :=
  match unhashable v with
  | Some t => Err (mk_exn TypeError ("unhashable type: '" ++ t ++ "'"))
  | None => Ok tt
  end.

(** Dictionaries as lists of items in the order of insertion, with keys
    that are different under [same_key]: [key in d], [d[key] = value]
    (the place and the key of an item that is there are kept) and
    [d.update(other)]. *)
Section Dict.
Variable same_key : pyvalue -> pyvalue -> bool.

Fixpoint dict_contains (d : list (pyvalue * pyvalue)) (key : pyvalue)
  : bool :=
  match d with
  | [] => false
  | (k, _) :: rest => same_key k key || dict_contains rest key
  end.

Fixpoint dict_setitem (d : list (pyvalue * pyvalue)) (key value : pyvalue)
  : list (pyvalue * pyvalue) :=
  match d with
  | [] => [(key, value)]
  | (k, v) :: rest =>
      if same_key k key then (k, value) :: rest
      else (k, v) :: dict_setitem rest key value
  end.

Definition dict_update (d other : list (pyvalue * pyvalue))
  : list (pyvalue * pyvalue) :=
  fold_left (fun d '(key, value) => dict_setitem d key value) other d.
End Dict.

(** The number of nodes of a tree of nodes. *)
Fixpoint node_size (n : node) : nat :=
  match n with
  | ScalarNode _ _ => 1
  | SequenceNode _ value =>
      S ((fix sum (l : list node) : nat :=
            match l with [] => 0 | x :: r => node_size x + sum r end) value)
  | MappingNode _ value =>
      S ((fix sum (l : list (node * node)) : nat :=
            match l with
            | [] => 0
            | (k, v) :: r => node_size k + node_size v + sum r
            end) value)
  end%nat.

Definition nodes_size (l : list node) : nat :=
  fold_right (fun x s => node_size x + s)%nat 0%nat l.

Fixpoint entries_size (l : list (node * node)) : nat :=
  match l with
  | [] => 0
  | (k, v) :: r => node_size k + node_size v + entries_size r
  end%nat.

Section Constructor.
Variable lib : Library.
Variable cls : ConstructorClass.

Section Methods.
(** [self.construct_object] for the sub-nodes of a node. *)
Variable construct_object : node -> result pyvalue.

(** [BaseConstructor.construct_sequence] *)
Definition BaseConstructor_construct_sequence (n : node)
  : result (list pyvalue) :=
  match n with
  | SequenceNode _ value =>
      (fix items (l : list node) : result (list pyvalue) :=
         match l with
         | [] => Ok []
         | child :: rest =>
             rbind (construct_object child) (fun v =>
             rbind (items rest) (fun vs => Ok (v :: vs)))
         end) value
  | _ => expected "sequence" n
  end.

(** The inner loop of [BaseConstructor.construct_mapping] over the
    entries [values], filling [mapping]: the key is constructed, a list
    becomes a tuple, a key that is not hashable is refused; the value
    is constructed; with [check], a key that is there already is a
    [DuplicateKeyError] ([allow_duplicate_keys] is [False] for
    [YAML(typ='safe')]). *)
Definition mapping_entries (check : bool)
  : list (node * node) -> list (pyvalue * pyvalue) ->
    result (list (pyvalue * pyvalue)) :=
  fix loop (values : list (node * node))
           (mapping : list (pyvalue * pyvalue)) :=
    match values with
    | [] => Ok mapping
    | (key_node, value_node) :: rest =>
        rbind (construct_object key_node) (fun key =>
        let key :=
          match key with PyList items => PyTuple items | _ => key end in
        if negb (is_hashable key)
        then Err (ConstructorError_ "found unhashable key")
        else
          rbind (construct_object value_node) (fun value =>
          rbind (hash key) (fun _ =>
          if check && dict_contains (same_key lib) mapping key
          then Err (DuplicateKeyError_ "found duplicate key")
          else loop rest (dict_setitem (same_key lib) mapping key value))))
    end.

(** [BaseConstructor.construct_mapping] on a flattened node: with
    merged entries, these and then all entries are taken without the
    check, so that an entry of the node replaces a merged one; without,
    the entries are checked for duplicates. *)
Definition BaseConstructor_construct_mapping
           (merge value : list (node * node))
  : result (list (pyvalue * pyvalue)) :=
  let todo :=
    match merge with
    | [] => [(value, true)]
    | _ => [(merge, false); ((merge ++ value)%list, false)]
    end in
  (fix run (todo : list (list (node * node) * bool))
           (total_mapping : list (pyvalue * pyvalue)) :=
     match todo with
     | [] => Ok total_mapping
     | (values, check) :: rest =>
         rbind (mapping_entries check values []) (fun mapping =>
         run rest (dict_update (same_key lib) total_mapping mapping))
     end) todo [].

(** [SafeConstructor.construct_mapping] *)
Definition SafeConstructor_construct_mapping (n : node)
  : result (list (pyvalue * pyvalue)) :=
  match n with
  | MappingNode _ _ =>
      rbind (flatten_mapping n) (fun '(merge, value) =>
      BaseConstructor_construct_mapping merge value)
  | _ => expected "mapping" n
  end.

(** The loop of [construct_yaml_omap] over the one-entry mappings of
    the sequence: a key that is there already fails the [assert]. *)
Definition omap_entries
  : list node -> list (pyvalue * pyvalue) ->
    result (list (pyvalue * pyvalue)) :=
  fix loop (l : list node) (omap : list (pyvalue * pyvalue)) :=
    match l with
    | [] => Ok omap
    | subnode :: rest =>
        match subnode with
        | MappingNode _ [(key_node, value_node)] =>
            rbind (construct_object key_node) (fun key =>
            rbind (hash key) (fun _ =>
            if dict_contains (same_key lib) omap key
            then Err (mk_exn AssertionError "")
            else
              rbind (construct_object value_node) (fun value =>
              loop rest (dict_setitem (same_key lib) omap key value))))
        | MappingNode _ value =>
            Err (ConstructorError_
                   ("expected a single mapping item, but found " ++
                    Json.str_of_int (Z.of_nat (length value)) ++ " items"))
        | _ =>
            Err (ConstructorError_
                   ("expected a mapping of length 1, but found " ++
                    node_id subnode))
        end
    end.

(** The loop of [construct_yaml_pairs]. *)
Definition pairs_entries : list node -> result (list pyvalue) :=
  fix loop (l : list node) :=
    match l with
    | [] => Ok []
    | subnode :: rest =>
        match subnode with
        | MappingNode _ [(key_node, value_node)] =>
            rbind (construct_object key_node) (fun key =>
            rbind (construct_object value_node) (fun value =>
            rbind (loop rest) (fun pairs =>
            Ok (PyTuple [key; value] :: pairs))))
        | MappingNode _ value =>
            Err (ConstructorError_
                   ("expected a single mapping item, but found " ++
                    Json.str_of_int (Z.of_nat (length value)) ++ " items"))
        | _ =>
            Err (ConstructorError_
                   ("expected a mapping of length 1, but found " ++
                    node_id subnode))
        end
    end.

(** The selected method applied to the node.  [!!omap] gives the
    library's ordered dictionary, a [dict] to the validator; [!!set]
    gives the keys of the mapping. *)
Definition construct_node (n : node) : result pyvalue :=
  let scalar (k : string -> result pyvalue) : result pyvalue :=
    rbind (SafeConstructor_construct_scalar n) k in
  let sequence_of (n : node) (k : list node -> result pyvalue)
    : result pyvalue :=
    match n with
    | SequenceNode _ value => k value
    | _ =>
        Err (ConstructorError_
               ("expected a sequence, but found " ++ node_id n))
    end in
  match select cls n with
  | Single construct_yaml_null => scalar (fun _ => Ok PyNone)
  | Single construct_yaml_bool =>
      scalar (fun v => rbind (to_bool lib v) (fun b => Ok (PyBool b)))
  | Single construct_yaml_int =>
      scalar (fun v => rbind (to_int lib v) (fun i => Ok (PyInt i)))
  | Single construct_yaml_float =>
      scalar (fun v => rbind (to_float lib v) (fun f => Ok (PyFloat f)))
  | Single construct_yaml_binary =>
      scalar (fun v => rbind (to_binary lib v) (fun b => Ok (PyBytes b)))
  | Single construct_yaml_timestamp =>
      match n with
      | ScalarNode _ value =>
          rbind (to_timestamp lib value) (fun t => Ok (PyDatetime t))
      | _ => Err (ConstructorError_ "failed to construct timestamp")
      end
  | Single construct_yaml_omap =>
      sequence_of n (fun value =>
        rbind (omap_entries value []) (fun omap => Ok (PyDict omap)))
  | Single construct_yaml_pairs =>
      sequence_of n (fun value =>
        rbind (pairs_entries value) (fun pairs => Ok (PyList pairs)))
  | Single construct_yaml_set =>
      rbind (SafeConstructor_construct_mapping n)
            (fun value => Ok (PySet (map fst value)))
  | Single construct_yaml_str | Single construct_scalar =>
      scalar (fun v => Ok (PyStr v))
  | Single construct_yaml_seq | Single construct_sequence =>
      rbind (BaseConstructor_construct_sequence n)
            (fun items => Ok (PyList items))
  | Single construct_yaml_map | Single construct_mapping =>
      rbind (SafeConstructor_construct_mapping n)
            (fun value => Ok (PyDict value))
  | Single construct_undefined =>
      Err (ConstructorError_
             ("could not determine a constructor for the tag '" ++
              node_tag n ++ "'"))
  | Multi construct_python_object tag_suffix =>
      rbind (SafeConstructor_construct_mapping n)
            (fun state => Ok (PyObject tag_suffix [PyDict state]))
  end.
End Methods.

(** [construct_object]: the selected method applied to the node, the
    sub-nodes constructed by the same function.  Merged entries are
    sub-nodes that the node does not hold in place, so the recursion is
    bounded by a number of steps, the size of the node, which it never
    uses up ([construct_object_unfold]).  The library fills the
    sequences and mappings that are not keys after their parents; that
    changes neither the value nor whether the construction raises, only
    which exception is met first when several nodes are refused.  A
    document is a tree here: an alias stands for a copy of its anchored
    node. *)
Fixpoint construct_object_steps (steps : nat) (n : node)
  : result pyvalue :=
  match steps with
  | O => Err (mk_exn RecursionError "maximum recursion depth exceeded")
  | S steps' => construct_node (construct_object_steps steps') n
  end.

Definition construct_object (n : node) : result pyvalue :=
  construct_object_steps (node_size n) n.

(** [get_single_node] of the composer: an empty stream holds no
    document. *)
Definition get_single_node (stream : string) : result (option node) :=
  match stream with
  | EmptyString => Ok None
  | _ => compose lib stream
  end.

(** [BaseConstructor.get_single_data] *)
Definition get_single_data (stream : string) : result pyvalue :=
  rbind (get_single_node stream) (fun node =>
    match node with
    | Some n => construct_object n
    | None => Ok PyNone
    end).
End Constructor.

(** An instance of [YAML]: the constructor class it loads with. *)
Record YAML : Type := { Constructor : ConstructorClass }.

(** [YAML(typ='safe')] *)
Definition YAML_safe : YAML := {| Constructor := SafeConstructor |}.

(** [yaml.load(stream)] on an open text file. *)
Definition load (lib : Library) (yaml : YAML) (stream : TextIO)
  : result pyvalue :=
  rbind (read stream) (get_single_data lib (Constructor yaml)).

End Yaml.

(* ===================================================================== *)
(** ** [main.py] *)
(* ===================================================================== *)

Import PyStr Py.
Open Scope py_scope.

(** What the program finds around it: the file system behind [open],
    the JSON scanner, the YAML library, and [jsonschema.validate], which
    returns [None] or raises ([ValidationError], [SchemaError], ...). *)
Record Env : Type := {
  open_ : string -> result TextIO;
  json_scan_value : string -> Z -> Json.scan;
  yaml_lib : Yaml.Library;
  validate : pyvalue -> pyvalue -> result unit
}.

(** [argparse.Namespace] as [setup_argparse] declares it: two positional
    paths, two optional types, and [--log_level], one of the five level
    names, [INFO] when absent. *)
Record Namespace : Type := {
  config_file : string;
  schema_file : string;
  config_type : option string;
  schema_type : option string;
  log_level : level
}.

(** The [choices] of [--config_type] and [--schema_type]. *)
Definition type_choices : list string := ["json"; "yaml"].

(** What [parser.parse_args()] does with the command line of the
    process: it returns the [Namespace] of the arguments; or, for [-h]
    or [--help], it prints the help and raises [SystemExit(0)]; or, for
    a command line that the parser refuses (a path that is missing, an
    option that is not known, a type or a level that is not one of the
    [choices]), it prints the usage and the error and raises
    [SystemExit(2)]. *)
Inductive parsed : Type :=
| Parsed (args : Namespace)
| Help
| UsageError (message : string).

Definition parse_args (command_line : parsed) : M Namespace :=
  match command_line with
  | Parsed args => ret args
  | Help => sys_exit 0
  | UsageError _ => sys_exit 2
  end.

Section Program.
Variable env : Env.

(** [with open(file_path, 'r') as f: data = json.load(f)] *)
Definition read_json (file_path : string) : result pyvalue :=
  rbind (open_ env file_path) (Json.load (json_scan_value env)).

(** [with open(file_path, 'r') as f: data = yaml.load(f)] *)
Definition read_yaml (yaml : Yaml.YAML) (file_path : string)
  : result pyvalue :=
  rbind (open_ env file_path) (Yaml.load (yaml_lib env) yaml).

(** [load_json]: the exception is logged and raised again in the two
    clauses; any other exception leaves the function as it is. *)
Definition load_json (file_path : string) : M pyvalue :=
  try_except
    (data <- lift (read_json file_path) ;;
     ret data)
    [ ([FileNotFoundError], fun e =>
         logging_error ("File not found: " ++ file_path) ;;
         raise e);
      ([JSONDecodeError], fun e =>
         logging_error
           ("Invalid JSON in " ++ file_path ++ ": " ++ exc_str e) ;;
         raise e) ].

(** [load_yaml], with [yaml = YAML(typ='safe')]. *)
Definition load_yaml (file_path : string) : M pyvalue :=
  let yaml := Yaml.YAML_safe in
  try_except
    (data <- lift (read_yaml yaml file_path) ;;
     ret data)
    [ ([FileNotFoundError], fun e =>
         logging_error ("File not found: " ++ file_path) ;;
         raise e);
      ([ParserError; ScannerError], fun e =>
         logging_error
           ("Invalid YAML in " ++ file_path ++ ": " ++ exc_str e) ;;
         raise e) ].

(** [validate_config]: [True] when [validate] returns; a
    [ValidationError] is logged and raised again. *)
Definition validate_config (config_data schema_data : pyvalue) : M bool :=
  try_except
    (lift (validate env config_data schema_data) ;;
     logging_info "Configuration is valid according to the schema." ;;
     ret true)
    [ ([ValidationError], fun e =>
         logging_error ("Configuration is invalid: " ++ exc_str e) ;;
         raise e) ].

(** [determine_file_type].  [if arg_type:] is taken for a string that is
    not empty; [None] and the empty string fall through to the
    extension. *)
Definition determine_file_type (file_path : string)
           (arg_type : option string) : result string :=
  let by_extension :=
    let ext := lower (snd (OsPath.splitext file_path)) in
    if str_in ext [".json"] then Ok "json"
    else if str_in ext [".yaml"; ".yml"] then Ok "yaml"
    else Err (mk_exn ValueError
                ("Could not determine file type for " ++ file_path ++
                 ".  Specify with --config_type or --schema_type.")) in
  match arg_type with
  | Some t => if truthy t then Ok t else by_extension
  | None => by_extension
  end.

(** The body of the outer [try] of [main]. *)
Definition main_body (args : Namespace) : M unit :=
  (* Determine file types *)
  config_type <-
    try_except
      (invoke (Call_determine_file_type (config_file args) (config_type args))
         (lift (determine_file_type (config_file args) (config_type args))))
      [ ([ValueError], fun e => logging_error (exc_str e) ;; sys_exit 1) ] ;;
  schema_type <-
    try_except
      (invoke (Call_determine_file_type (schema_file args) (schema_type args))
         (lift (determine_file_type (schema_file args) (schema_type args))))
      [ ([ValueError], fun e => logging_error (exc_str e) ;; sys_exit 1) ] ;;
  (* Load configuration and schema files *)
  config_data <-
    (if String.eqb config_type "json" then
       invoke (Call_load_json (config_file args))
              (load_json (config_file args))
     else if String.eqb config_type "yaml" then
       invoke (Call_load_yaml (config_file args))
              (load_yaml (config_file args))
     else
       logging_error "Invalid config file type." ;; sys_exit 1) ;;
  schema_data <-
    (if String.eqb schema_type "json" then
       invoke (Call_load_json (schema_file args))
              (load_json (schema_file args))
     else if String.eqb schema_type "yaml" then
       invoke (Call_load_yaml (schema_file args))
              (load_yaml (schema_file args))
     else
       logging_error "Invalid schema file type." ;; sys_exit 1) ;;
  (* Validate the configuration *)
  invoke (Call_validate_config config_data schema_data)
         (validate_config config_data schema_data) ;;
  logging_info "Validation successful." ;;
  sys_exit 0.

(** [main()], from the parsed arguments on: [args] is what
    [parser.parse_args()] returned. *)
Definition main (args : Namespace) : M unit :=
  setLevel (log_level args) ;;
  try_except (main_body args)
    [ ([FileNotFoundError], fun _ => sys_exit 1);
      ([JSONDecodeError; ParserError; ScannerError], fun _ => sys_exit 1);
      ([ValidationError], fun _ => sys_exit 1);
      ([Exception], fun e =>
         logging_error ("An unexpected error occurred: " ++ exc_str e) ;;
         sys_exit 1) ].

(** The exit status of the process that runs [main] on [args]. *)
Definition run (args : Namespace) : Z :=
  exit_status (fst (main args initial_world)).

(** [main()] with its first two lines: the parser, and the arguments
    that it makes of the command line. *)
Definition program (command_line : parsed) : M unit :=
  args <- parse_args command_line ;;
  main args.

(** The exit status of the process for a command line. *)
Definition exit_code (command_line : parsed) : Z :=
  exit_status (fst (program command_line initial_world)).
End Program.

(* ===================================================================== *)
(** ** Notions used in the statements *)
(* ===================================================================== *)

(** Two characters are the same letter up to case: they are equal, or one
    is an upper-case letter [A]..[Z] and the other is the lower-case
    letter 32 positions after it. *)
Definition same_letter (x y : ascii) : bool :=
  let m := nat_of_ascii x in
  let n := nat_of_ascii y in
  Ascii.eqb x y ||
  ((65 <=? m) && (m <=? 90) && (n =? m + 32))%nat ||
  ((65 <=? n) && (n <=? 90) && (m =? n + 32))%nat.

(** Equality of strings up to the case of letters. *)
Fixpoint eq_nocase (a b : string) : bool :=
  match a, b with
  | EmptyString, EmptyString => true
  | String x a', String y b' => same_letter x y && eq_nocase a' b'
  | _, _ => false
  end.

(** The values made of built-in data types only: no [PyObject] at any
    depth. *)
Fixpoint builtin (v : pyvalue) : bool :=
  match v with
  | PyNone | PyBool _ | PyInt _ | PyFloat _ | PyStr _ | PyBytes _
  | PyDatetime _ => true
  | PyList items | PyTuple items | PySet items =>
      (fix all (l : list pyvalue) : bool :=
         match l with [] => true | x :: r => builtin x && all r end) items
  | PyDict items =>
      (fix all (l : list (pyvalue * pyvalue)) : bool :=
         match l with
         | [] => true
         | (k, x) :: r => builtin k && builtin x && all r
         end) items
  | PyObject _ _ => false
  end.

(** A registry with a multi-constructor, as
    [add_multi_constructor('tag:yaml.org,2002:python/object:', ...)]
    leaves it: the standard tags of [SafeConstructor], and instances of
    the named class for the tags with that prefix. *)
Definition with_python_object : Yaml.ConstructorClass := {|
  Yaml.yaml_constructors := Yaml.yaml_constructors Yaml.SafeConstructor;
  Yaml.yaml_multi_constructors :=
    [ (Some "tag:yaml.org,2002:python/object:", Yaml.construct_python_object) ]
|}.

(** The twelve tags of the standard YAML types. *)
Definition standard_tags : list string :=
  map (fun t => "tag:yaml.org,2002:" ++ t)
      ["null"; "bool"; "int"; "float"; "binary"; "timestamp";
       "omap"; "pairs"; "set"; "str"; "seq"; "map"].

(** The exception with which a call of the history fails, if it does. *)
Definition failure_of (env : Env) (c : call) : option exn :=
  let error {A} (r : result A) : option exn :=
    match r with Ok _ => None | Err e => Some e end in
  match c with
  | Call_determine_file_type file_path arg_type =>
      error (determine_file_type file_path arg_type)
  | Call_load_json file_path => error (read_json env file_path)
  | Call_load_yaml file_path =>
      error (read_yaml env Yaml.YAML_safe file_path)
  | Call_validate_config config_data schema_data =>
      error (validate env config_data schema_data)
  end.

(** The loader call that [main] makes for a resolved type. *)
Definition load_call (type file_path : string) : call :=
  if String.eqb type "json" then Call_load_json file_path
  else Call_load_yaml file_path.

(** The calls of a run that goes through: both types resolved, the
    configuration loaded, the schema loaded, the validation. *)
Definition plan (args : Namespace) (ct st : string)
           (config_data schema_data : pyvalue) : list call :=
  [ Call_determine_file_type (config_file args) (config_type args);
    Call_determine_file_type (schema_file args) (schema_type args);
    load_call ct (config_file args);
    load_call st (schema_file args);
    Call_validate_config config_data schema_data ].

(** The document at a path loads as [data] under a resolved type. *)
Definition loads_as (env : Env) (type file_path : string) (data : pyvalue)
  : Prop :=
  (type = "json" /\ read_json env file_path = Ok data) \/
  (type = "yaml" /\ read_yaml env Yaml.YAML_safe file_path = Ok data).

(** The configuration is valid against the schema: both types resolve,
    both documents load, and the validator accepts the pair. *)
Definition valid (env : Env) (args : Namespace) : Prop :=
  exists ct st config_data schema_data,
    determine_file_type (config_file args) (config_type args) = Ok ct /\
    determine_file_type (schema_file args) (schema_type args) = Ok st /\
    loads_as env ct (config_file args) config_data /\
    loads_as env st (schema_file args) schema_data /\
    validate env config_data schema_data = Ok tt.

(** The runs of the body of [main]: the calls made, in order, and the
    outcome.  Each rule is one way through the steps: a step that fails
    ends the run. *)
Inductive run_of (env : Env) (args : Namespace)
  : list call -> outcome unit -> Prop :=
| run_config_type_unknown e :
    determine_file_type (config_file args) (config_type args) = Err e ->
    run_of env args (firstn 1 (plan args "" "" PyNone PyNone)) (SystemExit 1)
| run_schema_type_unknown ct e :
    determine_file_type (config_file args) (config_type args) = Ok ct ->
    determine_file_type (schema_file args) (schema_type args) = Err e ->
    run_of env args (firstn 2 (plan args ct "" PyNone PyNone)) (SystemExit 1)
| run_config_type_invalid ct st :
    determine_file_type (config_file args) (config_type args) = Ok ct ->
    determine_file_type (schema_file args) (schema_type args) = Ok st ->
    ct <> "json" -> ct <> "yaml" ->
    run_of env args (firstn 2 (plan args ct st PyNone PyNone)) (SystemExit 1)
| run_config_load_fails ct st e :
    determine_file_type (config_file args) (config_type args) = Ok ct ->
    determine_file_type (schema_file args) (schema_type args) = Ok st ->
    ct = "json" \/ ct = "yaml" ->
    failure_of env (load_call ct (config_file args)) = Some e ->
    run_of env args (firstn 3 (plan args ct st PyNone PyNone)) (Raise e)
| run_schema_type_invalid ct st config_data :
    determine_file_type (config_file args) (config_type args) = Ok ct ->
    determine_file_type (schema_file args) (schema_type args) = Ok st ->
    loads_as env ct (config_file args) config_data ->
    st <> "json" -> st <> "yaml" ->
    run_of env args (firstn 3 (plan args ct st config_data PyNone))
           (SystemExit 1)
| run_schema_load_fails ct st config_data e :
    determine_file_type (config_file args) (config_type args) = Ok ct ->
    determine_file_type (schema_file args) (schema_type args) = Ok st ->
    loads_as env ct (config_file args) config_data ->
    st = "json" \/ st = "yaml" ->
    failure_of env (load_call st (schema_file args)) = Some e ->
    run_of env args (firstn 4 (plan args ct st config_data PyNone)) (Raise e)
| run_validation_fails ct st config_data schema_data e :
    determine_file_type (config_file args) (config_type args) = Ok ct ->
    determine_file_type (schema_file args) (schema_type args) = Ok st ->
    loads_as env ct (config_file args) config_data ->
    loads_as env st (schema_file args) schema_data ->
    validate env config_data schema_data = Err e ->
    run_of env args (plan args ct st config_data schema_data) (Raise e)
| run_valid ct st config_data schema_data :
    determine_file_type (config_file args) (config_type args) = Ok ct ->
    determine_file_type (schema_file args) (schema_type args) = Ok st ->
    loads_as env ct (config_file args) config_data ->
    loads_as env st (schema_file args) schema_data ->
    validate env config_data schema_data = Ok tt ->
    run_of env args (plan args ct st config_data schema_data) (SystemExit 0).

(** The records of a list that a root logger of level [l] lets
    through. *)
Definition visible (l : level) (rs : list (level * string))
  : list (level * string) :=
  filter (fun r => levelno l <=? levelno (fst r)) rs.

(** From [w] to [w'] the level of the root logger is kept and the
    records [rs] were logged. *)
Definition logged (w w' : world) (rs : list (level * string)) : Prop :=
  root_level w' = root_level w /\
  records w' = (records w ++ visible (root_level w) rs)%list.

(** What a loader logs for the exception it raises. *)
Definition loader_log (type file_path : string) (e : exn)
  : list (level * string) :=
  if isinstance e FileNotFoundError
  then [(ERROR, "File not found: " ++ file_path)]
  else if String.eqb type "json"
  then if isinstance e JSONDecodeError
       then [(ERROR, "Invalid JSON in " ++ file_path ++ ": " ++ exc_str e)]
       else []
  else if isinstance e ParserError || isinstance e ScannerError
       then [(ERROR, "Invalid YAML in " ++ file_path ++ ": " ++ exc_str e)]
       else [].

(** What [validate_config] logs for the exception it raises. *)
Definition validator_log (e : exn) : list (level * string) :=
  if isinstance e ValidationError
  then [(ERROR, "Configuration is invalid: " ++ exc_str e)]
  else [].

(** What a run that goes through logs. *)
Definition success_log : list (level * string) :=
  [ (INFO, "Configuration is valid according to the schema.");
    (INFO, "Validation successful.") ].

(** The exceptions that the first three clauses of [main] take: they end
    the run without a record of [main]'s own. *)
Definition quiet (e : exn) : bool :=
  matches e [FileNotFoundError] ||
  matches e [JSONDecodeError; ParserError; ScannerError] ||
  matches e [ValidationError].

(** What the clauses of [main] log for the outcome of its body. *)
Definition handler_log (o : outcome unit) : list (level * string) :=
  match o with
  | Raise e =>
      if quiet e then []
      else [(ERROR, "An unexpected error occurred: " ++ exc_str e)]
  | _ => []
  end.

(** The runs of the body of [main] as [run_of] has them, with the
    records logged instead of the calls made. *)
Inductive run_log (env : Env) (args : Namespace)
  : outcome unit -> list (level * string) -> Prop :=
| log_config_type_unknown e :
    determine_file_type (config_file args) (config_type args) = Err e ->
    run_log env args (SystemExit 1) [(ERROR, exc_str e)]
| log_schema_type_unknown ct e :
    determine_file_type (config_file args) (config_type args) = Ok ct ->
    determine_file_type (schema_file args) (schema_type args) = Err e ->
    run_log env args (SystemExit 1) [(ERROR, exc_str e)]
| log_config_type_invalid ct st :
    determine_file_type (config_file args) (config_type args) = Ok ct ->
    determine_file_type (schema_file args) (schema_type args) = Ok st ->
    ct <> "json" -> ct <> "yaml" ->
    run_log env args (SystemExit 1) [(ERROR, "Invalid config file type.")]
| log_config_load_fails ct st e :
    determine_file_type (config_file args) (config_type args) = Ok ct ->
    determine_file_type (schema_file args) (schema_type args) = Ok st ->
    ct = "json" \/ ct = "yaml" ->
    failure_of env (load_call ct (config_file args)) = Some e ->
    run_log env args (Raise e) (loader_log ct (config_file args) e)
| log_schema_type_invalid ct st config_data :
    determine_file_type (config_file args) (config_type args) = Ok ct ->
    determine_file_type (schema_file args) (schema_type args) = Ok st ->
    loads_as env ct (config_file args) config_data ->
    st <> "json" -> st <> "yaml" ->
    run_log env args (SystemExit 1) [(ERROR, "Invalid schema file type.")]
| log_schema_load_fails ct st config_data e :
    determine_file_type (config_file args) (config_type args) = Ok ct ->
    determine_file_type (schema_file args) (schema_type args) = Ok st ->
    loads_as env ct (config_file args) config_data ->
    st = "json" \/ st = "yaml" ->
    failure_of env (load_call st (schema_file args)) = Some e ->
    run_log env args (Raise e) (loader_log st (schema_file args) e)
| log_validation_fails ct st config_data schema_data e :
    determine_file_type (config_file args) (config_type args) = Ok ct ->
    determine_file_type (schema_file args) (schema_type args) = Ok st ->
    loads_as env ct (config_file args) config_data ->
    loads_as env st (schema_file args) schema_data ->
    validate env config_data schema_data = Err e ->
    run_log env args (Raise e) (validator_log e)
| log_valid ct st config_data schema_data :
    determine_file_type (config_file args) (config_type args) = Ok ct ->
    determine_file_type (schema_file args) (schema_type args) = Ok st ->
    loads_as env ct (config_file args) config_data ->
    loads_as env st (schema_file args) schema_data ->
    validate env config_data schema_data = Ok tt ->
    run_log env args (SystemExit 0) success_log.

(** A declared type as [argparse] lets it through: absent, or one of
    the [choices]. *)
Definition from_command_line (arg_type : option string) : Prop :=
  match arg_type with
  | None => True
  | Some t => In t type_choices
  end.

(** The arguments with another [--log_level]. *)
Definition set_log_level (l : level) (args : Namespace) : Namespace := {|
  config_file := config_file args;
  schema_file := schema_file args;
  config_type := config_type args;
  schema_type := schema_type args;
  log_level := l
|}.

(** A text of JSON whitespace only. *)
Fixpoint blank (s : string) : bool :=
  match s with
  | EmptyString => true
  | String a s' => Json.is_whitespace a && blank s'
  end.

(** A small environment for the examples: two empty files, a file that
    may not be read, a file whose document is one mapping with a Python
    tag, and nothing else; a validator that accepts everything. *)
Definition tagged_document : Yaml.node :=
  Yaml.MappingNode "tag:yaml.org,2002:python/object:subprocess.Popen" [].

(** The keys of the samples are compared as strings, integers,
    Booleans or [None] of equal contents. *)
Definition sample_same_key (a b : pyvalue) : bool :=
  match a, b with
  | PyNone, PyNone => true
  | PyBool x, PyBool y => Bool.eqb x y
  | PyInt x, PyInt y => Z.eqb x y
  | PyStr x, PyStr y => String.eqb x y
  | _, _ => false
  end.

Definition sample_env : Env := {|
  open_ := fun file_path =>
    if str_in file_path ["empty.json"; "empty.yaml"]
    then Ok (mk_file (Ok ""))
    else if String.eqb file_path "tagged.yaml"
    then Ok (mk_file (Ok "!!python/object:subprocess.Popen {}"))
    else if String.eqb file_path "secret.json"
    then Err (mk_exn PermissionError
                "[Errno 13] Permission denied: 'secret.json'")
    else Err (mk_exn FileNotFoundError
                ("[Errno 2] No such file or directory: '" ++
                 file_path ++ "'"));
  json_scan_value := fun _ idx => Json.StopIteration idx;
  yaml_lib := {|
    Yaml.to_bool := fun v => Ok (String.eqb v "true");
    Yaml.to_int := fun _ => Ok 0;
    Yaml.to_float := fun v => Ok v;
    Yaml.to_binary := fun v => Ok v;
    Yaml.to_timestamp := fun v => Ok v;
    Yaml.compose := fun _ => Ok (Some tagged_document);
    Yaml.same_key := sample_same_key
  |};
  validate := fun _ _ => Ok tt
|}.

(** The sample with a JSON file that reads [null]: the scanner of the
    sample finds the value [None] in that text, four characters long. *)
Definition sample_env_null : Env := {|
  open_ := fun file_path =>
    if String.eqb file_path "null.json" then Ok (mk_file (Ok "null"))
    else open_ sample_env file_path;
  json_scan_value := fun text idx =>
    if String.eqb text "null" then Json.Scanned PyNone (idx + 4)
    else Json.StopIteration idx;
  yaml_lib := yaml_lib sample_env;
  validate := validate sample_env
|}.

(** The sample with a validator that rejects every configuration, and
    with one that refuses every schema. *)
Definition sample_env_invalid : Env := {|
  open_ := open_ sample_env;
  json_scan_value := json_scan_value sample_env;
  yaml_lib := yaml_lib sample_env;
  validate := fun _ _ =>
    Err (mk_exn ValidationError "None is not of type 'object'")
|}.

Definition sample_env_bad_schema : Env := {|
  open_ := open_ sample_env;
  json_scan_value := json_scan_value sample_env;
  yaml_lib := yaml_lib sample_env;
  validate := fun _ _ =>
    Err (mk_exn SchemaError "None is not of type 'object', 'boolean'")
|}.

(** The sample with a file of two spaces. *)
Definition sample_env_blank : Env := {|
  open_ := fun file_path =>
    if String.eqb file_path "blank.json" then Ok (mk_file (Ok "  "))
    else open_ sample_env file_path;
  json_scan_value := json_scan_value sample_env;
  yaml_lib := yaml_lib sample_env;
  validate := validate sample_env
|}.

(** The sample with three YAML files, and the nodes that the composer
    makes of their texts: a mapping with a key twice; a mapping whose
    entries [derived] and [changed] merge the anchored mapping of
    [base], the second with an entry of its own for [x]; a mapping with
    a sequence for a key.  An alias is a copy of its anchored node. *)
Definition str_node (value : string) : Yaml.node :=
  Yaml.ScalarNode "tag:yaml.org,2002:str" value.

Definition map_node (value : list (Yaml.node * Yaml.node)) : Yaml.node :=
  Yaml.MappingNode "tag:yaml.org,2002:map" value.

Definition duplicate_document : Yaml.node :=
  map_node [ (str_node "a", str_node "x"); (str_node "a", str_node "y") ].

Definition merge_document : Yaml.node :=
  let base := map_node [ (str_node "x", str_node "one") ] in
  let merge_key := Yaml.ScalarNode "tag:yaml.org,2002:merge" "<<" in
  map_node
    [ (str_node "base", base);
      (str_node "derived",
       map_node [ (merge_key, base); (str_node "y", str_node "two") ]);
      (str_node "changed",
       map_node [ (merge_key, base); (str_node "x", str_node "three") ]) ].

Definition sequence_key_document : Yaml.node :=
  map_node
    [ (Yaml.SequenceNode "tag:yaml.org,2002:seq"
         [ str_node "a"; str_node "b" ],
       str_node "x") ].

Definition sample_env_yaml : Env := {|
  open_ := fun file_path =>
    if String.eqb file_path "duplicate.yaml"
    then Ok (mk_file (Ok "{a: x, a: y}"))
    else if String.eqb file_path "merge.yaml"
    then Ok (mk_file (Ok
      "{base: &b {x: one}, derived: {<<: *b, y: two}, changed: {<<: *b, x: three}}"))
    else if String.eqb file_path "key.yaml"
    then Ok (mk_file (Ok "{[a, b]: x}"))
    else open_ sample_env file_path;
  json_scan_value := json_scan_value sample_env;
  yaml_lib := {|
    Yaml.to_bool := Yaml.to_bool (yaml_lib sample_env);
    Yaml.to_int := Yaml.to_int (yaml_lib sample_env);
    Yaml.to_float := Yaml.to_float (yaml_lib sample_env);
    Yaml.to_binary := Yaml.to_binary (yaml_lib sample_env);
    Yaml.to_timestamp := Yaml.to_timestamp (yaml_lib sample_env);
    Yaml.compose := fun stream =>
      if String.eqb stream "{a: x, a: y}"
      then Ok (Some duplicate_document)
      else if String.eqb stream "{[a, b]: x}"
      then Ok (Some sequence_key_document)
      else if String.prefix "{base: &b" stream
      then Ok (Some merge_document)
      else Yaml.compose (yaml_lib sample_env) stream;
    Yaml.same_key := sample_same_key
  |};
  validate := validate sample_env
|}.

Definition sample_args (config schema : string) (l : level) : Namespace := {|
  config_file := config; schema_file := schema;
  config_type := None; schema_type := None; log_level := l
|}.

(** A directory prefix of a path: empty, or ending in the separator. *)
Definition is_dir_prefix (dir : string) : Prop :=
  dir = "" \/ exists d, dir = d ++ "/".

(** The [ValueError] of [determine_file_type] for a path. *)
Definition unknown_file_type (file_path : string) : exn :=
  mk_exn ValueError
    ("Could not determine file type for " ++ file_path ++
     ".  Specify with --config_type or --schema_type.").

(** A string of dots only. *)
Fixpoint all_dots (s : string) : bool :=
  match s with
  | EmptyString => true
  | String c s' => Ascii.eqb c "." && all_dots s'
  end.

(** The path has the extension [e]: its file name (what follows the
    last [/]) ends in a dot and [e], where [e] holds no dot, and a
    character other than a dot stands somewhere before that dot in the
    file name. *)
Definition has_extension (file_path e : string) : Prop :=
  exists dir stem1 c stem2,
    is_dir_prefix dir /\
    contains "/" (stem1 ++ String c stem2) = false /\ c <> "."%char /\
    contains "." e = false /\ contains "/" e = false /\
    file_path = dir ++ (stem1 ++ String c stem2) ++ String "." e.

(** The path has no extension: its file name is a run of dots (possibly
    none) followed by a name without a dot (possibly empty). *)
Definition no_extension (file_path : string) : Prop :=
  exists dir dots name,
    is_dir_prefix dir /\ all_dots dots = true /\
    contains "." name = false /\ contains "/" name = false /\
    file_path = dir ++ dots ++ name.

(** The type of a file as the command line gives it: the declared type
    when there is one (an empty one is none), or else the type that
    goes with the extension of the path, up to case. *)
Inductive file_type (file_path : string) : option string -> string -> Prop :=
| type_declared t :
    t <> "" -> file_type file_path (Some t) t
| type_json declared e :
    declared = None \/ declared = Some "" ->
    has_extension file_path e -> eq_nocase e "json" = true ->
    file_type file_path declared "json"
| type_yaml declared e :
    declared = None \/ declared = Some "" ->
    has_extension file_path e ->
    eq_nocase e "yaml" || eq_nocase e "yml" = true ->
    file_type file_path declared "yaml".

(** The parser of a format on an open file: the decoder of [json], or
    the safe loader of the YAML library. *)
Definition parse (env : Env) (type : string) (f : TextIO) : result pyvalue :=
  if String.eqb type "json" then Json.load (json_scan_value env) f
  else Yaml.load (yaml_lib env) Yaml.YAML_safe f.

(** The file at a path holds the document [data] in the format [type],
    [json] or [yaml]: [open] returns the file, and the parser of the
    format makes [data] of it. *)
Definition holds (env : Env) (type file_path : string) (data : pyvalue)
  : Prop :=
  (type = "json" \/ type = "yaml") /\
  exists f, open_ env file_path = Ok f /\ parse env type f = Ok data.

(** The configuration of a command line is valid against its schema:
    both files have a type, both hold a document in the format of their
    type, and [jsonschema.validate] returns for the two documents. *)
Definition accepted (env : Env) (args : Namespace) : Prop :=
  exists ct st config_data schema_data,
    file_type (config_file args) (config_type args) ct /\
    file_type (schema_file args) (schema_type args) st /\
    holds env ct (config_file args) config_data /\
    holds env st (schema_file args) schema_data /\
    validate env config_data schema_data = Ok tt.

(* ===================================================================== *)
(** ** Strings and [splitext] *)
(* ===================================================================== *)

Module PyStrFacts.
Import PyStr.

Lemma len_nonneg s : 0 <= len s.
Proof. unfold len. lia. Qed.

Lemma len_String a s : len (String a s) = len s + 1.
Proof. unfold len. simpl String.length. lia. Qed.

Lemma len_app s t : len (s ++ t) = len s + len t.
Proof.
  unfold len. induction s as [|a s IH]; cbn [append String.length].
  - reflexivity.
  - rewrite !Nat2Z.inj_succ. lia.
Qed.

Lemma append_assoc s t u : s ++ t ++ u = (s ++ t) ++ u.
Proof. induction s as [|a s IH]; simpl; [reflexivity | now rewrite IH]. Qed.

Lemma append_empty_r s : s ++ "" = s.
Proof. induction s as [|a s IH]; simpl; [reflexivity | now rewrite IH]. Qed.

Lemma app_String_assoc s a t : (s ++ String a "") ++ t = s ++ String a t.
Proof. induction s as [|b s IH]; simpl; [reflexivity | now rewrite IH]. Qed.

Lemma take_drop n s : take n s ++ drop n s = s.
Proof.
  revert s. induction n as [|n IH]; intros [|a s]; simpl; try reflexivity.
  now rewrite IH.
Qed.

Lemma take_app_length s t : take (String.length s) (s ++ t) = s.
Proof. induction s as [|a s IH]; simpl; [now destruct t | now rewrite IH]. Qed.

Lemma drop_app_length s t : drop (String.length s) (s ++ t) = t.
Proof. induction s as [|a s IH]; simpl; [reflexivity | exact IH]. Qed.

Lemma slice_to_len_app s t : slice_to (s ++ t) (len s) = s.
Proof. unfold slice_to, len. rewrite Nat2Z.id. apply take_app_length. Qed.

Lemma slice_from_len_app s t : slice_from (s ++ t) (len s) = t.
Proof. unfold slice_from, len. rewrite Nat2Z.id. apply drop_app_length. Qed.

(** The character at an index, as a one-character slice. *)
Lemma slice_char s a t :
  slice (s ++ String a t) (len s) (len s + 1) = String a "".
Proof.
  unfold slice. replace (len s + 1 - len s) with 1 by lia.
  unfold len. rewrite Nat2Z.id, drop_app_length. reflexivity.
Qed.

Lemma contains_app c s t : contains c (s ++ t) = contains c s || contains c t.
Proof.
  induction s as [|a s IH]; simpl; [reflexivity |].
  now rewrite IH, orb_assoc.
Qed.

(** [rfind] answers [-1] or an index of the string. *)
Lemma rfind_from_range c s i :
  rfind_from c s i = -1 \/ i <= rfind_from c s i < i + len s.
Proof.
  revert i. induction s as [|a s IH]; intros i; simpl.
  - now left.
  - rewrite len_String. pose proof (len_nonneg s) as Hl.
    destruct (IH (i + 1)) as [H | H].
    + rewrite H. simpl. destruct (Ascii.eqb a c); [right; lia | now left].
    + destruct (Z.leb_spec 0 (rfind_from c s (i + 1))).
      * right. lia.
      * destruct (Ascii.eqb a c); [right; lia | now left].
Qed.

Lemma rfind_from_absent c s i :
  contains c s = false -> rfind_from c s i = -1.
Proof.
  revert i. induction s as [|a s IH]; intros i H; simpl in *.
  - reflexivity.
  - apply orb_false_iff in H as [Ha Hs].
    rewrite (IH _ Hs), Ha. reflexivity.
Qed.

(** The last occurrence: after it the character does not occur. *)
Lemma rfind_from_last c s t i :
  0 <= i -> contains c t = false ->
  rfind_from c (s ++ String c t) i = i + len s.
Proof.
  revert i. induction s as [|a s IH]; intros i Hi Ht; simpl.
  - rewrite (rfind_from_absent _ _ _ Ht). simpl.
    rewrite Ascii.eqb_refl. unfold len. simpl. lia.
  - rewrite (IH (i + 1)) by (assumption || lia).
    rewrite len_String. pose proof (len_nonneg s).
    destruct (Z.leb_spec 0 (i + 1 + len s)); lia.
Qed.

Lemma rfind_absent c s : contains c s = false -> rfind s c = -1.
Proof. apply rfind_from_absent. Qed.

Lemma rfind_last c s t :
  contains c t = false -> rfind (s ++ String c t) c = len s.
Proof.
  intros H. unfold rfind. rewrite rfind_from_last by (assumption || lia).
  lia.
Qed.

(** [lower] and comparison up to case. *)
Lemma same_letter_lower_nat :
  forallb (fun m =>
    forallb (fun n =>
      Bool.eqb (same_letter (ascii_of_nat m) (ascii_of_nat n))
               (Ascii.eqb (lower_char (ascii_of_nat m))
                          (lower_char (ascii_of_nat n))))
      (seq 0 256)) (seq 0 256) = true.
Proof. vm_compute. reflexivity. Qed.

Lemma same_letter_lower x y :
  same_letter x y = Ascii.eqb (lower_char x) (lower_char y).
Proof.
  pose proof same_letter_lower_nat as H.
  rewrite forallb_forall in H.
  specialize (H (nat_of_ascii x)).
  rewrite forallb_forall in H.
  assert (Hx : In (nat_of_ascii x) (seq 0 256))
    by (apply in_seq; pose proof (nat_ascii_bounded x); lia).
  assert (Hy : In (nat_of_ascii y) (seq 0 256))
    by (apply in_seq; pose proof (nat_ascii_bounded y); lia).
  specialize (H Hx _ Hy).
  rewrite !ascii_nat_embedding in H.
  now apply Bool.eqb_prop in H.
Qed.

Lemma eq_nocase_lower a b :
  eq_nocase a b = String.eqb (lower a) (lower b).
Proof.
  revert b. induction a as [|x a IH]; intros [|y b]; simpl; try reflexivity.
  rewrite same_letter_lower, IH.
  destruct (Ascii.eqb (lower_char x) (lower_char y)); reflexivity.
Qed.

Lemma lower_char_idempotent x : lower_char (lower_char x) = lower_char x.
Proof.
  unfold lower_char.
  destruct ((65 <=? nat_of_ascii x) && (nat_of_ascii x <=? 90))%nat eqn:E;
    [| now rewrite E].
  apply andb_true_iff in E as [E1 E2].
  apply Nat.leb_le in E1, E2.
  rewrite nat_ascii_embedding by lia.
  replace ((65 <=? nat_of_ascii x + 32) && (nat_of_ascii x + 32 <=? 90))%nat
    with false; [reflexivity |].
  symmetry. apply andb_false_iff. right. apply Nat.leb_gt. lia.
Qed.

Lemma lower_idempotent s : lower (lower s) = lower s.
Proof.
  induction s as [|x s IH]; simpl; [reflexivity |].
  now rewrite lower_char_idempotent, IH.
Qed.

End PyStrFacts.

Module OsPathFacts.
Import PyStr PyStrFacts OsPath.

Lemma sep_index dir rest :
  is_dir_prefix dir -> contains "/" rest = false ->
  rfind (dir ++ rest) "/" = len dir - 1.
Proof.
  intros [-> | [d ->]] H.
  - simpl. now rewrite rfind_absent.
  - rewrite app_String_assoc, rfind_last by assumption.
    rewrite len_app, len_String. change (len "") with 0. lia.
Qed.

Lemma found_non_dot_true extsep pre c post i fuel :
  c <> extsep -> i <= len pre < i + Z.of_nat fuel ->
  found_non_dot (pre ++ String c post) extsep i fuel = true.
Proof.
  intros Hc. revert i. induction fuel as [|fuel IH]; intros i Hi.
  - lia.
  - cbn [found_non_dot].
    destruct (Z.eq_dec (len pre) i) as [<- | Hne].
    + rewrite slice_char.
      replace (String.eqb (String c "") (String extsep "")) with false;
        [reflexivity |].
      symmetry. apply String.eqb_neq. congruence.
    + destruct (negb _); [reflexivity |]. apply IH. lia.
Qed.

(** A file name with a character other than a dot before its last dot:
    the extension starts at the last dot. *)
Lemma splitext_extension dir stem1 c stem2 e :
  is_dir_prefix dir ->
  contains "/" (stem1 ++ String c stem2) = false -> c <> "."%char ->
  contains "." e = false -> contains "/" e = false ->
  splitext (dir ++ (stem1 ++ String c stem2) ++ String "." e) =
    (dir ++ stem1 ++ String c stem2, String "." e).
Proof.
  intros Hdir Hstem Hc Hdot Hsl.
  set (stem := stem1 ++ String c stem2) in *.
  unfold splitext, _splitext.
  assert (Hsep : rfind (dir ++ stem ++ String "." e) "/" = len dir - 1).
  { apply sep_index; [assumption |].
    rewrite contains_app, Hstem. simpl. exact Hsl. }
  assert (Hdotidx : rfind (dir ++ stem ++ String "." e) "." = len (dir ++ stem)).
  { rewrite append_assoc. now apply rfind_last. }
  rewrite Hsep, Hdotidx.
  pose proof (len_nonneg dir) as Hd. pose proof (len_nonneg stem1) as H1.
  pose proof (len_nonneg stem2) as H2.
  assert (Hlen : len (dir ++ stem) = len dir + len stem1 + len stem2 + 1).
  { unfold stem. rewrite !len_app, len_String. lia. }
  destruct (Z.ltb_spec (len dir - 1) (len (dir ++ stem))); [| lia].
  replace (dir ++ stem ++ String "." e)
    with ((dir ++ stem1) ++ String c (stem2 ++ String "." e)) at 1
    by (unfold stem; now rewrite <- !append_assoc).
  rewrite found_non_dot_true.
  - rewrite append_assoc.
    now rewrite slice_to_len_app, slice_from_len_app.
  - assumption.
  - rewrite len_app. lia.
Qed.

(** A file name that is a dot followed by a name without a dot: no
    character other than a dot stands before the last dot, and the
    extension is empty. *)
Lemma splitext_dotfile dir name :
  is_dir_prefix dir ->
  contains "." name = false -> contains "/" name = false ->
  splitext (dir ++ String "." name) = (dir ++ String "." name, "").
Proof.
  intros Hdir Hdot Hsl.
  unfold splitext, _splitext.
  rewrite sep_index by (assumption || (simpl; exact Hsl)).
  rewrite rfind_last by assumption.
  destruct (Z.ltb_spec (len dir - 1) (len dir)); [| lia].
  replace (Z.to_nat (len dir - (len dir - 1 + 1))) with O by lia.
  reflexivity.
Qed.

(** The two parts always make up the path. *)
Lemma splitext_join p : fst (splitext p) ++ snd (splitext p) = p.
Proof.
  unfold splitext, _splitext.
  destruct (_ <? _); [destruct (found_non_dot _ _ _ _) |]; cbn [fst snd];
    [apply take_drop | apply append_empty_r | apply append_empty_r].
Qed.

End OsPathFacts.

(* ===================================================================== *)
(** ** The type resolver: [determine_file_type] *)
(* ===================================================================== *)

Section TypeResolver.
Import PyStrFacts OsPathFacts.

Lemma determine_file_type_truthy file_path t :
  t <> "" -> determine_file_type file_path (Some t) = Ok t.
Proof. intros H. unfold determine_file_type. now destruct t. Qed.

(** C3: a declared type, one of the choices of [--config_type] and
    [--schema_type], is returned as it is for every path, whatever the
    extension of the path. *)
Theorem determine_file_type_declared (file_path t : string) :
  In t type_choices -> determine_file_type file_path (Some t) = Ok t.
Proof.
  intros H. apply determine_file_type_truthy.
  destruct H as [<- | [<- | []]]; discriminate.
Qed.

Lemma determine_file_type_declared_witness :
  In "yaml" type_choices /\
  determine_file_type "settings.json" (Some "yaml") = Ok "yaml".
Proof.
  split; [right; left; reflexivity |].
  apply (determine_file_type_declared "settings.json" "yaml").
  right; left; reflexivity.
Defined.

Lemma determine_file_type_lower file_path :
  determine_file_type file_path None =
    let ext := lower (snd (OsPath.splitext file_path)) in
    if String.eqb ext ".json" then Ok "json"
    else if String.eqb ext ".yaml" || String.eqb ext ".yml" then Ok "yaml"
    else Err (unknown_file_type file_path).
Proof.
  unfold determine_file_type. cbv zeta. cbn [str_in].
  rewrite !orb_false_r. reflexivity.
Qed.

(** C10: a file name made of a dot and a name without a dot ([.json],
    [.yaml], [.yml], ...) has an empty extension, so that without a
    declared type the resolver raises the [ValueError]. *)
Theorem determine_file_type_dotfile (dir name : string) :
  is_dir_prefix dir ->
  PyStr.contains "." name = false -> PyStr.contains "/" name = false ->
  determine_file_type (dir ++ String "." name) None =
    Err (unknown_file_type (dir ++ String "." name)).
Proof.
  intros Hdir Hdot Hsl.
  rewrite determine_file_type_lower. cbv zeta.
  now rewrite splitext_dotfile.
Qed.

(** X3: with a character other than a dot before the last dot of the
    file name, the resolver goes by what follows the last dot of the
    file name, compared up to case: earlier dots of the name and the
    dots of the directories do not count. *)
Lemma determine_file_type_of_extension dir stem1 c stem2 e :
  is_dir_prefix dir ->
  PyStr.contains "/" (stem1 ++ String c stem2) = false -> c <> "."%char ->
  PyStr.contains "." e = false -> PyStr.contains "/" e = false ->
  determine_file_type (dir ++ (stem1 ++ String c stem2) ++ String "." e) None =
    if eq_nocase e "json" then Ok "json"
    else if eq_nocase e "yaml" || eq_nocase e "yml" then Ok "yaml"
    else Err (unknown_file_type
                (dir ++ (stem1 ++ String c stem2) ++ String "." e)).
Proof.
  intros Hdir Hstem Hc Hdot Hsl.
  rewrite determine_file_type_lower. cbv zeta.
  rewrite splitext_extension by assumption.
  rewrite !eq_nocase_lower. reflexivity.
Qed.

Example resolve_upper_case :
  determine_file_type "etc/app.d/Config.JSON" None = Ok "json" /\
  determine_file_type "deploy.prod.Yml" None = Ok "yaml".
Proof. split; reflexivity. Qed.

Example resolve_unknown :
  determine_file_type "config.txt" None = Err (unknown_file_type "config.txt") /\
  determine_file_type "etc/app.d/config" None =
    Err (unknown_file_type "etc/app.d/config").
Proof. split; reflexivity. Qed.

Lemma determine_file_type_dotfile_witness :
  is_dir_prefix "conf/" /\
  PyStr.contains "." "json" = false /\
  PyStr.contains "/" "json" = false /\
  determine_file_type "conf/.json" None =
    Err (unknown_file_type "conf/.json").
Proof.
  assert (H : is_dir_prefix "conf/") by (right; exists "conf"; reflexivity).
  exact (conj H (conj eq_refl (conj eq_refl
           (determine_file_type_dotfile "conf/" "json" H eq_refl eq_refl)))).
Defined.

End TypeResolver.

(* ===================================================================== *)
(** ** The safe constructor *)
(* ===================================================================== *)

Module YamlFacts.
Import Yaml.

Lemma builtin_PyList vs : builtin (PyList vs) = forallb builtin vs.
Proof. induction vs as [| v vs IH]; cbn in *; [| rewrite IH]; reflexivity. Qed.

Lemma builtin_PyTuple vs : builtin (PyTuple vs) = forallb builtin vs.
Proof. induction vs as [| v vs IH]; cbn in *; [| rewrite IH]; reflexivity. Qed.

Lemma builtin_PySet vs : builtin (PySet vs) = forallb builtin vs.
Proof. induction vs as [| v vs IH]; cbn in *; [| rewrite IH]; reflexivity. Qed.

Lemma builtin_PyDict ps :
  builtin (PyDict ps) = forallb (fun '(k, v) => builtin k && builtin v) ps.
Proof.
  induction ps as [| [k v] ps IH]; cbn in *; [| rewrite IH]; reflexivity.
Qed.

(** *** Sizes *)

Lemma node_size_SequenceNode t l :
  node_size (SequenceNode t l) = S (nodes_size l).
Proof. reflexivity. Qed.

Lemma node_size_MappingNode t l :
  node_size (MappingNode t l) = S (entries_size l).
Proof. reflexivity. Qed.

Lemma node_size_pos n : (1 <= node_size n)%nat.
Proof. destruct n; cbn [node_size]; lia. Qed.

Lemma node_size_set_tag t n : node_size (set_tag t n) = node_size n.
Proof. destruct n; reflexivity. Qed.

Lemma nodes_size_cons x l :
  nodes_size (x :: l) = (node_size x + nodes_size l)%nat.
Proof. reflexivity. Qed.

Lemma entries_size_cons k v l :
  entries_size ((k, v) :: l) =
    (node_size k + node_size v + entries_size l)%nat.
Proof. reflexivity. Qed.

Lemma entries_size_app a b :
  entries_size (a ++ b) = (entries_size a + entries_size b)%nat.
Proof.
  induction a as [| [k v] a IH]; [reflexivity |].
  cbn [app]. rewrite !entries_size_cons, IH. lia.
Qed.

Lemma nodes_size_In x l : In x l -> (node_size x <= nodes_size l)%nat.
Proof.
  induction l as [| y l IH]; intros Hin;
    [destruct Hin | destruct Hin as [-> | H]]; rewrite nodes_size_cons.
  - lia.
  - specialize (IH H). lia.
Qed.

Lemma entries_size_In k v l :
  In (k, v) l -> (node_size k + node_size v <= entries_size l)%nat.
Proof.
  induction l as [| [k' v'] l IH]; intros Hin;
    [destruct Hin | destruct Hin as [E | H]]; rewrite entries_size_cons.
  - injection E as -> ->. lia.
  - specialize (IH H). lia.
Qed.

Lemma node_size_item t x l :
  In x l -> (node_size x < node_size (SequenceNode t l))%nat.
Proof.
  intros H. rewrite node_size_SequenceNode.
  pose proof (nodes_size_In _ _ H). lia.
Qed.

Lemma node_size_entry t k v l :
  In (k, v) l ->
  (node_size k < node_size (MappingNode t l))%nat /\
  (node_size v < node_size (MappingNode t l))%nat.
Proof.
  intros H. rewrite node_size_MappingNode.
  pose proof (entries_size_In _ _ _ H).
  pose proof (node_size_pos k). pose proof (node_size_pos v). lia.
Qed.

(** *** Flattening keeps the entries within the node *)

Section Flatten.
Variable flatten
  : node -> result (list (node * node) * list (node * node)).
Variable bound : nat.
Hypothesis flatten_smaller :
  forall x m v,
    (node_size x <= bound)%nat -> flatten x = Ok (m, v) ->
    (entries_size m + entries_size v < node_size x)%nat.

Lemma flatten_subnodes_size subnodes submerge :
  (nodes_size subnodes <= bound)%nat ->
  flatten_subnodes flatten subnodes = Ok submerge ->
  (entries_size (concat submerge) <= nodes_size subnodes)%nat.
Proof.
  revert submerge.
  induction subnodes as [| x l IH]; intros submerge Hb H;
    cbn [flatten_subnodes] in H.
  - injection H as <-. cbn. lia.
  - rewrite nodes_size_cons in *.
    destruct x as [| | t value]; try discriminate.
    destruct (flatten (MappingNode t value)) as [[m v] |] eqn:E;
      [| discriminate].
    cbn [rbind] in H.
    destruct (flatten_subnodes flatten l) as [s |] eqn:El;
      [| discriminate].
    cbn [rbind] in H. injection H as <-.
    rewrite concat_app, entries_size_app. cbn [concat].
    rewrite app_nil_r, entries_size_app.
    specialize (IH s ltac:(lia) eq_refl).
    assert (Hx : (node_size (MappingNode t value) <= bound)%nat) by lia.
    pose proof (flatten_smaller _ _ _ Hx E). lia.
Qed.

Lemma flatten_entries_size value merge m v :
  (entries_size value <= bound)%nat ->
  flatten_entries flatten value merge = Ok (m, v) ->
  (entries_size m + entries_size v <=
   entries_size merge + entries_size value)%nat.
Proof.
  revert merge m v.
  induction value as [| [key_node value_node] rest IH];
    intros merge m v Hb H; cbn [flatten_entries] in H.
  - injection H as <- <-. cbn. lia.
  - rewrite entries_size_cons in *.
    destruct (String.eqb (node_tag key_node) merge_tag).
    + destruct merge as [| e merge]; [| discriminate].
      destruct value_node as [| t subnodes | t value']; [discriminate | |].
      * destruct (flatten_subnodes flatten subnodes) as [s |] eqn:E;
          [| discriminate].
        cbn [rbind] in H.
        apply IH in H; [| lia].
        rewrite node_size_SequenceNode in *.
        assert (Hx : (nodes_size subnodes <= bound)%nat) by lia.
        pose proof (flatten_subnodes_size _ _ Hx E).
        cbn [app] in H. cbn [entries_size] in *. lia.
      * destruct (flatten (MappingNode t value')) as [[m' v'] |] eqn:E;
          [| discriminate].
        cbn [rbind] in H.
        apply IH in H; [| lia].
        assert (Hx : (node_size (MappingNode t value') <= bound)%nat) by lia.
        pose proof (flatten_smaller _ _ _ Hx E).
        cbn [app] in H. rewrite entries_size_app in H.
        cbn [entries_size] in *. lia.
    + cbv zeta in H.
      destruct (flatten_entries flatten rest merge) as [[m' v'] |] eqn:E;
        [| discriminate].
      cbn [rbind] in H. injection H as <- <-.
      apply IH in E; [| lia].
      rewrite entries_size_cons.
      destruct (String.eqb (node_tag key_node) value_tag);
        rewrite ?node_size_set_tag; lia.
Qed.
End Flatten.

Lemma flatten_mapping_size n merge value :
  flatten_mapping n = Ok (merge, value) ->
  (entries_size merge + entries_size value < node_size n)%nat.
Proof.
  assert (H : forall k n merge value,
             (node_size n < k)%nat -> flatten_mapping n = Ok (merge, value) ->
             (entries_size merge + entries_size value < node_size n)%nat);
    [| intros Hf; apply (H (S (node_size n))); [lia | exact Hf]].
  clear. induction k as [| k IH]; intros n merge value Hk Hf; [lia |].
  destruct n as [t s | t l | t l]; cbn [flatten_mapping] in Hf.
  - injection Hf as <- <-. cbn. lia.
  - injection Hf as <- <-. cbn. lia.
  - rewrite node_size_MappingNode in *.
    apply (flatten_entries_size flatten_mapping (entries_size l)) in Hf;
      [change (entries_size []) with 0%nat in Hf; lia | | lia].
    intros x m v Hx. apply IH. lia.
Qed.

(** The nodes of the entries of a flattened mapping are smaller than
    the mapping. *)
Lemma flatten_mapping_smaller n merge value k v :
  flatten_mapping n = Ok (merge, value) -> In (k, v) (merge ++ value) ->
  (node_size k < node_size n)%nat /\ (node_size v < node_size n)%nat.
Proof.
  intros Hf Hin. apply flatten_mapping_size in Hf.
  apply entries_size_In in Hin. rewrite entries_size_app in Hin.
  pose proof (node_size_pos k). pose proof (node_size_pos v). lia.
Qed.


(** *** The methods look at the sub-nodes only *)

Section Extensional.
Variable lib : Library.
Variable cls : ConstructorClass.
Variables c1 c2 : node -> result pyvalue.

Lemma construct_sequence_ext n :
  (forall x, (node_size x < node_size n)%nat -> c1 x = c2 x) ->
  BaseConstructor_construct_sequence c1 n =
    BaseConstructor_construct_sequence c2 n.
Proof.
  destruct n as [| t l |]; try reflexivity. intros H.
  cbn [BaseConstructor_construct_sequence].
  assert (Hl : forall x, In x l -> c1 x = c2 x)
    by (intros x Hx; apply H; now apply node_size_item).
  clear H. induction l as [| x l IH]; [reflexivity |].
  rewrite (Hl x) by now left.
  destruct (c2 x); cbn [rbind]; [| reflexivity].
  rewrite IH; [reflexivity |]. intros y Hy. apply Hl. now right.
Qed.

Lemma mapping_entries_ext check values mapping :
  (forall k v, In (k, v) values -> c1 k = c2 k /\ c1 v = c2 v) ->
  mapping_entries lib c1 check values mapping =
    mapping_entries lib c2 check values mapping.
Proof.
  revert mapping.
  induction values as [| [k v] values IH]; intros mapping H;
    [reflexivity |].
  cbn [mapping_entries].
  destruct (H k v (or_introl eq_refl)) as [-> ->].
  destruct (c2 k) as [key |]; cbn [rbind]; [| reflexivity].
  cbv zeta. destruct (negb _); [reflexivity |].
  destruct (c2 v) as [value |]; cbn [rbind]; [| reflexivity].
  destruct (hash _); cbn [rbind]; [| reflexivity].
  destruct (_ && _); [reflexivity |].
  apply IH. intros k' v' Hin. apply H. now right.
Qed.

Lemma construct_mapping_ext merge value :
  (forall k v, In (k, v) (merge ++ value) -> c1 k = c2 k /\ c1 v = c2 v) ->
  BaseConstructor_construct_mapping lib c1 merge value =
    BaseConstructor_construct_mapping lib c2 merge value.
Proof.
  intros H. unfold BaseConstructor_construct_mapping.
  destruct merge as [| e merge].
  - now rewrite (mapping_entries_ext true value [] H).
  - rewrite (mapping_entries_ext false (e :: merge) []),
      (mapping_entries_ext false ((e :: merge) ++ value) [] H);
      [reflexivity |].
    intros k v Hin. apply H. apply in_or_app. now left.
Qed.

Lemma safe_construct_mapping_ext n :
  (forall x, (node_size x < node_size n)%nat -> c1 x = c2 x) ->
  SafeConstructor_construct_mapping lib c1 n =
    SafeConstructor_construct_mapping lib c2 n.
Proof.
  intros H. destruct n as [| | t l]; try reflexivity.
  unfold SafeConstructor_construct_mapping.
  destruct (flatten_mapping (MappingNode t l)) as [[merge value] |] eqn:E;
    [| reflexivity].
  cbn [rbind]. apply construct_mapping_ext. intros k v Hin.
  destruct (flatten_mapping_smaller _ _ _ _ _ E Hin) as [Hk Hv].
  split; now apply H.
Qed.

Lemma omap_entries_ext l omap :
  (forall x, (S (node_size x) < S (nodes_size l))%nat -> c1 x = c2 x) ->
  omap_entries lib c1 l omap = omap_entries lib c2 l omap.
Proof.
  revert omap. induction l as [| x l IH]; intros omap H; [reflexivity |].
  rewrite nodes_size_cons in H.
  assert (IH' : forall omap,
             omap_entries lib c1 l omap = omap_entries lib c2 l omap).
  { intros o. apply IH. intros y Hy. apply H. lia. }
  cbn [omap_entries].
  destruct x as [| | t [| [k v] [|]]]; try reflexivity.
  rewrite node_size_MappingNode in H. cbn [entries_size] in H.
  pose proof (node_size_pos k). pose proof (node_size_pos v).
  rewrite (H k), (H v) by lia.
  destruct (c2 k) as [key |]; cbn [rbind]; [| reflexivity].
  destruct (hash key); cbn [rbind]; [| reflexivity].
  destruct (dict_contains _ _ _); [reflexivity |].
  destruct (c2 v) as [value |]; cbn [rbind]; [| reflexivity].
  apply IH'.
Qed.

Lemma pairs_entries_ext l :
  (forall x, (S (node_size x) < S (nodes_size l))%nat -> c1 x = c2 x) ->
  pairs_entries c1 l = pairs_entries c2 l.
Proof.
  induction l as [| x l IH]; intros H; [reflexivity |].
  rewrite nodes_size_cons in H.
  assert (IH' : pairs_entries c1 l = pairs_entries c2 l).
  { apply IH. intros y Hy. apply H. lia. }
  cbn [pairs_entries].
  destruct x as [| | t [| [k v] [|]]]; try reflexivity.
  rewrite node_size_MappingNode in H. cbn [entries_size] in H.
  pose proof (node_size_pos k). pose proof (node_size_pos v).
  rewrite (H k), (H v), IH' by lia. reflexivity.
Qed.

Lemma construct_node_ext n :
  (forall x, (node_size x < node_size n)%nat -> c1 x = c2 x) ->
  construct_node lib cls c1 n = construct_node lib cls c2 n.
Proof.
  intros H. unfold construct_node.
  destruct (select cls n) as [[] | []]; try reflexivity;
    try (now rewrite (safe_construct_mapping_ext n H));
    try (now rewrite (construct_sequence_ext n H));
    destruct n as [| t l |]; try reflexivity;
    rewrite node_size_SequenceNode in H.
  - rewrite (omap_entries_ext l []); [reflexivity |].
    intros x Hx. apply H. lia.
  - rewrite (pairs_entries_ext l); [reflexivity |].
    intros x Hx. apply H. lia.
Qed.
End Extensional.

(** The bound on the recursion of [construct_object] is never met: with
    as many steps as the node has nodes, or more, the result is the
    same. *)
Lemma construct_object_steps_enough lib cls s1 s2 n :
  (node_size n <= s1)%nat -> (node_size n <= s2)%nat ->
  construct_object_steps lib cls s1 n = construct_object_steps lib cls s2 n.
Proof.
  revert s2 n. induction s1 as [| s1 IH]; intros s2 n H1 H2.
  - pose proof (node_size_pos n). lia.
  - destruct s2 as [| s2]; [pose proof (node_size_pos n); lia |].
    cbn [construct_object_steps]. apply construct_node_ext.
    intros x Hx. apply IH; lia.
Qed.

(** [construct_object] is the function of the library: the selected
    method, with [construct_object] itself for the sub-nodes. *)
Lemma construct_object_unfold lib cls n :
  construct_object lib cls n =
    construct_node lib cls (construct_object lib cls) n.
Proof.
  unfold construct_object at 1.
  pose proof (node_size_pos n) as Hn.
  destruct (node_size n) as [| s] eqn:E; [lia |].
  cbn [construct_object_steps]. apply construct_node_ext.
  intros x Hx. unfold construct_object.
  apply construct_object_steps_enough; lia.
Qed.

Lemma construct_object_steps_enough_for lib cls steps n :
  (node_size n <= steps)%nat ->
  construct_object_steps lib cls steps n = construct_object lib cls n.
Proof.
  intros H. unfold construct_object.
  apply construct_object_steps_enough; [exact H | lia].
Qed.


(** *** The safe constructor makes built-in values *)

Local Notation "'builtin_items'" :=
  (forallb (fun '(k, v) => builtin k && builtin v)).

Lemma dict_setitem_builtin same_key d key value :
  builtin_items d = true -> builtin key = true -> builtin value = true ->
  builtin_items (dict_setitem same_key d key value) = true.
Proof.
  intros Hd Hk Hv. induction d as [| [k v] d IH]; cbn [dict_setitem forallb].
  - now rewrite Hk, Hv.
  - cbn [forallb] in Hd. apply andb_true_iff in Hd as [Hkv Hd].
    apply andb_true_iff in Hkv as [Hk' Hv'].
    destruct (same_key k key); cbn [forallb].
    + now rewrite Hk', Hv, Hd.
    + now rewrite Hk', Hv', (IH Hd).
Qed.

Lemma dict_update_builtin same_key d other :
  builtin_items d = true -> builtin_items other = true ->
  builtin_items (dict_update same_key d other) = true.
Proof.
  unfold dict_update. revert d.
  induction other as [| [k v] other IH]; intros d Hd Ho; [exact Hd |].
  cbn [forallb] in Ho. apply andb_true_iff in Ho as [Hkv Ho].
  apply andb_true_iff in Hkv as [Hk Hv].
  cbn [fold_left]. apply IH; [| exact Ho].
  now apply dict_setitem_builtin.
Qed.

Lemma forallb_map_fst ps :
  builtin_items ps = true ->
  forallb builtin (map (@fst pyvalue pyvalue) ps) = true.
Proof.
  induction ps as [| [k v] ps IH]; cbn; [reflexivity |].
  intros H. apply andb_true_iff in H as [H1 H2].
  apply andb_true_iff in H1 as [-> _]. now apply IH.
Qed.

(** Without multi-constructors a single method is selected. *)
Lemma select_single cls n :
  yaml_multi_constructors cls = [] -> exists m, select cls n = Single m.
Proof.
  intros H. unfold select. rewrite H. cbn.
  destruct (dict_get (yaml_constructors cls) (Some (node_tag n)));
    [eauto |].
  destruct (dict_get (yaml_constructors cls) None); [eauto |].
  destruct n; eauto.
Qed.

Section Builtin.
Variable lib : Library.
Variable cls : ConstructorClass.
Variable construct : node -> result pyvalue.
Hypothesis construct_builtin :
  forall x v, construct x = Ok v -> builtin v = true.

Lemma construct_sequence_builtin n items :
  BaseConstructor_construct_sequence construct n = Ok items ->
  forallb builtin items = true.
Proof.
  destruct n as [| t l |]; try discriminate.
  cbn [BaseConstructor_construct_sequence]. revert items.
  induction l as [| x l IH]; intros items H.
  - now injection H as <-.
  - destruct (construct x) as [v |] eqn:Ex; [| discriminate].
    cbn [rbind] in H.
    match type of H with
    | rbind ?r _ = _ => destruct r as [vs |]; [| discriminate]
    end.
    injection H as <-. cbn [forallb].
    now rewrite (construct_builtin _ _ Ex), (IH vs eq_refl).
Qed.

Lemma mapping_entries_builtin check values mapping m :
  builtin_items mapping = true ->
  mapping_entries lib construct check values mapping = Ok m ->
  builtin_items m = true.
Proof.
  revert mapping.
  induction values as [| [k v] values IH]; intros mapping Hm H;
    cbn [mapping_entries] in H.
  - now injection H as <-.
  - destruct (construct k) as [key |] eqn:Ek; [| discriminate].
    cbn [rbind] in H. cbv zeta in H.
    destruct (negb _); [discriminate |].
    destruct (construct v) as [value |] eqn:Ev; [| discriminate].
    cbn [rbind] in H.
    destruct (hash _); [| discriminate]. cbn [rbind] in H.
    destruct (_ && _); [discriminate |].
    apply IH in H; [exact H |].
    apply dict_setitem_builtin;
      [exact Hm | | exact (construct_builtin _ _ Ev)].
    pose proof (construct_builtin _ _ Ek) as Hk.
    destruct key; exact Hk.
Qed.

Lemma construct_mapping_builtin merge value m :
  BaseConstructor_construct_mapping lib construct merge value = Ok m ->
  builtin_items m = true.
Proof.
  unfold BaseConstructor_construct_mapping.
  destruct merge as [| e merge].
  - destruct (mapping_entries lib construct true value []) as [m1 |] eqn:E1;
      [| discriminate].
    cbn [rbind]. intros [= <-].
    apply dict_update_builtin; [reflexivity |].
    now apply (mapping_entries_builtin _ _ [] _ eq_refl E1).
  - destruct (mapping_entries lib construct false (e :: merge) [])
      as [m1 |] eqn:E1; [| discriminate].
    cbn [rbind].
    destruct (mapping_entries lib construct false ((e :: merge) ++ value) [])
      as [m2 |] eqn:E2; [| discriminate].
    cbn [rbind]. intros [= <-].
    apply dict_update_builtin;
      [| now apply (mapping_entries_builtin _ _ [] _ eq_refl E2)].
    apply dict_update_builtin; [reflexivity |].
    now apply (mapping_entries_builtin _ _ [] _ eq_refl E1).
Qed.

Lemma safe_construct_mapping_builtin n m :
  SafeConstructor_construct_mapping lib construct n = Ok m ->
  builtin_items m = true.
Proof.
  destruct n as [| | t l]; try discriminate.
  unfold SafeConstructor_construct_mapping.
  destruct (flatten_mapping _) as [[merge value] |]; [| discriminate].
  cbn [rbind]. apply construct_mapping_builtin.
Qed.

Lemma omap_entries_builtin l omap m :
  builtin_items omap = true ->
  omap_entries lib construct l omap = Ok m -> builtin_items m = true.
Proof.
  revert omap. induction l as [| x l IH]; intros omap Ho H;
    cbn [omap_entries] in H.
  - now injection H as <-.
  - destruct x as [| | t [| [k v] [|]]]; try discriminate.
    destruct (construct k) as [key |] eqn:Ek; [| discriminate].
    cbn [rbind] in H.
    destruct (hash key); [| discriminate]. cbn [rbind] in H.
    destruct (dict_contains _ _ _); [discriminate |].
    destruct (construct v) as [value |] eqn:Ev; [| discriminate].
    cbn [rbind] in H. apply IH in H; [exact H |].
    apply dict_setitem_builtin;
      [exact Ho | exact (construct_builtin _ _ Ek)
       | exact (construct_builtin _ _ Ev)].
Qed.

Lemma pairs_entries_builtin l pairs :
  pairs_entries construct l = Ok pairs -> forallb builtin pairs = true.
Proof.
  revert pairs. induction l as [| x l IH]; intros pairs H;
    cbn [pairs_entries] in H.
  - now injection H as <-.
  - destruct x as [| | t [| [k v] [|]]]; try discriminate.
    destruct (construct k) as [key |] eqn:Ek; [| discriminate].
    cbn [rbind] in H.
    destruct (construct v) as [value |] eqn:Ev; [| discriminate].
    cbn [rbind] in H.
    destruct (pairs_entries construct l) as [ps |]; [| discriminate].
    cbn [rbind] in H. injection H as <-. cbn [forallb].
    rewrite (IH ps eq_refl), builtin_PyTuple. cbn [forallb].
    now rewrite (construct_builtin _ _ Ek), (construct_builtin _ _ Ev).
Qed.

(** A method of a class without multi-constructors makes a value of
    the built-in types out of such values. *)
Lemma construct_node_builtin n v :
  yaml_multi_constructors cls = [] ->
  construct_node lib cls construct n = Ok v -> builtin v = true.
Proof.
  intros Hm. destruct (select_single cls n Hm) as [m Hs].
  unfold construct_node. rewrite Hs. clear Hs.
  destruct m;
    repeat match goal with
    | |- rbind ?r _ = _ -> _ =>
        let E := fresh "E" in
        destruct r eqn:E; cbn [rbind]; [| discriminate]
    | |- match n with _ => _ end = _ -> _ => destruct n
    | |- Ok _ = Ok _ -> _ => intros [= <-]
    | |- Err _ = _ -> _ => discriminate
    end; try reflexivity.
  - (* !!omap *)
    rewrite builtin_PyDict. eapply omap_entries_builtin; [| eassumption].
    reflexivity.
  - (* !!pairs *)
    rewrite builtin_PyList. eapply pairs_entries_builtin. eassumption.
  - (* !!set *)
    rewrite builtin_PySet. apply forallb_map_fst.
    eapply safe_construct_mapping_builtin. eassumption.
  - (* !!seq *)
    rewrite builtin_PyList. eapply construct_sequence_builtin. eassumption.
  - (* !!map *)
    rewrite builtin_PyDict.
    eapply safe_construct_mapping_builtin. eassumption.
  - (* a sequence without a registered constructor *)
    rewrite builtin_PyList. eapply construct_sequence_builtin. eassumption.
  - (* a mapping without a registered constructor *)
    rewrite builtin_PyDict.
    eapply safe_construct_mapping_builtin. eassumption.
Qed.
End Builtin.

(** A constructor class without multi-constructors makes values of the
    built-in types only, whatever the tags of the nodes. *)
Lemma construct_object_steps_builtin lib cls :
  yaml_multi_constructors cls = [] ->
  forall steps n v,
    construct_object_steps lib cls steps n = Ok v -> builtin v = true.
Proof.
  intros Hm. induction steps as [| steps IH]; intros n v H;
    cbn [construct_object_steps] in H; [discriminate |].
  exact (construct_node_builtin lib cls _ IH n v Hm H).
Qed.

Lemma construct_object_builtin lib cls :
  yaml_multi_constructors cls = [] ->
  forall n v, construct_object lib cls n = Ok v -> builtin v = true.
Proof.
  intros Hm n v. apply construct_object_steps_builtin. exact Hm.
Qed.

(** [SafeConstructor] refuses every tag that is not a standard one. *)
Lemma select_custom_tag n :
  ~ In (node_tag n) standard_tags ->
  select SafeConstructor n = Single construct_undefined.
Proof.
  intros Hn.
  unfold select. cbn [yaml_constructors SafeConstructor dict_get key_eqb].
  repeat match goal with
         | |- context [String.eqb ?a ?b] =>
             destruct (String.eqb_spec a b) as [E | _];
             [exfalso; apply Hn; rewrite <- E; cbn; tauto |]
         end.
  reflexivity.
Qed.

Lemma construct_object_custom_tag lib n :
  ~ In (node_tag n) standard_tags ->
  construct_object lib SafeConstructor n =
    Err (ConstructorError_
           ("could not determine a constructor for the tag '" ++
            node_tag n ++ "'")).
Proof.
  intros Hn. rewrite construct_object_unfold. unfold construct_node.
  now rewrite (select_custom_tag n Hn).
Qed.

(** A method of [SafeConstructor] returns for a standard tag only. *)
Lemma construct_node_standard_tag lib construct n v :
  construct_node lib SafeConstructor construct n = Ok v ->
  In (node_tag n) standard_tags.
Proof.
  intros H.
  destruct (in_dec string_dec (node_tag n) standard_tags) as [Hin | Hn];
    [exact Hin |].
  unfold construct_node in H. rewrite (select_custom_tag n Hn) in H.
  discriminate.
Qed.

End YamlFacts.

(* ===================================================================== *)
(** ** The loaders and the validator *)
(* ===================================================================== *)

Section Components.
Variable env : Env.

Lemma emit_history l msg w : history (emit l msg w) = history w.
Proof. unfold emit. now destruct (_ <=? _). Qed.

Lemma emit_root_level l msg w : root_level (emit l msg w) = root_level w.
Proof. unfold emit. now destruct (_ <=? _). Qed.

(** [load_json] returns or raises what reading and decoding the file
    returns or raises; it adds a record for the two exceptions it
    names. *)
Lemma load_json_run file_path w :
  load_json env file_path w =
    match read_json env file_path with
    | Ok data => (Return data, w)
    | Err e =>
        (Raise e,
         if isinstance e FileNotFoundError
         then emit ERROR ("File not found: " ++ file_path) w
         else if isinstance e JSONDecodeError
         then emit ERROR
                ("Invalid JSON in " ++ file_path ++ ": " ++ exc_str e) w
         else w)
    end.
Proof.
  unfold load_json, try_except, bind, lift, ret.
  destruct (read_json env file_path) as [data | e]; [reflexivity |].
  cbn [dispatch matches existsb]. rewrite !orb_false_r.
  destruct (isinstance e FileNotFoundError); [reflexivity |].
  destruct (isinstance e JSONDecodeError); reflexivity.
Qed.

Lemma load_yaml_run file_path w :
  load_yaml env file_path w =
    match read_yaml env Yaml.YAML_safe file_path with
    | Ok data => (Return data, w)
    | Err e =>
        (Raise e,
         if isinstance e FileNotFoundError
         then emit ERROR ("File not found: " ++ file_path) w
         else if isinstance e ParserError || isinstance e ScannerError
         then emit ERROR
                ("Invalid YAML in " ++ file_path ++ ": " ++ exc_str e) w
         else w)
    end.
Proof.
  unfold load_yaml, try_except, bind, lift, ret.
  destruct (read_yaml env Yaml.YAML_safe file_path) as [data | e];
    [reflexivity |].
  cbn [dispatch matches existsb]. rewrite !orb_false_r.
  destruct (isinstance e FileNotFoundError); [reflexivity |].
  destruct (isinstance e ParserError || isinstance e ScannerError);
    reflexivity.
Qed.

Lemma validate_config_run config_data schema_data w :
  validate_config env config_data schema_data w =
    match validate env config_data schema_data with
    | Ok _ =>
        (Return true,
         emit INFO "Configuration is valid according to the schema." w)
    | Err e =>
        (Raise e,
         if isinstance e ValidationError
         then emit ERROR ("Configuration is invalid: " ++ exc_str e) w
         else w)
    end.
Proof.
  unfold validate_config, try_except, bind, lift, ret.
  destruct (validate env config_data schema_data) as [u | e];
    [reflexivity |].
  cbn [dispatch matches existsb]. rewrite !orb_false_r.
  destruct (isinstance e ValidationError); reflexivity.
Qed.






(** An empty file: the JSON decoder finds no value at index 0; the YAML
    stream holds no document. *)
Lemma read_json_empty file_path :
  open_ env file_path = Ok (mk_file (Ok "")) ->
  read_json env file_path =
    Err (mk_exn JSONDecodeError "Expecting value: line 1 column 1 (char 0)").
Proof. intros H. unfold read_json. rewrite H. reflexivity. Qed.

Lemma read_yaml_empty yaml file_path :
  open_ env file_path = Ok (mk_file (Ok "")) ->
  read_yaml env yaml file_path = Ok PyNone.
Proof. intros H. unfold read_yaml. rewrite H. reflexivity. Qed.

(** What [load_yaml] reads is made of built-in values. *)
Lemma read_yaml_safe_builtin file_path data :
  read_yaml env Yaml.YAML_safe file_path = Ok data -> builtin data = true.
Proof.
  unfold read_yaml, Yaml.load, Yaml.get_single_data.
  destruct (open_ env file_path) as [f |]; [| discriminate].
  cbn [rbind]. destruct (read f) as [text |]; [| discriminate].
  cbn [rbind].
  destruct (Yaml.get_single_node (yaml_lib env) text) as [[n |] |];
    cbn [rbind]; [| now intros [= <-] | discriminate].
  now apply YamlFacts.construct_object_builtin.
Qed.

End Components.

(** C1: [load_yaml] loads with the safe constructor: what it returns is
    made of built-in values only (no instance of another class at any
    depth); a document whose root carries a tag that is not one of the
    standard YAML tags is not loaded at all: the load raises a
    [ConstructorError]; and so it is at every depth: the method that
    the safe constructor applies to a node, the root or a sub-node,
    returns for a standard tag only, and returns a value made of
    built-in values when the sub-nodes give such values. *)
Theorem load_yaml_safe (env : Env) (file_path : string) (w : world) :
  match fst (load_yaml env file_path w) with
  | Return data => builtin data = true
  | Raise _ => True
  | SystemExit _ => False
  end /\
  (forall text n,
     open_ env file_path = Ok (mk_file (Ok text)) ->
     Yaml.get_single_node (yaml_lib env) text = Ok (Some n) ->
     ~ In (Yaml.node_tag n) standard_tags ->
     exists e,
       fst (load_yaml env file_path w) = Raise e /\
       exc_type e = ConstructorError) /\
  (forall construct_object n v,
     Yaml.construct_node (yaml_lib env) (Yaml.Constructor Yaml.YAML_safe)
       construct_object n = Ok v ->
     In (Yaml.node_tag n) standard_tags /\
     ((forall x a, construct_object x = Ok a -> builtin a = true) ->
      builtin v = true)).
Proof.
  rewrite load_yaml_run. split; [| split].
  - destruct (read_yaml env Yaml.YAML_safe file_path) as [data | e] eqn:E;
      cbn [fst]; [| exact I].
    eapply read_yaml_safe_builtin. exact E.
  - intros text n Ho Hn Ht.
    assert (E : read_yaml env Yaml.YAML_safe file_path =
                Yaml.construct_object (yaml_lib env) Yaml.SafeConstructor n).
    { unfold read_yaml, Yaml.load, Yaml.get_single_data.
      rewrite Ho. cbn [rbind read]. now rewrite Hn. }
    rewrite E, (YamlFacts.construct_object_custom_tag _ _ Ht).
    eexists. split; reflexivity.
  - intros c n v H. split.
    + exact (YamlFacts.construct_node_standard_tag _ _ _ _ H).
    + intros Hc.
      exact (YamlFacts.construct_node_builtin
               _ Yaml.SafeConstructor c Hc n v eq_refl H).
Qed.

(** The same machinery with a multi-constructor registered for Python
    objects does build an instance for the tagged document; the safe
    constructor refuses it. *)
Example tagged_document_constructed :
  Yaml.construct_object (yaml_lib sample_env) with_python_object
    tagged_document = Ok (PyObject "subprocess.Popen" [PyDict []]) /\
  fst (load_yaml sample_env "tagged.yaml" initial_world) =
    Raise (Yaml.ConstructorError_
             "could not determine a constructor for the tag 'tag:yaml.org,2002:python/object:subprocess.Popen'").
Proof. split; reflexivity. Qed.

(** Mappings as the safe loader builds them: the entries of a merged
    mapping come first and an entry of the node replaces a merged one;
    a sequence taken for a key becomes a tuple; a key that occurs twice
    is refused with a [DuplicateKeyError], which no clause of
    [load_yaml] names and [main] reports as an unexpected error. *)
Example merge_document_loaded :
  fst (load_yaml sample_env_yaml "merge.yaml" initial_world) =
    Return
      (PyDict
         [ (PyStr "base", PyDict [ (PyStr "x", PyStr "one") ]);
           (PyStr "derived",
            PyDict [ (PyStr "x", PyStr "one"); (PyStr "y", PyStr "two") ]);
           (PyStr "changed", PyDict [ (PyStr "x", PyStr "three") ]) ]).
Proof. reflexivity. Qed.

Example sequence_key_document_loaded :
  fst (load_yaml sample_env_yaml "key.yaml" initial_world) =
    Return (PyDict [ (PyTuple [ PyStr "a"; PyStr "b" ], PyStr "x") ]).
Proof. reflexivity. Qed.

Example duplicate_document_refused :
  load_yaml sample_env_yaml "duplicate.yaml" initial_world =
    (Raise (Yaml.DuplicateKeyError_ "found duplicate key"), initial_world) /\
  main sample_env_yaml (sample_args "duplicate.yaml" "empty.yaml" INFO)
       initial_world =
    (SystemExit 1,
     {| root_level := INFO;
        records :=
          [ (ERROR, "An unexpected error occurred: found duplicate key") ];
        history :=
          [ Call_determine_file_type "duplicate.yaml" None;
            Call_determine_file_type "empty.yaml" None;
            Call_load_yaml "duplicate.yaml" ] |}).
Proof. split; reflexivity. Qed.



(* ===================================================================== *)
(** ** The driver: [main] *)
(* ===================================================================== *)

Section Driver.
Variable env : Env.

Lemma bind_run {A B} (m : M A) (k : A -> M B) w :
  bind m k w =
    match m w with
    | (Return a, w') => k a w'
    | (Raise e, w') => (Raise e, w')
    | (SystemExit c, w') => (SystemExit c, w')
    end.
Proof. reflexivity. Qed.

Lemma isinstance_Exception e : isinstance e Exception = true.
Proof. destruct e as [[] msg]; reflexivity. Qed.

(** The only exception of [determine_file_type] is its [ValueError]. *)
Lemma determine_file_type_error file_path arg_type e :
  determine_file_type file_path arg_type = Err e ->
  e = unknown_file_type file_path.
Proof.
  unfold determine_file_type, unknown_file_type.
  destruct arg_type as [[|a t] |]; cbn [truthy];
    repeat destruct (str_in _ _); congruence.
Qed.

(** One resolution in [main]: the call is recorded; the [ValueError] is
    logged and turned into [sys.exit(1)]. *)
Lemma resolve_step file_path arg_type w :
  try_except
    (invoke (Call_determine_file_type file_path arg_type)
       (lift (determine_file_type file_path arg_type)))
    [ ([ValueError], fun e => logging_error (exc_str e) ;; sys_exit 1) ] w =
  let w' := record_call (Call_determine_file_type file_path arg_type) w in
  match determine_file_type file_path arg_type with
  | Ok t => (Return t, w')
  | Err e => (SystemExit 1, emit ERROR (exc_str e) w')
  end.
Proof.
  unfold try_except, invoke, lift.
  destruct (determine_file_type file_path arg_type) as [t | e] eqn:E;
    [reflexivity |].
  apply determine_file_type_error in E. subst e. reflexivity.
Qed.

Lemma loads_as_json file_path data :
  read_json env file_path = Ok data -> loads_as env "json" file_path data.
Proof. intros H. left. now split. Qed.

Lemma loads_as_yaml file_path data :
  read_yaml env Yaml.YAML_safe file_path = Ok data ->
  loads_as env "yaml" file_path data.
Proof. intros H. right. now split. Qed.

Ltac history_done :=
  cbn [snd fst]; rewrite ?emit_history; cbn [history record_call];
  rewrite <- ?app_assoc; reflexivity.

(** One load in [main], for a resolved type: a type that is neither
    [json] nor [yaml] ends the run without a call; otherwise the loader
    of the type is called, and it raises or returns the document. *)
Lemma load_step (type file_path msg : string) w :
  exists o w',
    (if String.eqb type "json"
     then invoke (Call_load_json file_path) (load_json env file_path)
     else if String.eqb type "yaml"
     then invoke (Call_load_yaml file_path) (load_yaml env file_path)
     else logging_error msg ;; sys_exit 1) w = (o, w') /\
    ((type <> "json" /\ type <> "yaml" /\ o = SystemExit 1 /\
      history w' = history w) \/
     (exists e,
        (type = "json" \/ type = "yaml") /\
        failure_of env (load_call type file_path) = Some e /\
        o = Raise e /\
        history w' = (history w ++ [load_call type file_path])%list) \/
     (exists data,
        loads_as env type file_path data /\ o = Return data /\
        history w' = (history w ++ [load_call type file_path])%list)).
Proof.
  destruct (String.eqb_spec type "json") as [-> | Hj].
  - unfold invoke. rewrite load_json_run.
    destruct (read_json env file_path) as [d | e] eqn:E;
      do 2 eexists; (split; [reflexivity |]); right.
    + right. exists d. repeat split; auto using loads_as_json.
    + left. exists e. repeat split; auto.
      * cbn. now rewrite E.
      * repeat destruct (isinstance _ _); history_done.
  - destruct (String.eqb_spec type "yaml") as [-> | Hy].
    + unfold invoke. rewrite load_yaml_run.
      destruct (read_yaml env Yaml.YAML_safe file_path) as [d | e] eqn:E;
        do 2 eexists; (split; [reflexivity |]); right.
      * right. exists d. repeat split; auto using loads_as_yaml.
      * left. exists e. repeat split; auto.
        -- cbn. now rewrite E.
        -- destruct (isinstance _ _); [history_done |].
           destruct (_ || _); history_done.
    + do 2 eexists. split; [reflexivity |]. left.
      repeat split; auto. cbn [snd]. apply emit_history.
Qed.

(** The body of [main] follows one of the runs of [run_of]. *)
Lemma main_body_run args w :
  exists h,
    history (snd (main_body env args w)) = (history w ++ h)%list /\
    run_of env args h (fst (main_body env args w)).
Proof.
  unfold main_body.
  rewrite bind_run, resolve_step. cbv zeta.
  destruct (determine_file_type (config_file args) (config_type args))
    as [ct | e1] eqn:E1.
  2: { eexists; split; [| eapply run_config_type_unknown; eassumption].
       history_done. }
  rewrite bind_run, resolve_step. cbv zeta.
  destruct (determine_file_type (schema_file args) (schema_type args))
    as [st | e2] eqn:E2.
  2: { eexists; split; [| eapply run_schema_type_unknown; eassumption].
       history_done. }
  rewrite bind_run.
  match goal with |- context [(if String.eqb ct "json" then _ else _) ?w0] =>
    destruct (load_step ct (config_file args) "Invalid config file type." w0)
      as (o1 & w1 & R1 & C1) end.
  rewrite R1. clear R1. cbn [history record_call] in C1.
  destruct C1 as [(Hj & Hy & -> & H1) | [(e & Ht & Hf & -> & H1)
                                        | (cd & Lc & -> & H1)]].
  { eexists; split; [| eapply run_config_type_invalid; eassumption].
    cbn [snd]. rewrite H1, <- !app_assoc. reflexivity. }
  { eexists; split; [| eapply run_config_load_fails; eassumption].
    cbn [snd]. rewrite H1, <- !app_assoc. reflexivity. }
  rewrite bind_run.
  match goal with |- context [(if String.eqb st "json" then _ else _) ?w0] =>
    destruct (load_step st (schema_file args) "Invalid schema file type." w0)
      as (o2 & w2 & R2 & C2) end.
  rewrite R2. clear R2.
  destruct C2 as [(Hj & Hy & -> & H2) | [(e & Ht & Hf & -> & H2)
                                        | (sd & Ls & -> & H2)]].
  { eexists; split; [| eapply run_schema_type_invalid; eassumption].
    cbn [snd]. rewrite H2, H1, <- !app_assoc. reflexivity. }
  { eexists; split; [| eapply run_schema_load_fails; eassumption].
    cbn [snd]. rewrite H2, H1, <- !app_assoc. reflexivity. }
  rewrite bind_run. unfold invoke. rewrite validate_config_run.
  destruct (validate env cd sd) as [[] | e] eqn:V.
  - eexists; split; [| eapply run_valid; eassumption].
    cbn [snd bind logging_info logging_log sys_exit].
    rewrite !emit_history. cbn [history record_call].
    rewrite H2, H1, <- !app_assoc. reflexivity.
  - eexists; split; [| eapply run_validation_fails; eassumption].
    cbn [snd]. destruct (isinstance _ _); rewrite ?emit_history;
      cbn [history record_call]; rewrite H2, H1, <- !app_assoc; reflexivity.
Qed.

(** [main] ends in [sys.exit]: with the code of the body's own
    [sys.exit], and with [1] for every exception the body raises. *)
Lemma main_run args w :
  exists h o,
    run_of env args h o /\
    o = fst (main_body env args
               (mk_world (log_level args) (records w) (history w))) /\
    history (snd (main env args w)) = (history w ++ h)%list /\
    fst (main env args w) =
      SystemExit (match o with SystemExit code => code | _ => 1 end).
Proof.
  unfold main. rewrite bind_run. cbn [setLevel].
  set (w0 := mk_world (log_level args) (records w) (history w)).
  destruct (main_body_run args w0) as (h & Hh & Hr).
  unfold try_except.
  destruct (main_body env args w0) as [o w1]. cbn [fst snd] in *.
  exists h, o. split; [assumption |]. split; [reflexivity |].
  destruct o as [u | e | code].
  - inversion Hr.
  - cbn [dispatch].
    do 3 (destruct (matches e _); [split; [exact Hh | reflexivity] |]).
    unfold matches. cbn [existsb]. rewrite isinstance_Exception.
    split; [| reflexivity].
    cbn [orb snd bind logging_error logging_log sys_exit].
    rewrite emit_history. exact Hh.
  - split; [exact Hh | reflexivity].
Qed.

Lemma loads_as_type type file_path data :
  loads_as env type file_path data -> type = "json" \/ type = "yaml".
Proof. intros [[-> _] | [-> _]]; auto. Qed.

Lemma loads_as_succeeds type file_path data :
  loads_as env type file_path data ->
  failure_of env (load_call type file_path) = None.
Proof. intros [[-> H] | [-> H]]; cbn; now rewrite H. Qed.

Lemma loads_as_functional type file_path data data' :
  loads_as env type file_path data -> loads_as env type file_path data' ->
  data = data'.
Proof.
  intros [[-> H] | [-> H]] [[E H'] | [E H']]; try discriminate; congruence.
Qed.

(** The outcome of a run tells whether the configuration is valid. *)
Lemma run_of_valid args h o :
  run_of env args h o ->
  (o = SystemExit 0 /\ valid env args) \/
  ((o = SystemExit 1 \/ exists e, o = Raise e) /\ ~ valid env args).
Proof.
  intros Hr. destruct Hr;
    try (left; split; [reflexivity |];
         do 4 eexists; repeat split; eassumption);
    right; (split; [eauto |]);
    intros (ct' & st' & cd' & sd' & D1 & D2 & L1 & L2 & V).
  - congruence.
  - congruence.
  - assert (ct' = ct) by congruence. subst ct'.
    destruct (loads_as_type _ _ _ L1); contradiction.
  - assert (ct' = ct) by congruence. subst ct'.
    apply loads_as_succeeds in L1. congruence.
  - assert (st' = st) by congruence. subst st'.
    destruct (loads_as_type _ _ _ L2); contradiction.
  - assert (st' = st) by congruence. subst st'.
    apply loads_as_succeeds in L2. congruence.
  - assert (ct' = ct) by congruence. assert (st' = st) by congruence.
    subst ct' st'.
    assert (cd' = config_data) by eauto using loads_as_functional.
    assert (sd' = schema_data) by eauto using loads_as_functional.
    congruence.
Qed.

(** The calls of a run: they are the first calls of the plan; every call
    but the last has succeeded; a call that fails is the last one, and
    the run ends with its exception, or with [sys.exit(1)] when the
    exception is the resolver's [ValueError]. *)
Lemma run_of_calls args h o :
  run_of env args h o ->
  (exists n ct st config_data schema_data,
     h = firstn n (plan args ct st config_data schema_data)) /\
  (forall i c,
     nth_error h i = Some c -> (S i < length h)%nat ->
     failure_of env c = None) /\
  (forall c e,
     In c h -> failure_of env c = Some e ->
     (exists h', h = (h' ++ [c])%list) /\
     (o = Raise e \/
      (o = SystemExit 1 /\ exists file_path, e = unknown_file_type file_path))).
Proof.
  intros Hr.
  assert (Hd : forall file_path arg_type t,
             determine_file_type file_path arg_type = Ok t ->
             failure_of env (Call_determine_file_type file_path arg_type)
             = None)
    by (intros ? ? ? E; cbn; now rewrite E).
  assert (Hv : forall cd sd,
             validate env cd sd = Ok tt ->
             failure_of env (Call_validate_config cd sd) = None)
    by (intros ? ? E; cbn; now rewrite E).
  destruct Hr;
    repeat match goal with
           | H : loads_as _ _ _ _ |- _ => apply loads_as_succeeds in H
           | H : determine_file_type _ _ = Ok _ |- _ => apply Hd in H
           | H : validate _ _ _ = Ok tt |- _ => apply Hv in H
           end;
    (split; [first [ do 5 eexists; reflexivity
                   | exists 5%nat; do 4 eexists; reflexivity ] |]);
    unfold plan; cbn [firstn]; split.
  all: try (intros i c Hi Hlen; cbn [length] in Hlen;
            do 5 (destruct i as [| i];
                  [cbn [nth_error] in Hi;
                   first [lia | injection Hi as <-; assumption] |]);
            lia).
  all: intros c e0 Hin Hf; cbn [In] in Hin;
    repeat (destruct Hin as [<- | Hin]; [try congruence |]);
    try contradiction.
  all: try match goal with
           | E : determine_file_type _ _ = Err _ |- _ =>
               unfold failure_of in Hf; rewrite E in Hf; injection Hf as <-;
               apply determine_file_type_error in E
           | E : validate _ _ _ = Err _ |- _ =>
               unfold failure_of in Hf; rewrite E in Hf; injection Hf as <-
           end.
  - split; [now exists [] |]. right. split; [reflexivity | eauto].
  - split; [now eexists [_] |]. right. split; [reflexivity | eauto].
  - split; [now eexists [_; _] |]. left. congruence.
  - split; [now eexists [_; _; _] |]. left. congruence.
  - split; [now eexists [_; _; _; _] |]. now left.
Qed.

(** The exit status of a run, by the validity of the configuration. *)
Lemma run_valid_or_not args :
  (valid env args /\ run env args = 0) \/
  (~ valid env args /\ run env args = 1).
Proof.
  unfold run.
  destruct (main_run args initial_world) as (h & o & Hr & _ & _ & Ho).
  rewrite Ho. cbn [exit_status].
  destruct (run_of_valid args h o Hr) as [[-> Hv] | [[-> | [e ->]] Hn]];
    [left | right | right]; now split.
Qed.

(** X13: two runs whose files load to the same two documents, through
    whichever loaders and from whichever paths, exit with the same
    status: the validation sees the documents only. *)
Lemma run_same_documents args args' ct st ct' st' config_data schema_data :
  determine_file_type (config_file args) (config_type args) = Ok ct ->
  determine_file_type (schema_file args) (schema_type args) = Ok st ->
  determine_file_type (config_file args') (config_type args') = Ok ct' ->
  determine_file_type (schema_file args') (schema_type args') = Ok st' ->
  loads_as env ct (config_file args) config_data ->
  loads_as env ct' (config_file args') config_data ->
  loads_as env st (schema_file args) schema_data ->
  loads_as env st' (schema_file args') schema_data ->
  run env args = run env args'.
Proof.
  intros D1 D2 D1' D2' L1 L1' L2 L2'.
  assert (Hv : forall a t u,
             determine_file_type (config_file a) (config_type a) = Ok t ->
             determine_file_type (schema_file a) (schema_type a) = Ok u ->
             loads_as env t (config_file a) config_data ->
             loads_as env u (schema_file a) schema_data ->
             (valid env a <-> validate env config_data schema_data = Ok tt)).
  { intros a t u E1 E2 M1 M2. split.
    - intros (t' & u' & cd & sd & F1 & F2 & N1 & N2 & V).
      assert (t' = t) by congruence. assert (u' = u) by congruence.
      subst t' u'.
      now rewrite (loads_as_functional _ _ _ _ M1 N1),
                  (loads_as_functional _ _ _ _ M2 N2).
    - intros V. now exists t, u, config_data, schema_data. }
  destruct (run_valid_or_not args) as [[V ->] | [V ->]],
           (run_valid_or_not args') as [[V' ->] | [V' ->]];
    try reflexivity; exfalso;
    rewrite (Hv args ct st) in V by assumption;
    rewrite (Hv args' ct' st') in V' by assumption; contradiction.
Qed.

End Driver.

(** C9: in every run of [main] the calls are made in the order of the
    plan (the two type resolutions, the load of the configuration, the
    load of the schema, the validation), each at most once; no call
    follows a call that failed; and a call that fails is the last one:
    the body of [main] ends with the exception of that call ([sys.exit(1)]
    for the resolver's [ValueError]) and the process exits with
    status 1. *)
Theorem main_steps (env : Env) (args : Namespace) :
  let calls := history (snd (main env args initial_world)) in
  let body := fst (main_body env args (mk_world (log_level args) [] [])) in
  (exists n ct st config_data schema_data,
     calls = firstn n (plan args ct st config_data schema_data)) /\
  (forall i c,
     nth_error calls i = Some c -> (S i < length calls)%nat ->
     failure_of env c = None) /\
  (forall c e,
     In c calls -> failure_of env c = Some e ->
     (exists before, calls = (before ++ [c])%list) /\
     (body = Raise e \/
      (body = SystemExit 1 /\
       exists file_path, e = unknown_file_type file_path)) /\
     run env args = 1).
Proof.
  cbv zeta. unfold run.
  destruct (main_run env args initial_world) as (h & o & Hr & Hb & Hh & Ho).
  cbn [initial_world records history app] in Hb, Hh.
  rewrite Hh, Ho, <- Hb.
  destruct (run_of_calls env args h o Hr) as (Hplan & Hbefore & Hfail).
  split; [exact Hplan |]. split; [exact Hbefore |].
  intros c e Hin Hf.
  destruct (Hfail c e Hin Hf) as (Hlast & Hout).
  split; [exact Hlast |]. split; [exact Hout |].
  destruct Hout as [-> | [-> _]]; reflexivity.
Qed.

(* ===================================================================== *)
(** ** Empty documents *)
(* ===================================================================== *)

(** C6, as the code has it: on an empty file the YAML loader returns
    [None] and logs nothing; the JSON loader raises and logs the
    decoder's [JSONDecodeError] "Expecting value", and a run that reads
    the file as JSON exits with status 1. *)
Theorem load_empty_document (env : Env) (file_path : string) (w : world) :
  open_ env file_path = Ok (mk_file (Ok "")) ->
  load_yaml env file_path w = (Return PyNone, w) /\
  load_json env file_path w =
    (Raise (mk_exn JSONDecodeError
              "Expecting value: line 1 column 1 (char 0)"),
     emit ERROR
       ("Invalid JSON in " ++ file_path ++
        ": Expecting value: line 1 column 1 (char 0)") w) /\
  (forall args,
     (config_file args = file_path /\
      determine_file_type file_path (config_type args) = Ok "json") \/
     (schema_file args = file_path /\
      determine_file_type file_path (schema_type args) = Ok "json") ->
     run env args = 1).
Proof.
  intros Ho.
  pose proof (read_json_empty env file_path Ho) as Hj.
  split; [| split].
  - now rewrite load_yaml_run, (read_yaml_empty env _ _ Ho).
  - now rewrite load_json_run, Hj.
  - intros args Hargs. unfold run.
    destruct (main_run env args initial_world) as (h & o & Hr & _ & _ & ->).
    destruct (run_of_valid env args h o Hr)
      as [[_ Hv] | [[-> | [e ->]] _]]; try reflexivity.
    exfalso.
    destruct Hv as (ct & st & cd & sd & D1 & D2 & L1 & L2 & _).
    destruct Hargs as [[<- D] | [<- D]].
    + assert (ct = "json") by congruence. subst ct.
      destruct L1 as [[_ L] | [E _]]; [congruence | discriminate].
    + assert (st = "json") by congruence. subst st.
      destruct L2 as [[_ L] | [E _]]; [congruence | discriminate].
Qed.

Lemma load_empty_document_witness :
  open_ sample_env "empty.json" = Ok (mk_file (Ok "")) /\
  load_yaml sample_env "empty.json" initial_world =
    (Return PyNone, initial_world) /\
  fst (load_json sample_env "empty.json" initial_world) =
    Raise (mk_exn JSONDecodeError
             "Expecting value: line 1 column 1 (char 0)").
Proof.
  pose proof (load_empty_document sample_env "empty.json" initial_world
                eq_refl) as (Hy & Hj & _).
  split; [reflexivity |]. split; [exact Hy |]. now rewrite Hj.
Defined.

(** C6 fails as stated: on an empty file the JSON loader produces no
    value at all, it raises. *)
Lemma load_json_empty_raises :
  read (mk_file (Ok "")) = Ok "" /\
  open_ sample_env "empty.json" = Ok (mk_file (Ok "")) /\
  ~ (exists data,
       fst (load_json sample_env "empty.json" initial_world) = Return data).
Proof.
  split; [reflexivity |]. split; [reflexivity |].
  intros (data & H). cbn in H. discriminate.
Qed.

(* ===================================================================== *)
(** ** Runs of the sample environment *)
(* ===================================================================== *)

(** Two empty YAML files: both load as [None], the validator of the
    sample accepts, and the run logs its two records and exits with 0. *)
Example run_valid_sample :
  main sample_env
    {| config_file := "empty.yaml"; schema_file := "empty.yaml";
       config_type := None; schema_type := None; log_level := INFO |}
    initial_world =
  (SystemExit 0,
   {| root_level := INFO;
      records :=
        [ (INFO, "Configuration is valid according to the schema.");
          (INFO, "Validation successful.") ];
      history :=
        [ Call_determine_file_type "empty.yaml" None;
          Call_determine_file_type "empty.yaml" None;
          Call_load_yaml "empty.yaml"; Call_load_yaml "empty.yaml";
          Call_validate_config PyNone PyNone ] |}).
Proof. reflexivity. Qed.

(** A configuration file that does not exist: the schema is not loaded. *)
Example run_not_found_sample :
  main sample_env
    {| config_file := "missing.json"; schema_file := "empty.yaml";
       config_type := None; schema_type := None; log_level := INFO |}
    initial_world =
  (SystemExit 1,
   {| root_level := INFO;
      records := [ (ERROR, "File not found: missing.json") ];
      history :=
        [ Call_determine_file_type "missing.json" None;
          Call_determine_file_type "empty.yaml" None;
          Call_load_json "missing.json" ] |}).
Proof. reflexivity. Qed.

(** A file that may not be read ends in the clause for [Exception]. *)
Example run_permission_denied_sample :
  main sample_env
    {| config_file := "empty.yaml"; schema_file := "secret.json";
       config_type := None; schema_type := None; log_level := INFO |}
    initial_world =
  (SystemExit 1,
   {| root_level := INFO;
      records :=
        [ (ERROR,
           "An unexpected error occurred: [Errno 13] Permission denied: 'secret.json'") ];
      history :=
        [ Call_determine_file_type "empty.yaml" None;
          Call_determine_file_type "secret.json" None;
          Call_load_yaml "empty.yaml"; Call_load_json "secret.json" ] |}).
Proof. reflexivity. Qed.

(** A path without a known extension and without a declared type: no
    file is opened. *)
Example run_unknown_type_sample :
  main sample_env
    {| config_file := "config.txt"; schema_file := "empty.yaml";
       config_type := None; schema_type := None; log_level := INFO |}
    initial_world =
  (SystemExit 1,
   {| root_level := INFO;
      records :=
        [ (ERROR,
           "Could not determine file type for config.txt.  Specify with --config_type or --schema_type.") ];
      history := [ Call_determine_file_type "config.txt" None ] |}).
Proof. reflexivity. Qed.

(* ===================================================================== *)
(** ** More on the type resolver *)
(* ===================================================================== *)

Module ResolverFacts.
Import PyStr PyStrFacts OsPath OsPathFacts.

Lemma drop_app_more s t n :
  drop (String.length s + n) (s ++ t) = drop n t.
Proof. induction s as [| a s IH]; [reflexivity | exact IH]. Qed.

(** A slice that starts in the second part of a concatenation. *)
Lemma slice_app_right s t lo hi :
  0 <= lo -> slice (s ++ t) (len s + lo) (len s + hi) = slice t lo hi.
Proof.
  intros Hlo. unfold slice, len.
  replace (Z.of_nat (String.length s) + hi - (Z.of_nat (String.length s) + lo))
    with (hi - lo) by lia.
  replace (Z.to_nat (Z.of_nat (String.length s) + lo))
    with (String.length s + Z.to_nat lo)%nat by lia.
  now rewrite drop_app_more.
Qed.

Lemma slice_from_app_right s t lo :
  0 <= lo -> slice_from (s ++ t) (len s + lo) = slice_from t lo.
Proof.
  intros Hlo. unfold slice_from, len.
  replace (Z.to_nat (Z.of_nat (String.length s) + lo))
    with (String.length s + Z.to_nat lo)%nat by lia.
  apply drop_app_more.
Qed.

Ltac split_tests :=
  repeat (match goal with
          | |- context [Z.eqb ?a ?b] => destruct (Z.eqb_spec a b)
          | |- context [Z.leb ?a ?b] => destruct (Z.leb_spec a b)
          | |- context [Z.ltb ?a ?b] => destruct (Z.ltb_spec a b)
          | |- context [Ascii.eqb ?a ?b] => destruct (Ascii.eqb a b)
          end; cbv beta iota).

(** [rfind_from] counts from its start index: the answer for a start
    index [i] is the answer for [0], moved by [i]. *)
Lemma rfind_from_shift c s i :
  0 <= i ->
  rfind_from c s i =
    if rfind_from c s 0 =? -1 then -1 else rfind_from c s 0 + i.
Proof.
  revert i. induction s as [| a s IH]; intros i Hi; [reflexivity |].
  cbn [rfind_from]. rewrite (IH (i + 1)), (IH (0 + 1)) by lia.
  pose proof (rfind_from_range c s 0) as H. pose proof (len_nonneg s).
  destruct (Z.eqb_spec (rfind_from c s 0) (-1)) as [E | E]; cbv beta iota.
  - change (0 <=? -1) with false. cbv iota.
    destruct (Ascii.eqb a c); cbn; [lia | reflexivity].
  - replace (0 <=? rfind_from c s 0 + (i + 1)) with true
      by (symmetry; apply Z.leb_le; lia).
    replace (0 <=? rfind_from c s 0 + (0 + 1)) with true
      by (symmetry; apply Z.leb_le; lia).
    cbv iota. split_tests; lia.
Qed.

(** The last occurrence in a concatenation is in the second part when
    the character occurs there, and in the first part otherwise. *)
Lemma rfind_from_app c s t i :
  0 <= i ->
  rfind_from c (s ++ t) i =
    if rfind_from c t (i + len s) =? -1 then rfind_from c s i
    else rfind_from c t (i + len s).
Proof.
  revert i. induction s as [| a s IH]; intros i Hi.
  - cbn [append rfind_from]. change (len "") with 0. rewrite Z.add_0_r.
    split_tests; lia.
  - cbn [append rfind_from]. rewrite (IH (i + 1)), len_String by lia.
    replace (i + 1 + len s) with (i + (len s + 1)) by lia.
    pose proof (rfind_from_range c t (i + (len s + 1))) as H.
    pose proof (len_nonneg s). pose proof (len_nonneg t).
    destruct (Z.eqb_spec (rfind_from c t (i + (len s + 1))) (-1));
      cbv beta iota; [reflexivity |].
    destruct (Z.leb_spec 0 (rfind_from c t (i + (len s + 1))));
      [reflexivity | lia].
Qed.

Lemma rfind_app c s t :
  rfind (s ++ t) c =
    if rfind t c =? -1 then rfind s c else len s + rfind t c.
Proof.
  unfold rfind. rewrite rfind_from_app by lia.
  rewrite (rfind_from_shift c t (0 + len s))
    by (pose proof (len_nonneg s); lia).
  pose proof (rfind_from_range c t 0). pose proof (len_nonneg s).
  destruct (Z.eqb_spec (rfind_from c t 0) (-1)); cbv beta iota;
    [reflexivity |].
  destruct (Z.eqb_spec (rfind_from c t 0 + (0 + len s)) (-1)); lia.
Qed.

(** The loop of [_splitext] on a file name behind a directory prefix
    looks at the same characters as on the file name alone. *)
Lemma found_non_dot_app dir name extsep i fuel :
  0 <= i ->
  found_non_dot (dir ++ name) extsep (len dir + i) fuel =
    found_non_dot name extsep i fuel.
Proof.
  revert i. induction fuel as [| fuel IH]; intros i Hi; [reflexivity |].
  cbn [found_non_dot].
  replace (len dir + i + 1) with (len dir + (i + 1)) by lia.
  rewrite slice_app_right, IH by lia. reflexivity.
Qed.

(** The extension of a path is the extension of its last component. *)
Lemma splitext_basename dir name :
  is_dir_prefix dir -> contains "/" name = false ->
  snd (splitext (dir ++ name)) = snd (splitext name).
Proof.
  intros Hdir Hname. unfold splitext, _splitext.
  rewrite (sep_index dir name Hdir Hname), (rfind_absent _ _ Hname).
  rewrite (rfind_app "." dir name).
  pose proof (len_nonneg dir) as Hd.
  pose proof (rfind_from_range "." name 0) as Hr. fold (rfind name ".") in Hr.
  destruct (Z.eqb_spec (rfind name ".") (-1)) as [E | E].
  - (* no dot in the file name *)
    rewrite E.
    assert (Hdot : rfind dir "." <= len dir - 1).
    { destruct Hdir as [-> | [d ->]]; [cbn; lia |].
      rewrite (rfind_app "." d "/"), len_app. change (rfind "/" ".") with (-1).
      change (len "/") with 1. change (-1 =? -1) with true. cbv iota.
      pose proof (rfind_from_range "." d 0) as R. fold (rfind d ".") in R.
      pose proof (len_nonneg d). lia. }
    destruct (Z.ltb_spec (len dir - 1) (rfind dir ".")); [lia |].
    reflexivity.
  - (* the last dot is in the file name *)
    destruct (Z.ltb_spec (len dir - 1) (len dir + rfind name ".")); [| lia].
    destruct (Z.ltb_spec (-1) (rfind name ".")); [| lia].
    change (-1 + 1) with 0.
    replace (len dir - 1 + 1) with (len dir + 0) by lia.
    replace (len dir + rfind name "." - (len dir + 0))
      with (rfind name "." - 0) by lia.
    rewrite found_non_dot_app by lia.
    destruct (found_non_dot name "." 0 _); cbn [snd]; [| reflexivity].
    apply slice_from_app_right. lia.
Qed.

Lemma splitext_no_dot name :
  contains "." name = false -> snd (splitext name) = "".
Proof.
  intros H. unfold splitext, _splitext. rewrite (rfind_absent _ _ H).
  pose proof (rfind_from_range "/" name 0) as R. fold (rfind name "/") in R.
  destruct (Z.ltb_spec (rfind name "/") (-1)); [lia | reflexivity].
Qed.

End ResolverFacts.

(* ===================================================================== *)
(** ** Every path has an extension or none *)
(* ===================================================================== *)

Module ExtensionFacts.
Import PyStr PyStrFacts OsPath OsPathFacts.

(** A path is a directory prefix and a file name. *)
Lemma split_dir p :
  exists dir name,
    p = dir ++ name /\ is_dir_prefix dir /\ contains "/" name = false.
Proof.
  induction p as [| c p (dir & name & E & Hdir & Hname)].
  - exists "", "". repeat split. now left.
  - destruct Hdir as [-> | [d ->]].
    + cbn [append] in E. subst p.
      destruct (Ascii.eqb_spec c "/") as [-> | Hc].
      * exists "/", name. repeat split; [| exact Hname].
        right. now exists "".
      * exists "", (String c name). repeat split; [now left |].
        cbn [contains]. rewrite Hname, orb_false_r.
        now apply Ascii.eqb_neq.
    + exists (String c d ++ "/"), name. subst p. repeat split; [| exact Hname].
      right. now exists (String c d).
Qed.

(** A string is a run of dots and a rest that does not start with a
    dot. *)
Lemma split_dots s :
  exists dots rest,
    s = dots ++ rest /\ all_dots dots = true /\
    (rest = "" \/ exists c r, rest = String c r /\ c <> "."%char).
Proof.
  induction s as [| c s (dots & rest & E & Hdots & Hrest)].
  - exists "", "". repeat split. now left.
  - destruct (Ascii.eqb_spec c ".") as [-> | Hc].
    + exists (String "." dots), rest. subst s. repeat split; [| exact Hrest].
      cbn [all_dots]. now rewrite Hdots.
    + exists "", (String c s). repeat split. right. now exists c, s.
Qed.

(** A string with a dot is cut at its last dot. *)
Lemma split_last_dot s :
  contains "." s = true ->
  exists a e, s = a ++ String "." e /\ contains "." e = false.
Proof.
  induction s as [| c s IH]; [discriminate |]. cbn [contains]. intros H.
  destruct (contains "." s) eqn:E.
  - destruct (IH eq_refl) as (a & e & -> & He).
    now exists (String c a), e.
  - rewrite orb_false_r in H. apply Ascii.eqb_eq in H as ->.
    now exists "", s.
Qed.

Lemma all_dots_no_sep dots : all_dots dots = true -> contains "/" dots = false.
Proof.
  induction dots as [| c d IH]; [reflexivity |]. cbn [all_dots contains].
  intros H. apply andb_true_iff in H as [Hc Hd].
  apply Ascii.eqb_eq in Hc as ->. now rewrite (IH Hd).
Qed.

(** In a run of dots the first dot can be taken for the last. *)
Lemma all_dots_snoc d :
  all_dots d = true -> String "." d = d ++ String "." "".
Proof.
  induction d as [| c d IH]; [reflexivity |]. cbn [all_dots append].
  intros H. apply andb_true_iff in H as [Hc Hd].
  apply Ascii.eqb_eq in Hc as ->. now rewrite <- (IH Hd).
Qed.

Lemma all_dots_split d i :
  all_dots d = true -> 0 <= i < len d ->
  exists pre post, d = pre ++ String "." post /\ len pre = i.
Proof.
  revert i. induction d as [| c d IH]; intros i H Hi.
  - change (len "") with 0 in Hi. lia.
  - cbn [all_dots] in H. apply andb_true_iff in H as [Hc Hd].
    apply Ascii.eqb_eq in Hc as ->. rewrite len_String in Hi.
    destruct (Z.eq_dec i 0) as [-> | Hne].
    + now exists "", d.
    + destruct (IH (i - 1) Hd) as (pre & post & -> & Hl); [lia |].
      exists (String "." pre), post. split; [reflexivity |].
      rewrite len_String. lia.
Qed.

(** The loop of [_splitext] finds nothing in a run of dots. *)
Lemma found_non_dot_dots d t i fuel :
  all_dots d = true -> 0 <= i -> i + Z.of_nat fuel <= len d ->
  found_non_dot (d ++ t) "." i fuel = false.
Proof.
  intros Hd. revert i. induction fuel as [| fuel IH]; intros i Hi Hf;
    [reflexivity |].
  cbn [found_non_dot].
  destruct (all_dots_split d i Hd) as (pre & post & E & Hl); [lia |].
  rewrite E at 1. rewrite <- append_assoc. cbn [append].
  rewrite <- Hl at 1 2. rewrite slice_char, String.eqb_refl. cbn [negb].
  apply IH; lia.
Qed.

(** A file name that is a run of dots and a name without a dot has an
    empty extension. *)
Lemma splitext_dots dots name :
  all_dots dots = true ->
  contains "." name = false -> contains "/" name = false ->
  snd (splitext (dots ++ name)) = "".
Proof.
  intros Hdots Hdot Hsl.
  destruct dots as [| c d]; [now apply ResolverFacts.splitext_no_dot |].
  cbn [all_dots] in Hdots. apply andb_true_iff in Hdots as [Hc Hd].
  apply Ascii.eqb_eq in Hc as ->.
  rewrite (all_dots_snoc d Hd), app_String_assoc.
  unfold splitext, _splitext.
  rewrite (rfind_last "." d name Hdot).
  rewrite rfind_absent
    by (rewrite contains_app, (all_dots_no_sep d Hd); cbn; exact Hsl).
  pose proof (len_nonneg d).
  destruct (Z.ltb_spec (-1) (len d)); [| lia].
  change (-1 + 1) with 0.
  rewrite <- app_String_assoc.
  rewrite (found_non_dot_dots (d ++ String "." "") name 0)
    ; [reflexivity | | lia |].
  - rewrite <- (all_dots_snoc d Hd). cbn [all_dots]. now rewrite Hd.
  - rewrite len_app, len_String. change (len "") with 0. lia.
Qed.

(** Every path has an extension or has none. *)
Lemma extension_or_none p :
  (exists e, has_extension p e) \/ no_extension p.
Proof.
  destruct (split_dir p) as (dir & name & -> & Hdir & Hname).
  destruct (split_dots name) as (dots & rest & -> & Hdots & Hrest).
  rewrite contains_app in Hname. apply orb_false_iff in Hname as [_ Hrs].
  destruct Hrest as [-> | (c & r & -> & Hc)].
  - right. exists dir, dots, "". now repeat split.
  - destruct (contains "." r) eqn:Er.
    + left. destruct (split_last_dot r Er) as (a & e & -> & He).
      exists e, dir, dots, c, a.
      cbn [contains] in Hrs. apply orb_false_iff in Hrs as [Hcs Hrs].
      rewrite contains_app in Hrs. apply orb_false_iff in Hrs as [Ha Hs].
      cbn [contains] in Hs. apply orb_false_iff in Hs as [_ Hs].
      repeat split; try assumption.
      * rewrite contains_app, (all_dots_no_sep dots Hdots). cbn [contains orb].
        now rewrite Ha, Hcs.
      * now rewrite <- !append_assoc.
    + right. exists dir, dots, (String c r). repeat split; try assumption.
      cbn [contains]. rewrite Er, orb_false_r. now apply Ascii.eqb_neq.
Qed.


(** The resolver on a path with an extension, and on a path without. *)
Lemma determine_file_type_has_extension p e :
  has_extension p e ->
  determine_file_type p None =
    if eq_nocase e "json" then Ok "json"
    else if eq_nocase e "yaml" || eq_nocase e "yml" then Ok "yaml"
    else Err (unknown_file_type p).
Proof.
  intros (dir & stem1 & c & stem2 & Hdir & Hstem & Hc & Hdot & Hsl & ->).
  rewrite determine_file_type_lower. cbv zeta.
  rewrite splitext_extension by assumption.
  rewrite !eq_nocase_lower. reflexivity.
Qed.

Lemma determine_file_type_no_extension p :
  no_extension p -> determine_file_type p None = Err (unknown_file_type p).
Proof.
  intros (dir & dots & name & Hdir & Hdots & Hdot & Hsl & ->).
  rewrite determine_file_type_lower. cbv zeta.
  rewrite ResolverFacts.splitext_basename
    by (try assumption;
        rewrite contains_app, (all_dots_no_sep dots Hdots); exact Hsl).
  now rewrite splitext_dots.
Qed.

(** An extension is not [json] and [yaml] or [yml] at once. *)
Lemma json_not_yaml e :
  eq_nocase e "json" = true ->
  eq_nocase e "yaml" || eq_nocase e "yml" = false.
Proof.
  rewrite !eq_nocase_lower. cbn [lower lower_char].
  intros H. apply String.eqb_eq in H. rewrite H. reflexivity.
Qed.

Lemma file_type_undeclared p declared t :
  declared = None \/ declared = Some "" ->
  (file_type p declared t <-> file_type p None t).
Proof.
  intros Hd. split; intros H; inversion H; subst.
  - destruct Hd as [Hd | Hd]; [discriminate | now injection Hd].
  - eapply type_json; eauto.
  - eapply type_yaml; eauto.
  - eapply type_json; eauto.
  - eapply type_yaml; eauto.
Qed.

(** The resolver finds the type that the command line gives the
    file. *)
Lemma determine_file_type_file_type p declared t :
  determine_file_type p declared = Ok t <-> file_type p declared t.
Proof.
  assert (Hnone : determine_file_type p None = Ok t <-> file_type p None t).
  { split.
    - intros H. destruct (extension_or_none p) as [[e He] | Hn].
      + rewrite (determine_file_type_has_extension p e He) in H.
        destruct (eq_nocase e "json") eqn:Ej.
        * injection H as <-. eapply type_json; eauto.
        * destruct (eq_nocase e "yaml" || eq_nocase e "yml") eqn:Ey;
            [| discriminate].
          injection H as <-. eapply type_yaml; eauto.
      + rewrite (determine_file_type_no_extension p Hn) in H. discriminate.
    - intros H. inversion H as [| d e Hd He Hj | d e Hd He Hy]; subst.
      + rewrite (determine_file_type_has_extension p e He). now rewrite Hj.
      + rewrite (determine_file_type_has_extension p e He).
        destruct (eq_nocase e "json") eqn:Ej; [| now rewrite Hy].
        rewrite (json_not_yaml e Ej) in Hy. discriminate. }
  destruct declared as [d |]; [| exact Hnone].
  destruct (String.eqb_spec d "") as [-> | Hne].
  - rewrite (file_type_undeclared p (Some "") t) by now right.
    exact Hnone.
  - rewrite (determine_file_type_truthy p d Hne). split.
    + intros [= <-]. now constructor.
    + intros H. inversion H as [| x e Hd | x e Hd]; subst;
        [reflexivity | |];
        destruct Hd as [Hd | Hd]; congruence.
Qed.

Lemma file_type_functional p declared t t' :
  file_type p declared t -> file_type p declared t' -> t = t'.
Proof.
  rewrite <- !determine_file_type_file_type. congruence.
Qed.

End ExtensionFacts.

(** C4: without a declared type the result is decided by the extension
    of the path, compared up to case.  Every path has an extension or
    has none.  With the extension [e] (what follows the last dot of the
    file name, a character other than a dot standing before that dot)
    [json] gives [json], [yaml] and [yml] give [yaml], and any other
    extension raises the [ValueError] whose message names the path.
    Without an extension (a file name without a dot, or with dots at its
    start only) the same [ValueError] is raised. *)
Theorem determine_file_type_by_extension (file_path : string) :
  (forall e,
     has_extension file_path e ->
     determine_file_type file_path None =
       if eq_nocase e "json" then Ok "json"
       else if eq_nocase e "yaml" || eq_nocase e "yml" then Ok "yaml"
       else Err (unknown_file_type file_path)) /\
  (no_extension file_path ->
   determine_file_type file_path None = Err (unknown_file_type file_path)) /\
  ((exists e, has_extension file_path e) \/ no_extension file_path).
Proof.
  split; [| split].
  - intros e. apply ExtensionFacts.determine_file_type_has_extension.
  - apply ExtensionFacts.determine_file_type_no_extension.
  - apply ExtensionFacts.extension_or_none.
Qed.

Example extension_samples :
  has_extension "etc/app.d/Config.JSON" "JSON" /\
  has_extension "archive.tar.gz" "gz" /\
  no_extension "etc/app.d/config" /\
  no_extension "backup/..yaml".
Proof.
  assert (Hd : is_dir_prefix "etc/app.d/")
    by (right; exists "etc/app.d"; reflexivity).
  assert (Hb : is_dir_prefix "backup/")
    by (right; exists "backup"; reflexivity).
  repeat split.
  - exists "etc/app.d/", "Confi", "g"%char, "".
    repeat split; [exact Hd | discriminate].
  - exists "", "archive.ta", "r"%char, "".
    repeat split; [now left | discriminate].
  - exists "etc/app.d/", "", "config". repeat split. exact Hd.
  - exists "backup/", "..", "yaml". repeat split. exact Hb.
Qed.

(* ===================================================================== *)
(** ** The exit status of the process *)
(* ===================================================================== *)

Section ExitStatus.
Variable env : Env.

(** Reading a file with a loader of the program is opening it and
    parsing it in the format of the loader. *)
Lemma loads_as_holds type file_path data :
  loads_as env type file_path data <-> holds env type file_path data.
Proof.
  unfold loads_as, holds, parse, read_json, read_yaml. split.
  - intros [[-> H] | [-> H]];
      (split; [auto |]);
      destruct (open_ env file_path) as [f |]; try discriminate;
      exists f; (split; [reflexivity | exact H]).
  - intros [Ht (f & Ho & H)]. rewrite Ho. cbn [rbind].
    destruct Ht as [-> | ->]; [left | right]; split; auto.
Qed.

Lemma valid_accepted args : valid env args <-> accepted env args.
Proof.
  unfold valid, accepted. split;
    intros (ct & st & cd & sd & D1 & D2 & L1 & L2 & V);
    exists ct, st, cd, sd.
  - rewrite <- !ExtensionFacts.determine_file_type_file_type,
      <- !loads_as_holds. auto.
  - rewrite !ExtensionFacts.determine_file_type_file_type,
      !loads_as_holds. auto.
Qed.

Lemma program_parsed args w :
  program env (Parsed args) w = main env args w.
Proof. reflexivity. Qed.

Lemma exit_code_parsed args :
  (accepted env args /\ exit_code env (Parsed args) = 0) \/
  (~ accepted env args /\ exit_code env (Parsed args) = 1).
Proof.
  unfold exit_code. rewrite program_parsed. fold (run env args).
  rewrite <- valid_accepted. apply run_valid_or_not.
Qed.

Lemma holds_functional type file_path data data' :
  holds env type file_path data -> holds env type file_path data' ->
  data = data'.
Proof.
  intros [_ (f & Ho & H)] [_ (f' & Ho' & H')]. congruence.
Qed.
End ExitStatus.

(** C2, as the code has it: for a command line that the parser takes,
    the process exits with status 0 exactly when the configuration is
    valid against the schema (both files have a type, both open and
    parse in the format of their type, and the validator returns), and
    with status 1 in every other case: a file without a type, a file
    that does not open, a file that does not parse, a configuration
    that the validator refuses, or whatever else the validator raises.
    For [--help] the parser ends the process with status 0, and for a
    command line that it refuses with status 2, before [main] does
    anything. *)
Theorem program_exit_code (env : Env) (command_line : parsed) :
  match command_line with
  | Parsed args =>
      let status := exit_code env command_line in
      let unknown_type file_path declared :=
        ~ exists t, file_type file_path declared t in
      let unreadable file_path declared :=
        exists t e,
          file_type file_path declared t /\
          (open_ env file_path = Err e \/
           exists f, open_ env file_path = Ok f /\ parse env t f = Err e) in
      (status = 0 <-> accepted env args) /\
      (status = 0 \/ status = 1) /\
      (unknown_type (config_file args) (config_type args) \/
       unknown_type (schema_file args) (schema_type args) -> status = 1) /\
      (unreadable (config_file args) (config_type args) \/
       unreadable (schema_file args) (schema_type args) -> status = 1) /\
      (forall ct st config_data schema_data e,
         file_type (config_file args) (config_type args) ct ->
         file_type (schema_file args) (schema_type args) st ->
         holds env ct (config_file args) config_data ->
         holds env st (schema_file args) schema_data ->
         validate env config_data schema_data = Err e -> status = 1)
  | Help => exit_code env command_line = 0
  | UsageError _ => exit_code env command_line = 2
  end.
Proof.
  destruct command_line as [args | | message]; [| reflexivity | reflexivity].
  cbv zeta.
  assert (Hno : ~ accepted env args -> exit_code env (Parsed args) = 1).
  { intros Hn. destruct (exit_code_parsed env args) as [[Ha _] | [_ E]];
      [contradiction | exact E]. }
  repeat match goal with |- _ /\ _ => split end.
  - destruct (exit_code_parsed env args) as [[Ha ->] | [Hn ->]];
      [tauto | split; [discriminate | contradiction]].
  - destruct (exit_code_parsed env args) as [[_ ->] | [_ ->]]; auto.
  - intros [H | H]; apply Hno;
      intros (ct & st & cd & sd & T1 & T2 & _); apply H; eauto.
  - intros [(t & e & T & H) | (t & e & T & H)]; apply Hno;
      intros (ct & st & cd & sd & T1 & T2 & [_ (f & Ho & Hp)]
              & [_ (f' & Ho' & Hp')] & _).
    + assert (ct = t) by (eapply ExtensionFacts.file_type_functional; eauto).
      subst ct. destruct H as [H | (g & Hg & H)]; congruence.
    + assert (st = t) by (eapply ExtensionFacts.file_type_functional; eauto).
      subst st. destruct H as [H | (g & Hg & H)]; congruence.
  - intros ct st cd sd e T1 T2 L1 L2 V. apply Hno.
    intros (ct' & st' & cd' & sd' & T1' & T2' & L1' & L2' & V').
    assert (ct' = ct) by (eapply ExtensionFacts.file_type_functional; eauto).
    assert (st' = st) by (eapply ExtensionFacts.file_type_functional; eauto).
    subst ct' st'.
    assert (cd' = cd) by (eapply holds_functional; eauto).
    assert (sd' = sd) by (eapply holds_functional; eauto).
    congruence.
Qed.

(** C2 fails as stated for the invocations that the parser ends: with
    [--help] the process exits with status 0 although nothing was
    resolved, loaded or validated, and a command line that the parser
    refuses is a failure with status 2, not 1. *)
Lemma parser_exit_codes :
  exit_code sample_env Help = 0 /\
  program sample_env Help initial_world = (SystemExit 0, initial_world) /\
  exit_code sample_env
    (UsageError "the following arguments are required: config_file, schema_file")
    = 2.
Proof. repeat split. Qed.

Example exit_code_samples :
  exit_code sample_env (Parsed (sample_args "empty.yaml" "empty.yaml" INFO))
    = 0 /\
  exit_code sample_env (Parsed (sample_args "missing.json" "empty.yaml" INFO))
    = 1 /\
  exit_code sample_env (Parsed (sample_args "empty.json" "empty.yaml" INFO))
    = 1 /\
  exit_code sample_env (Parsed (sample_args "config.txt" "empty.yaml" INFO))
    = 1 /\
  exit_code sample_env_invalid
    (Parsed (sample_args "empty.yaml" "empty.yaml" INFO)) = 1 /\
  exit_code sample_env_yaml
    (Parsed (sample_args "duplicate.yaml" "empty.yaml" INFO)) = 1.
Proof. repeat split. Qed.

(** X1: the directory part of a path has no say in the inferred type:
    for a path made of a directory prefix and a file name, the resolver
    answers as for the file name alone (the dots of directory names are
    not taken for an extension); only the message of the [ValueError]
    names the whole path. *)
Theorem determine_file_type_basename (dir name : string) :
  is_dir_prefix dir -> PyStr.contains "/" name = false ->
  determine_file_type (dir ++ name) None =
    match determine_file_type name None with
    | Ok t => Ok t
    | Err _ => Err (unknown_file_type (dir ++ name))
    end.
Proof.
  intros Hdir Hname. rewrite !determine_file_type_lower. cbv zeta.
  rewrite (ResolverFacts.splitext_basename dir name Hdir Hname).
  repeat destruct (String.eqb _ _); reflexivity.
Qed.

Lemma determine_file_type_basename_witness :
  is_dir_prefix "conf.d/v1.2/" /\
  PyStr.contains "/" "app.YAML" = false /\
  determine_file_type "conf.d/v1.2/app.YAML" None = Ok "yaml".
Proof.
  assert (H : is_dir_prefix "conf.d/v1.2/")
    by (right; exists "conf.d/v1.2"; reflexivity).
  exact (conj H (conj eq_refl
           (determine_file_type_basename "conf.d/v1.2/" "app.YAML" H eq_refl))).
Defined.

(** X2: a file name without a dot has no extension, whatever the
    directories above it are called: without a declared type the resolver
    raises its [ValueError]. *)
Theorem determine_file_type_no_dot (dir name : string) :
  is_dir_prefix dir ->
  PyStr.contains "/" name = false -> PyStr.contains "." name = false ->
  determine_file_type (dir ++ name) None =
    Err (unknown_file_type (dir ++ name)).
Proof.
  intros Hdir Hname Hdot. rewrite determine_file_type_lower. cbv zeta.
  rewrite (ResolverFacts.splitext_basename dir name Hdir Hname).
  now rewrite (ResolverFacts.splitext_no_dot name Hdot).
Qed.

Lemma determine_file_type_no_dot_witness :
  is_dir_prefix "configs.json/" /\
  PyStr.contains "/" "settings" = false /\
  PyStr.contains "." "settings" = false /\
  determine_file_type "configs.json/settings" None =
    Err (unknown_file_type "configs.json/settings").
Proof.
  assert (H : is_dir_prefix "configs.json/")
    by (right; exists "configs.json"; reflexivity).
  exact (conj H (conj eq_refl (conj eq_refl
           (determine_file_type_no_dot "configs.json/" "settings"
              H eq_refl eq_refl)))).
Defined.

Lemma determine_file_type_of_extension_witness :
  is_dir_prefix "backup/" /\
  PyStr.contains "/" "site.tar.old" = false /\
  "d"%char <> "."%char /\
  PyStr.contains "." "Json" = false /\ PyStr.contains "/" "Json" = false /\
  determine_file_type "backup/site.tar.old.Json" None = Ok "json".
Proof.
  assert (H : is_dir_prefix "backup/")
    by (right; exists "backup"; reflexivity).
  assert (Hc : "d"%char <> "."%char) by discriminate.
  exact (conj H (conj eq_refl (conj Hc (conj eq_refl (conj eq_refl
           (determine_file_type_of_extension "backup/" "site.tar.ol" "d" ""
              "Json" H eq_refl Hc eq_refl eq_refl)))))).
Defined.

(* ===================================================================== *)
(** ** The log of a run *)
(* ===================================================================== *)

Section Log.
Variable env : Env.

Lemma visible_app l rs1 rs2 :
  visible l (rs1 ++ rs2) = (visible l rs1 ++ visible l rs2)%list.
Proof. apply filter_app. Qed.

Lemma logged_refl w : logged w w [].
Proof. split; [reflexivity |]. cbn. now rewrite app_nil_r. Qed.

Lemma logged_emit l msg w : logged w (emit l msg w) [(l, msg)].
Proof.
  unfold logged, emit, visible. cbn [filter fst].
  destruct (levelno (root_level w) <=? levelno l); cbn;
    [now split | now rewrite app_nil_r].
Qed.

Lemma logged_record_call c w : logged w (record_call c w) [].
Proof. split; [reflexivity |]. cbn. now rewrite app_nil_r. Qed.

Lemma logged_trans w w' w'' rs1 rs2 :
  logged w w' rs1 -> logged w' w'' rs2 -> logged w w'' (rs1 ++ rs2).
Proof.
  intros [L1 R1] [L2 R2]. split; [congruence |].
  now rewrite R2, R1, L1, visible_app, app_assoc.
Qed.

Lemma logged_call_emit c l msg w :
  logged w (emit l msg (record_call c w)) [(l, msg)].
Proof.
  apply (logged_trans w (record_call c w) _ [] [(l, msg)]);
    [apply logged_record_call | apply logged_emit].
Qed.

(** One load in [main], with what it logs. *)
Lemma load_step_log (type file_path msg : string) w :
  exists o w',
    (if String.eqb type "json"
     then invoke (Call_load_json file_path) (load_json env file_path)
     else if String.eqb type "yaml"
     then invoke (Call_load_yaml file_path) (load_yaml env file_path)
     else logging_error msg ;; sys_exit 1) w = (o, w') /\
    ((type <> "json" /\ type <> "yaml" /\ o = SystemExit 1 /\
      logged w w' [(ERROR, msg)]) \/
     (exists e,
        (type = "json" \/ type = "yaml") /\
        failure_of env (load_call type file_path) = Some e /\
        o = Raise e /\ logged w w' (loader_log type file_path e)) \/
     (exists data,
        loads_as env type file_path data /\ o = Return data /\
        logged w w' [])).
Proof.
  destruct (String.eqb_spec type "json") as [-> | Hj].
  - unfold invoke. rewrite load_json_run.
    destruct (read_json env file_path) as [d | e] eqn:E;
      do 2 eexists; (split; [reflexivity |]); right.
    + right. exists d.
      refine (conj (loads_as_json env _ _ E) (conj eq_refl _)).
      apply logged_record_call.
    + left. exists e.
      refine (conj (or_introl eq_refl) (conj _ (conj eq_refl _))).
      * cbn. now rewrite E.
      * unfold loader_log. cbn [String.eqb Ascii.eqb Bool.eqb].
        repeat destruct (isinstance _ _);
          first [apply logged_call_emit | apply logged_record_call].
  - destruct (String.eqb_spec type "yaml") as [-> | Hy].
    + unfold invoke. rewrite load_yaml_run.
      destruct (read_yaml env Yaml.YAML_safe file_path) as [d | e] eqn:E;
        do 2 eexists; (split; [reflexivity |]); right.
      * right. exists d.
        refine (conj (loads_as_yaml env _ _ E) (conj eq_refl _)).
        apply logged_record_call.
      * left. exists e.
        refine (conj (or_intror eq_refl) (conj _ (conj eq_refl _))).
        -- cbn. now rewrite E.
        -- unfold loader_log. cbn [String.eqb Ascii.eqb Bool.eqb].
           destruct (isinstance e FileNotFoundError);
             [apply logged_call_emit |].
           destruct (_ || _);
             first [apply logged_call_emit | apply logged_record_call].
    + do 2 eexists. split; [reflexivity |]. left.
      refine (conj Hj (conj Hy (conj eq_refl _))).
      apply (logged_emit ERROR msg w).
Qed.

Lemma logged_step w w' w'' rs :
  logged w w' [] -> logged w' w'' rs -> logged w w'' rs.
Proof. intros H1 H2. exact (logged_trans _ _ _ [] rs H1 H2). Qed.

(** The body of [main] logs what [run_log] says. *)
Lemma main_body_log args w :
  exists rs,
    logged w (snd (main_body env args w)) rs /\
    run_log env args (fst (main_body env args w)) rs.
Proof.
  unfold main_body.
  rewrite bind_run, resolve_step. cbv zeta.
  destruct (determine_file_type (config_file args) (config_type args))
    as [ct | e1] eqn:E1.
  2: { eexists; split; [apply logged_call_emit |].
       eapply log_config_type_unknown; eassumption. }
  rewrite bind_run, resolve_step. cbv zeta.
  destruct (determine_file_type (schema_file args) (schema_type args))
    as [st | e2] eqn:E2.
  2: { eexists; split;
         [eapply logged_step; [apply logged_record_call |];
          apply logged_call_emit |].
       eapply log_schema_type_unknown; eassumption. }
  rewrite bind_run.
  match goal with |- context [(if String.eqb ct "json" then _ else _) ?w0] =>
    assert (L0 : logged w w0 [])
      by (eapply logged_step; apply logged_record_call);
    destruct (load_step_log ct (config_file args)
                "Invalid config file type." w0)
      as (o1 & w1 & R1 & C1) end.
  rewrite R1. clear R1.
  destruct C1 as [(Hj & Hy & -> & L1) | [(e & Ht & Hf & -> & L1)
                                        | (cd & Lc & -> & L1)]].
  { eexists; split; [exact (logged_step _ _ _ _ L0 L1) |].
    eapply log_config_type_invalid; eassumption. }
  { eexists; split; [exact (logged_step _ _ _ _ L0 L1) |].
    eapply log_config_load_fails; eassumption. }
  assert (L1' : logged w w1 []) by exact (logged_step _ _ _ _ L0 L1).
  rewrite bind_run.
  match goal with |- context [(if String.eqb st "json" then _ else _) ?w0] =>
    destruct (load_step_log st (schema_file args)
                "Invalid schema file type." w0)
      as (o2 & w2 & R2 & C2) end.
  rewrite R2. clear R2.
  destruct C2 as [(Hj & Hy & -> & L2) | [(e & Ht & Hf & -> & L2)
                                        | (sd & Ls & -> & L2)]].
  { eexists; split; [exact (logged_step _ _ _ _ L1' L2) |].
    eapply log_schema_type_invalid; eassumption. }
  { eexists; split; [exact (logged_step _ _ _ _ L1' L2) |].
    eapply log_schema_load_fails; eassumption. }
  assert (L2' : logged w w2 []) by exact (logged_step _ _ _ _ L1' L2).
  rewrite bind_run. unfold invoke. rewrite validate_config_run.
  destruct (validate env cd sd) as [[] | e] eqn:V.
  - exists success_log. split; [| eapply log_valid; eassumption].
    eapply logged_step; [exact L2' |].
    cbn [snd bind logging_info logging_log sys_exit].
    unfold success_log.
    refine (logged_trans _ _ _ [_] [_] (logged_call_emit _ _ _ _)
              (logged_emit _ _ _)).
  - exists (validator_log e).
    split; [| eapply log_validation_fails; eassumption].
    eapply logged_step; [exact L2' |]. cbn [snd]. unfold validator_log.
    destruct (isinstance e ValidationError);
      [apply logged_call_emit | apply logged_record_call].
Qed.

(** A run of [main]: the exit code, and the records logged by the body
    and by the clause of [main] that takes the exception. *)
Lemma main_log args w :
  exists o rs,
    run_log env args o rs /\
    fst (main env args w) =
      SystemExit (match o with SystemExit code => code | _ => 1 end) /\
    records (snd (main env args w)) =
      (records w ++ visible (log_level args) (rs ++ handler_log o))%list.
Proof.
  unfold main. rewrite bind_run. cbn [setLevel].
  set (w0 := mk_world (log_level args) (records w) (history w)).
  destruct (main_body_log args w0) as (rs & [Hl Hrec] & Hr).
  cbn [w0 root_level records] in Hl, Hrec.
  unfold try_except.
  destruct (main_body env args w0) as [o w1]. cbn [fst snd] in *.
  exists o, rs. split; [assumption |].
  destruct o as [u | e | code].
  - inversion Hr.
  - cbn [dispatch handler_log]. unfold quiet.
    do 3 (destruct (matches e _);
          [cbn [orb]; rewrite app_nil_r; split; [reflexivity | exact Hrec] |]).
    cbn [orb].
    assert (HE : matches e [Exception] = true)
      by (unfold matches; cbn [existsb]; now rewrite isinstance_Exception).
    rewrite HE. split; [reflexivity |].
    cbn [snd bind logging_error logging_log sys_exit].
    destruct (logged_emit ERROR
                ("An unexpected error occurred: " ++ exc_str e) w1)
      as [_ ->].
    now rewrite Hrec, Hl, visible_app, app_assoc.
  - cbn [handler_log]. rewrite app_nil_r. split; [reflexivity | exact Hrec].
Qed.

End Log.

(* ===================================================================== *)
(** ** Further properties of the driver *)
(* ===================================================================== *)

(** X4: [validate_config] never returns [False]: it returns [True]
    exactly when [validate] returns, and otherwise raises what
    [validate] raised. *)
Theorem validate_config_true_or_raises
        (env : Env) (config_data schema_data : pyvalue) (w : world) :
  (fst (validate_config env config_data schema_data w) = Return true <->
   validate env config_data schema_data = Ok tt) /\
  (forall e,
     fst (validate_config env config_data schema_data w) = Raise e <->
     validate env config_data schema_data = Err e) /\
  fst (validate_config env config_data schema_data w) <> Return false.
Proof.
  rewrite validate_config_run.
  destruct (validate env config_data schema_data) as [[] | e0]; cbn [fst].
  - split; [tauto |]. split; [| discriminate].
    intros e. split; discriminate.
  - split; [split; discriminate |]. split; [| discriminate].
    intros e. split; congruence.
Qed.

(** X5: from every state [main] ends in [sys.exit(0)] or [sys.exit(1)]:
    it never returns and lets no exception through. *)
Theorem main_always_exits (env : Env) (args : Namespace) (w : world) :
  fst (main env args w) = SystemExit 0 \/
  fst (main env args w) = SystemExit 1.
Proof.
  destruct (main_run env args w) as (h & o & Hr & _ & _ & ->).
  destruct Hr; auto.
Qed.

(** X6: [--log_level] changes what is logged only: the exit status of a
    run is the same under every level. *)
Theorem run_log_level_irrelevant (env : Env) (args : Namespace) (l : level) :
  run env (set_log_level l args) = run env args.
Proof.
  assert (Hv : valid env (set_log_level l args) <-> valid env args)
    by (unfold valid; reflexivity).
  destruct (run_valid_or_not env args) as [[V ->] | [V ->]],
           (run_valid_or_not env (set_log_level l args)) as [[V' ->] | [V' ->]];
    tauto.
Qed.

Section LogFacts.
Variable env : Env.

(** What a run logs, body and clauses of [main] together: the two
    records of success, or at most one record, an error. *)
Lemma run_log_shape args o rs :
  run_log env args o rs ->
  (o = SystemExit 0 /\ rs ++ handler_log o = success_log)%list \/
  (o <> SystemExit 0 /\
   (rs ++ handler_log o = [] \/
    exists msg, rs ++ handler_log o = [(ERROR, msg)])%list).
Proof.
  intros Hr. destruct Hr; [right | right | right | right | right | right
                          | right | left];
    try (split; [discriminate | right; eexists; reflexivity]);
    try (split; reflexivity).
  - split; [discriminate |].
    unfold loader_log, handler_log, quiet, matches. cbn [existsb].
    rewrite !orb_false_r.
    destruct (isinstance e FileNotFoundError), (isinstance e JSONDecodeError),
      (isinstance e ParserError), (isinstance e ScannerError),
      (isinstance e ValidationError), (String.eqb ct "json");
      cbn; eauto.
  - split; [discriminate |].
    unfold loader_log, handler_log, quiet, matches. cbn [existsb].
    rewrite !orb_false_r.
    destruct (isinstance e FileNotFoundError), (isinstance e JSONDecodeError),
      (isinstance e ParserError), (isinstance e ScannerError),
      (isinstance e ValidationError), (String.eqb st "json");
      cbn; eauto.
  - split; [discriminate |].
    unfold validator_log, handler_log, quiet, matches. cbn [existsb].
    rewrite !orb_false_r.
    destruct (isinstance e FileNotFoundError), (isinstance e JSONDecodeError),
      (isinstance e ParserError), (isinstance e ScannerError),
      (isinstance e ValidationError); cbn; eauto.
Qed.

End LogFacts.

(** X7: a run logs the two records of success, both at [INFO], when it
    exits with 0, and at most one record, at [ERROR], when it exits
    with 1 (no failure is reported twice); of these the root logger
    keeps the ones its level lets through. *)
Theorem main_records (env : Env) (args : Namespace) :
  let recs := records (snd (main env args initial_world)) in
  (run env args = 0 /\ recs = visible (log_level args) success_log) \/
  (run env args = 1 /\
   (recs = [] \/ exists msg, recs = visible (log_level args) [(ERROR, msg)])).
Proof.
  cbv zeta. unfold run.
  destruct (main_log env args initial_world) as (o & rs & Hr & -> & ->).
  cbn [initial_world records app exit_status].
  destruct (run_log_shape env args o rs Hr) as [[-> ->] | [Ho [-> | [msg ->]]]].
  - now left.
  - right. split; [| now left].
    destruct Hr; try reflexivity; contradiction.
  - right. split; [| right; now exists msg].
    destruct Hr; try reflexivity; contradiction.
Qed.

(** X8: under [--log_level CRITICAL] no run logs anything: every record
    of the program is at [INFO] or [ERROR]. *)
Theorem main_silent_at_critical (env : Env) (args : Namespace) :
  log_level args = CRITICAL ->
  records (snd (main env args initial_world)) = [].
Proof.
  intros Hl.
  destruct (main_log env args initial_world) as (o & rs & Hr & _ & ->).
  rewrite Hl. cbn [initial_world records app].
  destruct (run_log_shape env args o rs Hr) as [[_ ->] | [_ [-> | [msg ->]]]];
    reflexivity.
Qed.

Lemma main_silent_at_critical_witness :
  log_level (sample_args "missing.json" "empty.yaml" CRITICAL) = CRITICAL /\
  records (snd (main sample_env
                  (sample_args "missing.json" "empty.yaml" CRITICAL)
                  initial_world)) = [].
Proof.
  exact (conj eq_refl
           (main_silent_at_critical sample_env
              (sample_args "missing.json" "empty.yaml" CRITICAL) eq_refl)).
Defined.

Section DriverFacts.
Variable env : Env.

(** With a declared type from the command line the resolver answers
    [json] or [yaml]. *)
Lemma determine_file_type_choice file_path arg_type t :
  from_command_line arg_type ->
  determine_file_type file_path arg_type = Ok t -> t = "json" \/ t = "yaml".
Proof.
  unfold determine_file_type.
  destruct arg_type as [x |]; cbn [from_command_line type_choices In].
  - intros [<- | [<- | []]]; cbn [truthy]; intros [= <-]; auto.
  - intros _. repeat destruct (str_in _ _); intros [= <-]; auto.
Qed.

(** Every record of a run, by the step that logged it. *)
Lemma run_log_records args o rs r :
  run_log env args o rs -> In r (rs ++ handler_log o)%list ->
  (exists file_path, r = (ERROR, exc_str (unknown_file_type file_path))) \/
  (r = (ERROR, "Invalid config file type.") /\
   exists ct,
     determine_file_type (config_file args) (config_type args) = Ok ct /\
     ct <> "json" /\ ct <> "yaml") \/
  (r = (ERROR, "Invalid schema file type.") /\
   exists st,
     determine_file_type (schema_file args) (schema_type args) = Ok st /\
     st <> "json" /\ st <> "yaml") \/
  (exists file_path, r = (ERROR, "File not found: " ++ file_path)) \/
  (exists file_path msg,
     r = (ERROR, "Invalid JSON in " ++ file_path ++ ": " ++ msg) \/
     r = (ERROR, "Invalid YAML in " ++ file_path ++ ": " ++ msg)) \/
  (exists msg, r = (ERROR, "Configuration is invalid: " ++ msg)) \/
  (exists msg, r = (ERROR, "An unexpected error occurred: " ++ msg)) \/
  In r success_log.
Proof.
  assert (Hh : forall e,
             In r (handler_log (Raise e)) ->
             r = (ERROR, "An unexpected error occurred: " ++ exc_str e)).
  { intros e. unfold handler_log.
    destruct (quiet e); cbn [In]; intuition congruence. }
  assert (Hl : forall t p e,
             In r (loader_log t p e) ->
             r = (ERROR, "File not found: " ++ p) \/
             r = (ERROR, "Invalid JSON in " ++ p ++ ": " ++ exc_str e) \/
             r = (ERROR, "Invalid YAML in " ++ p ++ ": " ++ exc_str e)).
  { intros t p e. unfold loader_log.
    repeat match goal with
           | |- context [if ?b then _ else _] => destruct b
           end; cbn [In]; intuition congruence. }
  intros Hr Hin. apply in_app_or in Hin.
  destruct Hr; cbn [handler_log In] in Hin.
  - destruct Hin as [[<- | []] | []]. left.
    exists (config_file args).
    now rewrite (determine_file_type_error _ _ _ H).
  - destruct Hin as [[<- | []] | []]. left.
    exists (schema_file args).
    now rewrite (determine_file_type_error _ _ _ H0).
  - destruct Hin as [[<- | []] | []]. right; left. eauto.
  - destruct Hin as [Hin | Hin].
    + destruct (Hl _ _ _ Hin) as [-> | [-> | ->]]; eauto 12.
    + rewrite (Hh _ Hin). eauto 12.
  - destruct Hin as [[<- | []] | []]. right; right; left. eauto.
  - destruct Hin as [Hin | Hin].
    + destruct (Hl _ _ _ Hin) as [-> | [-> | ->]]; eauto 12.
    + rewrite (Hh _ Hin). eauto 12.
  - destruct Hin as [Hin | Hin].
    + unfold validator_log in Hin.
      destruct (isinstance e ValidationError); [| destruct Hin].
      destruct Hin as [<- | []]. eauto 12.
    + rewrite (Hh _ Hin). eauto 12.
  - destruct Hin as [Hin | []]. tauto.
Qed.

End DriverFacts.

(** X9: with declared types as the command line admits them (absent, or
    [json] or [yaml]) the two branches of [main] for another type are
    never taken: no run logs "Invalid config file type." or
    "Invalid schema file type.". *)
Theorem main_type_branches_dead (env : Env) (args : Namespace) :
  from_command_line (config_type args) ->
  from_command_line (schema_type args) ->
  forall l msg,
    In (l, msg) (records (snd (main env args initial_world))) ->
    msg <> "Invalid config file type." /\
    msg <> "Invalid schema file type.".
Proof.
  intros Hc Hs l msg Hin.
  destruct (main_log env args initial_world) as (o & rs & Hr & _ & Hrec).
  rewrite Hrec in Hin. cbn [initial_world records app] in Hin.
  apply filter_In in Hin as [Hin _].
  destruct (run_log_records env args o rs _ Hr Hin)
    as [[p E] | [[E (ct & D & Hj & Hy)] | [[E (st & D & Hj & Hy)]
       | [[p E] | [(p & m & [E | E]) | [[m E] | [[m E] | E]]]]]]];
    try (injection E as -> ->; split; discriminate).
  - destruct (determine_file_type_choice _ _ _ Hc D); contradiction.
  - destruct (determine_file_type_choice _ _ _ Hs D); contradiction.
  - destruct E as [E | [E | []]]; injection E as <- <-; split; discriminate.
Qed.

Lemma main_type_branches_dead_witness :
  from_command_line (config_type (sample_args "config.txt" "empty.yaml" INFO)) /\
  from_command_line (schema_type (sample_args "config.txt" "empty.yaml" INFO)) /\
  In (ERROR, exc_str (unknown_file_type "config.txt"))
     (records (snd (main sample_env
                      (sample_args "config.txt" "empty.yaml" INFO)
                      initial_world))) /\
  exc_str (unknown_file_type "config.txt") <> "Invalid config file type." /\
  exc_str (unknown_file_type "config.txt") <> "Invalid schema file type.".
Proof.
  assert (Hin : In (ERROR, exc_str (unknown_file_type "config.txt"))
                   (records (snd (main sample_env
                                    (sample_args "config.txt" "empty.yaml" INFO)
                                    initial_world))))
    by (left; reflexivity).
  exact (conj I (conj I (conj Hin
           (main_type_branches_dead sample_env
              (sample_args "config.txt" "empty.yaml" INFO) I I _ _ Hin)))).
Defined.

Section ValidationFacts.
Variable env : Env.

(** The run in which both documents load and the validator raises. *)
Lemma run_log_validation_fails args ct st config_data schema_data e o rs :
  determine_file_type (config_file args) (config_type args) = Ok ct ->
  determine_file_type (schema_file args) (schema_type args) = Ok st ->
  loads_as env ct (config_file args) config_data ->
  loads_as env st (schema_file args) schema_data ->
  validate env config_data schema_data = Err e ->
  run_log env args o rs -> o = Raise e /\ rs = validator_log e.
Proof.
  intros D1 D2 L1 L2 V Hr.
  destruct Hr;
    repeat match goal with
           | H : determine_file_type ?p ?t = Ok ?x,
             H' : determine_file_type ?p ?t = _ |- _ =>
               first [ assert (x = ct) by congruence; subst x
                     | assert (x = st) by congruence; subst x
                     | congruence ]
           end;
    try congruence.
  - destruct (loads_as_type _ _ _ _ L1); contradiction.
  - apply loads_as_succeeds in L1. congruence.
  - destruct (loads_as_type _ _ _ _ L2); contradiction.
  - apply loads_as_succeeds in L2. congruence.
  - assert (config_data0 = config_data) by eauto using loads_as_functional.
    assert (schema_data0 = schema_data) by eauto using loads_as_functional.
    subst. split; congruence.
  - assert (config_data0 = config_data) by eauto using loads_as_functional.
    assert (schema_data0 = schema_data) by eauto using loads_as_functional.
    subst. congruence.
Qed.

End ValidationFacts.

(** X10: when both documents load and the validator raises, the run
    exits with 1 and logs one record: "Configuration is invalid" for a
    [ValidationError] (logged by [validate_config], not again by
    [main]), and "An unexpected error occurred" for a [SchemaError]: an
    invalid schema is not told apart from an internal error. *)
Theorem validation_failure_reported
        (env : Env) (args : Namespace) (ct st : string)
        (config_data schema_data : pyvalue) (e : exn) :
  determine_file_type (config_file args) (config_type args) = Ok ct ->
  determine_file_type (schema_file args) (schema_type args) = Ok st ->
  loads_as env ct (config_file args) config_data ->
  loads_as env st (schema_file args) schema_data ->
  validate env config_data schema_data = Err e ->
  run env args = 1 /\
  (exc_type e = ValidationError ->
   records (snd (main env args initial_world)) =
     visible (log_level args)
       [(ERROR, "Configuration is invalid: " ++ exc_str e)]) /\
  (exc_type e = SchemaError ->
   records (snd (main env args initial_world)) =
     visible (log_level args)
       [(ERROR, "An unexpected error occurred: " ++ exc_str e)]).
Proof.
  intros D1 D2 L1 L2 V. unfold run.
  destruct (main_log env args initial_world) as (o & rs & Hr & -> & ->).
  destruct (run_log_validation_fails env args _ _ _ _ _ o rs D1 D2 L1 L2 V Hr)
    as [-> ->].
  split; [reflexivity |].
  destruct e as [c msg]. cbn [exc_type exc_str].
  split; intros ->; reflexivity.
Qed.

Lemma validation_failure_reported_witness :
  run sample_env_invalid (sample_args "empty.yaml" "empty.yaml" INFO) = 1 /\
  records (snd (main sample_env_invalid
                  (sample_args "empty.yaml" "empty.yaml" INFO)
                  initial_world)) =
    [(ERROR, "Configuration is invalid: None is not of type 'object'")] /\
  records (snd (main sample_env_bad_schema
                  (sample_args "empty.yaml" "empty.yaml" INFO)
                  initial_world)) =
    [(ERROR,
      "An unexpected error occurred: None is not of type 'object', 'boolean'")].
Proof.
  pose proof (validation_failure_reported sample_env_invalid
                (sample_args "empty.yaml" "empty.yaml" INFO) "yaml" "yaml"
                PyNone PyNone _ eq_refl eq_refl
                (or_intror (conj eq_refl eq_refl))
                (or_intror (conj eq_refl eq_refl)) eq_refl)
    as (H1 & H2 & _).
  pose proof (validation_failure_reported sample_env_bad_schema
                (sample_args "empty.yaml" "empty.yaml" INFO) "yaml" "yaml"
                PyNone PyNone _ eq_refl eq_refl
                (or_intror (conj eq_refl eq_refl))
                (or_intror (conj eq_refl eq_refl)) eq_refl)
    as (_ & _ & H3).
  exact (conj H1 (conj (H2 eq_refl) (H3 eq_refl))).
Defined.

(** X11: the validator is called on what the two loaders returned, the
    configuration as instance and the schema as schema: a call of
    [validate_config] in the history of a run has the loaded
    configuration as first and the loaded schema as second argument. *)
Theorem validator_gets_loaded_documents
        (env : Env) (args : Namespace) (config_data schema_data : pyvalue) :
  In (Call_validate_config config_data schema_data)
     (history (snd (main env args initial_world))) ->
  exists ct st,
    determine_file_type (config_file args) (config_type args) = Ok ct /\
    determine_file_type (schema_file args) (schema_type args) = Ok st /\
    loads_as env ct (config_file args) config_data /\
    loads_as env st (schema_file args) schema_data.
Proof.
  intros Hin.
  destruct (main_run env args initial_world) as (h & o & Hr & _ & Hh & _).
  rewrite Hh in Hin. cbn [initial_world history app] in Hin.
  destruct Hr; unfold plan, load_call in Hin; cbn [firstn In] in Hin;
    repeat match goal with
           | H : _ \/ _ |- _ => destruct H as [H | H]
           | H : False |- _ => destruct H
           | H : (if ?b then _ else _) = _ |- _ => destruct b
           | H : Call_determine_file_type _ _ = _ |- _ => discriminate H
           | H : Call_load_json _ = _ |- _ => discriminate H
           | H : Call_load_yaml _ = _ |- _ => discriminate H
           end;
    try (injection Hin as <- <-; eauto 10).
Qed.

Lemma validator_gets_loaded_documents_witness :
  In (Call_validate_config PyNone PyNone)
     (history (snd (main sample_env_null
                      (sample_args "null.json" "empty.yaml" INFO)
                      initial_world))) /\
  exists ct st,
    determine_file_type "null.json" None = Ok ct /\
    determine_file_type "empty.yaml" None = Ok st /\
    loads_as sample_env_null ct "null.json" PyNone /\
    loads_as sample_env_null st "empty.yaml" PyNone.
Proof.
  assert (Hin : In (Call_validate_config PyNone PyNone)
                   (history (snd (main sample_env_null
                                    (sample_args "null.json" "empty.yaml" INFO)
                                    initial_world))))
    by (do 4 right; left; reflexivity).
  exact (conj Hin
           (validator_gets_loaded_documents sample_env_null
              (sample_args "null.json" "empty.yaml" INFO) PyNone PyNone Hin)).
Defined.

(** X12: a declared type decides which loader [main] calls, whatever
    the file is called: with [--config_type t] the third call of a run,
    when there is one, is the loader of [t] on the configuration file,
    and with [--schema_type t] the fourth call is the loader of [t] on
    the schema file. *)
Theorem declared_type_selects_loader
        (env : Env) (args : Namespace) (t : string) :
  In t type_choices ->
  let calls := history (snd (main env args initial_world)) in
  (config_type args = Some t ->
   forall c, nth_error calls 2 = Some c ->
             c = load_call t (config_file args)) /\
  (schema_type args = Some t ->
   forall c, nth_error calls 3 = Some c ->
             c = load_call t (schema_file args)).
Proof.
  intros Ht. cbv zeta.
  assert (Hne : t <> "") by (destruct Ht as [<- | [<- | []]]; discriminate).
  destruct (main_run env args initial_world) as (h & o & Hr & _ & -> & _).
  cbn [initial_world history app].
  split; intros Hd c Hc;
    destruct Hr; unfold plan in Hc; cbn [firstn nth_error] in Hc;
    try discriminate; injection Hc as <-;
    match goal with
    | H : determine_file_type _ ?a = Ok ?x, E : ?a = Some t |- _ =>
        rewrite E, (determine_file_type_truthy _ _ Hne) in H;
        injection H as <-
    end; reflexivity.
Qed.

Lemma declared_type_selects_loader_witness :
  In "json" type_choices /\
  nth_error
    (history (snd (main sample_env
                     {| config_file := "empty.yaml";
                        schema_file := "empty.yaml";
                        config_type := Some "json"; schema_type := None;
                        log_level := INFO |} initial_world))) 2 =
    Some (Call_load_json "empty.yaml").
Proof.
  assert (Ht : In "json" type_choices) by (left; reflexivity).
  split; [exact Ht |].
  pose proof (declared_type_selects_loader sample_env
                {| config_file := "empty.yaml"; schema_file := "empty.yaml";
                   config_type := Some "json"; schema_type := None;
                   log_level := INFO |} "json" Ht) as [H _].
  specialize (H eq_refl).
  destruct (nth_error _ 2) as [c |] eqn:E; [| discriminate E].
  now rewrite (H c eq_refl).
Defined.

Lemma run_same_documents_witness :
  loads_as sample_env_null "json" "null.json" PyNone /\
  loads_as sample_env_null "yaml" "empty.yaml" PyNone /\
  run sample_env_null (sample_args "null.json" "empty.yaml" INFO) =
  run sample_env_null (sample_args "empty.yaml" "empty.yaml" DEBUG).
Proof.
  assert (Hj : loads_as sample_env_null "json" "null.json" PyNone)
    by (left; split; reflexivity).
  assert (Hy : loads_as sample_env_null "yaml" "empty.yaml" PyNone)
    by (right; split; reflexivity).
  exact (conj Hj (conj Hy
           (run_same_documents sample_env_null
              (sample_args "null.json" "empty.yaml" INFO)
              (sample_args "empty.yaml" "empty.yaml" DEBUG)
              "json" "yaml" "yaml" "yaml" PyNone PyNone
              eq_refl eq_refl eq_refl eq_refl Hj Hy Hy Hy))).
Defined.

(* ===================================================================== *)
(** ** Blank JSON input *)
(* ===================================================================== *)

Lemma leading_whitespace_blank s :
  blank s = true -> Json.leading_whitespace s = String.length s.
Proof.
  induction s as [| a s IH]; cbn; [reflexivity |].
  intros H. apply andb_true_iff in H as [-> H]. now rewrite IH.
Qed.

Lemma prefix_BOM_blank s :
  blank s = true -> String.prefix Json.BOM s = false.
Proof.
  destruct s as [| a s]; [reflexivity |]. cbn [blank].
  intros H. apply andb_true_iff in H as [H _].
  unfold Json.BOM. cbn [String.prefix].
  destruct (ascii_dec "239" a) as [<- |]; [discriminate H | reflexivity].
Qed.

(** X14: a JSON file of white space only (spaces, tabs, line ends) is
    refused like an empty one: [load_json] raises the decoder's
    [JSONDecodeError] "Expecting value" at the end of the text and logs
    it as invalid JSON. *)
Theorem load_json_blank
        (env : Env) (file_path text : string) (w : world) :
  open_ env file_path = Ok (mk_file (Ok text)) -> blank text = true ->
  let e := Json.JSONDecodeError_ "Expecting value" text (len text) in
  load_json env file_path w =
    (Raise e,
     emit ERROR ("Invalid JSON in " ++ file_path ++ ": " ++ exc_str e) w).
Proof.
  intros Ho Hb. cbv zeta. rewrite load_json_run.
  assert (E : read_json env file_path =
              Err (Json.JSONDecodeError_ "Expecting value" text (len text))).
  { unfold read_json, Json.load, Json.loads, Json.decode, Json.raw_decode,
      Json.scan_once, Json.whitespace_end.
    rewrite Ho. cbn [rbind read]. rewrite (prefix_BOM_blank _ Hb).
    change (slice_from text 0) with text.
    rewrite (leading_whitespace_blank _ Hb). fold (len text).
    rewrite Z.add_0_l, Z.ltb_irrefl. reflexivity. }
  rewrite E. reflexivity.
Qed.

Lemma load_json_blank_witness :
  open_ sample_env_blank "blank.json" = Ok (mk_file (Ok "  ")) /\
  blank "  " = true /\
  load_json sample_env_blank "blank.json" initial_world =
    (Raise (mk_exn JSONDecodeError "Expecting value: line 1 column 3 (char 2)"),
     {| root_level := INFO;
        records :=
          [(ERROR,
            "Invalid JSON in blank.json: Expecting value: line 1 column 3 (char 2)")];
        history := [] |}).
Proof.
  exact (conj eq_refl (conj eq_refl
           (load_json_blank sample_env_blank "blank.json" "  " initial_world
              eq_refl eq_refl))).
Defined.
